(** * Ext.ux.grid.Printer: a shallow embedding of [src/ux/grid/Printer.js]

    The printer turns a grid (columns, store records, features) into one
    markup string by building an [Ext.XTemplate] and applying it to the
    store's records.  The embedding keeps the shape of the source: the
    column clean-up loop of [print], [getFeature], [generateBody], the
    template of [getHtmlMarkup] with its member functions, and the member
    functions of the grouped body template.

    JavaScript values are a small dynamically typed universe [jsval].
    A string is a sequence of code units below 256.  A number value is a
    double whose value is an integer, held by that value: up to 2^53
    these are all the integers; fractions, NaN and the infinities are no
    values of the model, and a conversion that yields one says so
    ([number]).  A string is converted to a number as the language does,
    by the literal it holds rounded to the nearest double, and a number
    is printed as the language prints it.  Objects are association lists,
    and a failing property read on [undefined] or [null] is an explicit
    [Throw].  The framework's classes are taken to be loaded.  Renderers,
    templates and the store's own aggregates are functions supplied by
    the host and are taken to return.

    The titles, labels and headings are spliced into the source of the
    template, which the framework compiles: template syntax in them would
    be evaluated.  The embedding copies these texts, as the template does
    when they hold none ([template_free]). *)

From Stdlib Require Import String Ascii List ZArith Bool Lia DecimalString.
Import ListNotations.
Open Scope string_scope.
Set Warnings "-register-all".

(* ================================================================= *)
(** ** JavaScript values *)

Inductive jsval : Type :=
| VUndef
| VNull
| VBool (b : bool)
| VNum (n : Z)
| VStr (s : string)
| VArr (items : list jsval)
| VObj (fields : list (string * jsval)).

(** The double-quote character, used to spell the markup literals. *)
Definition dq : string := String (ascii_of_nat 34) EmptyString.

(** [!!v] of the language. *)
Definition truthy (v : jsval) : bool :=
  match v with
  | VUndef | VNull => false
  | VBool b => b
  | VNum n => negb (n =? 0)%Z
  | VStr s => negb (String.eqb s EmptyString)
  | VArr _ | VObj _ => true
  end.

(** [Ext.isDefined(v)]: [typeof v !== 'undefined']. *)
Definition isDefined (v : jsval) : bool :=
  match v with VUndef => false | _ => true end.

(** [Ext.isArray(v)]. *)
Definition isArray (v : jsval) : bool :=
  match v with VArr _ => true | _ => false end.

(** [Ext.isObject(v)]: true of plain objects only. *)
Definition isObject (v : jsval) : bool :=
  match v with VObj _ => true | _ => false end.

(** [Ext.isEmpty(v)]: [null], [undefined], the empty string or an empty
    array. *)
Definition isEmpty (v : jsval) : bool :=
  match v with
  | VUndef | VNull => true
  | VStr s => String.eqb s EmptyString
  | VArr [] => true
  | _ => false
  end.

(** *** Numbers

    A number of the language is a double.  The model holds the doubles
    whose value is an integer, each by that value ([VNum n]); a conversion
    from a string takes the exact value of the literal and rounds it to
    the nearest double, and says of a result that is no integer only what
    kind it is. *)
Inductive number : Type :=
| NaN
| Infinite (negative : bool)
| Integer (n : Z)
| Fraction (negative : bool).

Definition number_opp (x : number) : number :=
  match x with
  | NaN => NaN
  | Infinite s => Infinite (negb s)
  | Integer n => Integer (- n)
  | Fraction s => Fraction (negb s)
  end.

(** [n / d] rounded to the nearest integer, a tie to the even one
    ([0 <= n], [0 < d]). *)
Definition round_half_even (n d : Z) : Z :=
  let q := (n / d)%Z in
  let r := (n mod d)%Z in
  if (2 * r <? d)%Z then q
  else if (d <? 2 * r)%Z then (q + 1)%Z
  else if Z.even q then q else (q + 1)%Z.

(** The double nearest to [n / d] ([0 <= n], [0 < d]): a significand of
    53 bits [m] and an exponent [e] no smaller than -1074, the value
    [m * 2^e] rounded half to even; 2^1024 and above is infinite. *)
Definition double_of_ratio (n d : Z) : number :=
  if (n =? 0)%Z then Integer 0
  else
    let k := (Z.log2 n - Z.log2 d)%Z in
    let below :=
      if (0 <=? k)%Z then (n <? d * 2 ^ k)%Z else (n * 2 ^ (- k) <? d)%Z in
    let b := if below then (k - 1)%Z else k in
    let e := Z.max (b - 52) (-1074) in
    if (0 <=? e)%Z then
      let m := round_half_even n (d * 2 ^ e) in
      if ((971 <? e) || ((e =? 971) && (2 ^ 53 <=? m)))%Z then Infinite false
      else Integer (m * 2 ^ e)
    else
      let m := round_half_even (n * 2 ^ (- e)) d in
      if (m mod 2 ^ (- e) =? 0)%Z then Integer (m / 2 ^ (- e))
      else Fraction false.

(** The decimal digits of an integer. *)
Definition decimal (n : Z) : string := NilZero.string_of_int (Z.to_int n).

Definition rev_string (s : string) : string :=
  string_of_list_ascii (rev (list_ascii_of_string s)).

Fixpoint drop_zeros (s : string) : string :=
  match s with
  | EmptyString => EmptyString
  | String c r => if Ascii.eqb c "0"%char then drop_zeros r else s
  end.

Definition strip_trailing_zeros (s : string) : string :=
  rev_string (drop_zeros (rev_string s)).

(** [v] is read back as the double [x]. *)
Definition round_trips (v x : Z) : bool :=
  match double_of_ratio v 1 with
  | Integer y => (y =? x)%Z
  | _ => false
  end.

(** The integer with the fewest significant digits, [k] or more, that
    is read back as the double [x] of [nd] digits, the closest to [x] if
    there are several. *)
Fixpoint shortest_from (fuel : nat) (k nd x : Z) : Z :=
  match fuel with
  | O => x
  | S fuel' =>
      let scale := (10 ^ (nd - k))%Z in
      let lo := (x / scale * scale)%Z in
      let hi := (lo + scale)%Z in
      let lo_ok := round_trips lo x in
      let hi_ok := round_trips hi x in
      if lo_ok && hi_ok then
        if (x - lo <? hi - x)%Z then lo
        else if (hi - x <? x - lo)%Z then hi
        else if Z.even (x / scale) then lo else hi
      else if lo_ok then lo
      else if hi_ok then hi
      else shortest_from fuel' (k + 1)%Z nd x
  end.

(** [Number.prototype.toString] on a positive integer: up to 2^53 every
    integer is a double and prints its digits; above, the shortest digits
    that read back as the same double are printed, followed by zeros below
    10^21 and in exponent form from there. *)
Definition positive_to_string (x : Z) : string :=
  if (x <=? 2 ^ 53)%Z then decimal x
  else
    let nd := Z.of_nat (String.length (decimal x)) in
    let v := shortest_from (Z.to_nat (Z.min 17 nd)) 1 nd x in
    let nv := Z.of_nat (String.length (decimal v)) in
    if (nv <=? 21)%Z then decimal v
    else
      match strip_trailing_zeros (decimal v) with
      | EmptyString => decimal v
      | String d EmptyString =>
          String d EmptyString ++ "e+" ++ decimal (nv - 1)
      | String d rest =>
          String d EmptyString ++ "." ++ rest ++ "e+" ++ decimal (nv - 1)
      end.

Definition number_to_string (n : Z) : string :=
  if (n <? 0)%Z then "-" ++ positive_to_string (- n)
  else positive_to_string n.

(** String conversion, as string concatenation performs it. *)
Fixpoint to_string (v : jsval) : string :=
  match v with
  | VUndef => "undefined"
  | VNull => "null"
  | VBool true => "true"
  | VBool false => "false"
  | VNum n => number_to_string n
  | VStr s => s
  | VArr l =>
      (fix join (l : list jsval) : string :=
         match l with
         | [] => EmptyString
         | x :: r =>
             (match x with
              | VUndef | VNull => EmptyString
              | _ => to_string x
              end)
             ++ (match r with [] => EmptyString | _ => "," ++ join r end)
         end) l
  | VObj _ => "[object Object]"
  end.

(** White space and line terminators among the code units below 256. *)
Definition is_ws (c : ascii) : bool :=
  match nat_of_ascii c with
  | 9%nat | 10%nat | 11%nat | 12%nat | 13%nat | 32%nat | 160%nat => true
  | _ => false
  end.

Fixpoint ltrim (s : string) : string :=
  match s with
  | EmptyString => EmptyString
  | String c r => if is_ws c then ltrim r else s
  end.

Definition trim (s : string) : string :=
  rev_string (ltrim (rev_string (ltrim s))).

Definition digit_of (c : ascii) : option Z :=
  let n := Z.of_nat (nat_of_ascii c) in
  if ((48 <=? n) && (n <=? 57))%Z then Some (n - 48)%Z else None.

Fixpoint digits_value (acc : Z) (s : string) : option Z :=
  match s with
  | EmptyString => Some acc
  | String c r =>
      match digit_of c with
      | Some d => digits_value (10 * acc + d)%Z r
      | None => None
      end
  end.

(** A digit of a literal in the given radix. *)
Definition digit_in (radix : Z) (c : ascii) : option Z :=
  let n := Z.of_nat (nat_of_ascii c) in
  let d :=
    if ((48 <=? n) && (n <=? 57))%Z then (n - 48)%Z
    else if ((97 <=? n) && (n <=? 102))%Z then (n - 87)%Z
    else if ((65 <=? n) && (n <=? 70))%Z then (n - 55)%Z
    else radix in
  if (d <? radix)%Z then Some d else None.

Fixpoint radix_value (radix acc : Z) (s : string) : option Z :=
  match s with
  | EmptyString => Some acc
  | String c r =>
      match digit_in radix c with
      | Some d => radix_value radix (radix * acc + d)%Z r
      | None => None
      end
  end.

(** The leading decimal digits of a string: their value on top of [acc],
    how many they are, and what follows them. *)
Fixpoint take_digits (acc count : Z) (s : string) : Z * Z * string :=
  match s with
  | EmptyString => (acc, count, s)
  | String c r =>
      match digit_of c with
      | Some d => take_digits (10 * acc + d)%Z (count + 1)%Z r
      | None => (acc, count, s)
      end
  end.

(** The exponent part that ends a decimal literal: nothing, or [e] or [E],
    an optional sign and at least one digit. *)
Definition exponent_part (s : string) : option Z :=
  match s with
  | EmptyString => Some 0%Z
  | String c r =>
      if Ascii.eqb c "e"%char || Ascii.eqb c "E"%char then
        match r with
        | EmptyString => None
        | String c' r' =>
            if Ascii.eqb c' "-"%char then
              match r' with
              | EmptyString => None
              | _ => option_map Z.opp (digits_value 0 r')
              end
            else if Ascii.eqb c' "+"%char then
              match r' with
              | EmptyString => None
              | _ => digits_value 0 r'
              end
            else digits_value 0 r
        end
      else None
  end.

(** The double nearest to [digits * 10^exponent], [digits] written with
    [count] digits.  Beyond 10^310 the value is infinite and below 10^-330
    it rounds to zero, whatever the digits. *)
Definition decimal_value (digits count exponent : Z) : number :=
  if (digits =? 0)%Z then Integer 0
  else if (310 <? exponent)%Z then Infinite false
  else if (exponent + count <? -330)%Z then Integer 0
  else if (0 <=? exponent)%Z then double_of_ratio (digits * 10 ^ exponent) 1
  else double_of_ratio digits (10 ^ (- exponent)).

(** An unsigned decimal literal: [Infinity], or digits with an optional
    fraction and an optional exponent part, at least one digit before or
    after the point. *)
Definition unsigned_decimal (s : string) : number :=
  if String.eqb s "Infinity" then Infinite false
  else
    let '(ip, ic, r1) := take_digits 0 0 s in
    let '(fp, fc, r2) :=
      match r1 with
      | String c r => if Ascii.eqb c "."%char then take_digits ip 0 r
                      else (ip, 0%Z, r1)
      | EmptyString => (ip, 0%Z, r1)
      end in
    if (ic + fc =? 0)%Z then NaN
    else
      match exponent_part r2 with
      | Some x => decimal_value fp (ic + fc) (x - fc)
      | None => NaN
      end.

(** A literal in radix 16, 8 or 2: [0x], [0o] or [0b] in either case and
    at least one digit, without a sign. *)
Definition radix_literal (s : string) : option number :=
  match s with
  | String z (String x r) =>
      if Ascii.eqb z "0"%char then
        let radix :=
          if Ascii.eqb x "x"%char || Ascii.eqb x "X"%char then Some 16%Z
          else if Ascii.eqb x "o"%char || Ascii.eqb x "O"%char then Some 8%Z
          else if Ascii.eqb x "b"%char || Ascii.eqb x "B"%char then Some 2%Z
          else None in
        match radix with
        | Some base =>
            match r with
            | EmptyString => Some NaN
            | _ =>
                match radix_value base 0 r with
                | Some v => Some (double_of_ratio v 1)
                | None => Some NaN
                end
            end
        | None => None
        end
      else None
  | _ => None
  end.

(** Number conversion of a string: surrounding white space is dropped,
    the empty string is 0, and the rest is a numeric literal of the
    language (a signed decimal literal or an unsigned literal in radix 16,
    8 or 2) or the conversion gives NaN. *)
Definition string_to_number (s : string) : number :=
  match trim s with
  | EmptyString => Integer 0
  | String c r =>
      if Ascii.eqb c "-"%char then number_opp (unsigned_decimal r)
      else if Ascii.eqb c "+"%char then unsigned_decimal r
      else
        match radix_literal (String c r) with
        | Some n => n
        | None => unsigned_decimal (String c r)
        end
  end.

(** Number conversion of a value. *)
Definition to_number (v : jsval) : number :=
  match v with
  | VUndef => NaN
  | VNull => Integer 0
  | VBool true => Integer 1
  | VBool false => Integer 0
  | VNum n => Integer n
  | VStr s => string_to_number s
  | VArr _ | VObj _ => string_to_number (to_string v)
  end.

Definition to_primitive (v : jsval) : jsval :=
  match v with
  | VArr _ | VObj _ => VStr (to_string v)
  | _ => v
  end.

(** Equality of two numbers; NaN equals nothing.  One side of a comparison
    made by [loose_eq] is always a number or a boolean of the model, an
    integer. *)
Definition number_eqb (x y : number) : bool :=
  match x, y with
  | Integer a, Integer b => (a =? b)%Z
  | Infinite s, Infinite t => Bool.eqb s t
  | _, _ => false
  end.

(** [a == b].  Two object values of the model always stand for two
    different objects (a decoded payload shares no reference with the
    store), so they are never equal. *)
Definition loose_eq (a b : jsval) : bool :=
  match a, b with
  | (VArr _ | VObj _), (VArr _ | VObj _) => false
  | _, _ =>
      match to_primitive a, to_primitive b with
      | (VUndef | VNull), (VUndef | VNull) => true
      | (VUndef | VNull), _ => false
      | _, (VUndef | VNull) => false
      | VStr s, VStr t => String.eqb s t
      | pa, pb => number_eqb (to_number pa) (to_number pb)
      end
  end.

(** [a === b], with the same reading of object values. *)
Definition strict_eq (a b : jsval) : bool :=
  match a, b with
  | VUndef, VUndef => true
  | VNull, VNull => true
  | VBool x, VBool y => Bool.eqb x y
  | VNum x, VNum y => (x =? y)%Z
  | VStr s, VStr t => String.eqb s t
  | _, _ => false
  end.

(** Own-property lookup in an object literal: the first binding wins. *)
Fixpoint lookup (k : string) (o : list (string * jsval)) : jsval :=
  match o with
  | [] => VUndef
  | (k', v) :: r => if String.eqb k k' then v else lookup k r
  end.

(** [o[k] = v] on an object: replaces the binding or appends one. *)
Fixpoint assign (k : string) (v : jsval) (o : list (string * jsval))
  : list (string * jsval) :=
  match o with
  | [] => [(k, v)]
  | (k', v') :: r =>
      if String.eqb k k' then (k, v) :: r else (k', v') :: assign k v r
  end.

(* ================================================================= *)
(** ** Exceptions *)

Inductive error : Type :=
| TypeError (what : string).

Inductive result (A : Type) : Type :=
| Ok (a : A)
| Throw (e : error).
Arguments Ok {A} a.
Arguments Throw {A} e.

Definition bind {A B : Type} (m : result A) (k : A -> result B) : result B :=
  match m with
  | Ok a => k a
  | Throw e => Throw e
  end.

Notation "x <- m ;; k" := (bind m (fun x => k))
  (at level 61, m at next level, right associativity).

(** The array index a property key denotes, if it is a canonical one. *)
Definition array_index (key : string) : option nat :=
  match digits_value 0 key with
  | Some n =>
      if String.eqb (to_string (VNum n)) key then Some (Z.to_nat n) else None
  | None => None
  end.

(** [base[key]] for a property that is not inherited: reading through
    [undefined] or [null] throws; arrays and strings have their length and
    their elements, numbers and booleans have no own property. *)
Definition get_prop (base : jsval) (key : string) : result jsval :=
  match base with
  | VUndef | VNull => Throw (TypeError key)
  | VObj o => Ok (lookup key o)
  | VArr l =>
      if String.eqb key "length" then Ok (VNum (Z.of_nat (length l)))
      else match array_index key with
           | Some i => Ok (nth i l VUndef)
           | None => Ok VUndef
           end
  | VStr s =>
      if String.eqb key "length" then Ok (VNum (Z.of_nat (String.length s)))
      else match array_index key with
           | Some i =>
               match String.get i s with
               | Some c => Ok (VStr (String c EmptyString))
               | None => Ok VUndef
               end
           | None => Ok VUndef
           end
  | VBool _ | VNum _ => Ok VUndef
  end.

(* ================================================================= *)
(** ** Host objects

    The grid, its store, view, features, columns and plug-ins belong to
    the host framework.  Each is a record of the properties and methods
    the printer touches. *)

(** An [Ext.data.Model] instance: an identity and its field values. *)
Record model : Type := {
  internalId : string;
  data : list (string * jsval)
}.

(** [rcd.get(field)] reads [rcd.data[field]]. *)
Definition get (rcd : model) (field : jsval) : jsval :=
  lookup (to_string field) (data rcd).

(** [rcd.set(field, value)]. *)
Definition set_field (rcd : model) (field value : jsval) : model :=
  {| internalId := internalId rcd;
     data := assign (to_string field) value (data rcd) |}.

(** [rcd.set(values)] with an object of values; [set(undefined)] writes
    nothing. *)
Definition set_values (rcd : model) (values : jsval) : model :=
  match values with
  | VObj fs =>
      fold_left (fun r kv => set_field r (VStr (fst kv)) (snd kv)) fs rcd
  | _ => rcd
  end.

Definition model_obj (rcd : option model) : jsval :=
  match rcd with
  | Some r => VObj (data r)
  | None => VUndef
  end.

(** The metadata object handed to renderers and read by [getHtml]. *)
Record meta : Type := {
  m_align : jsval;
  m_cellIndex : jsval;
  m_classes : jsval;
  m_column : jsval;
  m_css : jsval;
  m_innerCls : jsval;
  m_record : jsval;
  m_recordIndex : jsval;
  m_style : jsval;
  m_tdAttr : jsval;
  m_tdCls : jsval;
  m_unselectableAttr : jsval;
  m_value : jsval
}.

(** A custom aggregate function, [function(records, values)]. *)
Definition aggregator : Type := list model -> list jsval -> jsval.

(** A column's [summaryType]: a value (usually a string, or absent) or a
    function. *)
Inductive summary_type : Type :=
| STValue (v : jsval)
| STFunction (fn : aggregator).

(** An [Ext.data.Store].  [st_min], [st_max], [st_average] and
    [st_aggregate] are the store's own methods; [count] and [sum] are
    modelled below. *)
Record store : Type := {
  st_records : list model;
  st_isGrouped : bool;
  st_groupField : jsval;
  st_groups : list (jsval * list model);
  st_hasIndexOf : bool;
  st_fields : option (list string);
  st_rawData : jsval;
  st_min : jsval -> bool -> jsval;
  st_max : jsval -> bool -> jsval;
  st_average : jsval -> bool -> jsval;
  st_aggregate : aggregator -> bool -> list jsval -> jsval
}.

Fixpoint indexOf_from (i : Z) (l : list model) (rcd : model) : Z :=
  match l with
  | [] => (-1)%Z
  | r :: rest =>
      if String.eqb (internalId r) (internalId rcd) then i
      else indexOf_from (i + 1)%Z rest rcd
  end.

(** [store.indexOf(rcd)]; [-1] for a record that is not in the store. *)
Definition indexOf (s : store) (rcd : option model) : Z :=
  match rcd with
  | Some r => indexOf_from 0%Z (st_records s) r
  | None => (-1)%Z
  end.

Definition field_number (rcd : model) (field : jsval) : Z :=
  match get rcd field with
  | VNum n => n
  | _ => 0%Z
  end.

Definition sum_field (field : jsval) (l : list model) : Z :=
  fold_right (fun r acc => (field_number r field + acc)%Z) 0%Z l.

(** Modelled from the spec: [store.count(grouped)], a built-in of the host
    store that is not part of the source.  Flat, it is the length of the
    collection; grouped, a mapping from group key to the group's count. *)
Definition store_count (s : store) (grouped : bool) : jsval :=
  if grouped then
    VObj (map (fun g => (to_string (fst g),
                         VNum (Z.of_nat (length (snd g))))) (st_groups s))
  else VNum (Z.of_nat (length (st_records s))).

(** Modelled from the spec: [store.sum(field, grouped)], a built-in of the
    host store that is not part of the source.  Flat, it is the arithmetic
    sum of the field over the collection; grouped, a mapping from group
    key to the group's sum. *)
Definition store_sum (s : store) (field : jsval) (grouped : bool) : jsval :=
  if grouped then
    VObj (map (fun g => (to_string (fst g),
                         VNum (sum_field field (snd g)))) (st_groups s))
  else VNum (sum_field field (st_records s)).

(** What a group-header template is applied to. *)
Record group_values : Type := {
  gv_name : jsval;
  gv_children : list model;
  gv_groupField : jsval;
  gv_columnName : jsval;
  gv_groupValue : jsval;
  gv_renderedGroupValue : jsval
}.

(** A grid feature (grouping, groupingsummary, summary). *)
Record feature : Type := {
  ftype : string;
  getGroupField : jsval;
  hideGroupedHeader : bool;
  groupHeaderTpl_html : jsval;
  groupHeaderTpl_apply : group_values -> string;
  showSummaryRow : bool;
  remoteRoot : jsval;
  summaryRecord : option model
}.

(** A grid view: where its features may be found. *)
Record view : Type := {
  view_id : string;
  features : option (list feature);
  featuresMC : option (list feature);
  normalView : option (option (list feature))
}.

(** The [this] a renderer is called with. *)
Inductive scope : Type :=
| ScopeColumn
| ScopeGrid.

(** The arguments of a renderer call. *)
Record renderer_args : Type := {
  r_this : scope;
  r_value : jsval;
  r_meta : meta;
  r_record : option model;
  r_rowIndex : Z;
  r_colIndex : Z;
  r_store : store;
  r_view : view
}.

(** A renderer returns a value and may write to the metadata object. *)
Definition renderer : Type := renderer_args -> jsval * meta.

(** A grid column. *)
Record column : Type := {
  id : jsval;
  dataIndex : jsval;
  text : jsval;
  align : jsval;
  xtype : jsval;
  hidden : bool;
  isTreeColumn : bool;
  col_renderer : option renderer;
  tpl : option (list (string * jsval) -> string);
  summaryType : summary_type;
  summaryRenderer : option renderer
}.

Definition with_text (c : column) (t : jsval) : column :=
  {| id := id c; dataIndex := dataIndex c; text := t; align := align c;
     xtype := xtype c; hidden := hidden c; isTreeColumn := isTreeColumn c;
     col_renderer := col_renderer c; tpl := tpl c;
     summaryType := summaryType c; summaryRenderer := summaryRenderer c |}.

(** The column as the object a metadata record refers to. *)
Definition column_obj (c : column) : jsval :=
  VObj [("id", id c); ("dataIndex", dataIndex c); ("text", text c);
        ("align", align c); ("xtype", xtype c); ("hidden", VBool (hidden c))].

(** A grid plug-in. *)
Record plugin : Type := {
  ptype : jsval;
  rowBodyTpl : option (list (string * jsval) -> string)
}.

(** An [Ext.grid.Panel] (or a tree panel). *)
Record grid : Type := {
  g_store : store;
  g_view : view;
  g_columnManager : list (option column);
  g_columns : list column;
  g_title : jsval;
  g_plugins : list plugin;
  g_isGridPanel : bool
}.

(** The printer's configuration, with the stylesheet path resolved. *)
Record printer : Type := {
  stylesheetPath : string;
  pageTitle : string;
  mainTitle : string;
  printLinkText : string;
  closeLinkText : string;
  baseCSSPrefix : string
}.

(* ================================================================= *)
(** ** [getFeature] *)

Definition view_features (v : view) : result (option (list feature)) :=
  match features v with
  | Some fs => Ok (Some fs)
  | None =>
      match featuresMC v with
      | Some items => Ok (Some items)
      | None =>
          match normalView v with
          | None => Throw (TypeError "featuresMC")
          | Some mc => Ok mc
          end
      end
  end.

Definition feature_matches (featureFType : string) (f : feature) : bool :=
  (String.eqb featureFType "grouping"
   && (String.eqb (ftype f) "grouping"
       || String.eqb (ftype f) "groupingsummary"))
  || (String.eqb featureFType "groupingsummary"
      && String.eqb (ftype f) "groupingsummary")
  || (String.eqb featureFType "summary"
      && String.eqb (ftype f) "summary").

Definition getFeature (g : grid) (featureFType : string)
  : result (option feature) :=
  fs <- view_features (g_view g) ;;
  Ok (match fs with
      | Some l => find (feature_matches featureFType) l
      | None => None
      end).

(* ================================================================= *)
(** ** [print]: the column clean-up loop *)

(** One pass of the callback given to [Ext.each]: the column pushed to
    [clearColumns], if any. *)
Definition cleanColumn (isGrouped : bool) (groupField : jsval)
  (col : column) : option column :=
  if negb (isEmpty (dataIndex col)) && negb (hidden col) && negb isGrouped
  then Some col
  else if strict_eq (xtype col) (VStr "rownumberer") then
    Some (if truthy (text col) then col else with_text col (VStr "Row"))
  else if strict_eq (xtype col) (VStr "templatecolumn") then Some col
  else if isGrouped
          && negb (strict_eq (dataIndex col) groupField)
          && negb (strict_eq (xtype col) (VStr "actioncolumn"))
  then Some col
  else None.

Fixpoint clearColumns (isGrouped : bool) (groupField : jsval)
  (columns : list (option column)) : list column :=
  match columns with
  | [] => []
  | None :: rest => clearColumns isGrouped groupField rest
  | Some c :: rest =>
      match cleanColumn isGrouped groupField c with
      | Some c' => c' :: clearColumns isGrouped groupField rest
      | None => clearColumns isGrouped groupField rest
      end
  end.

(** The head of [print]: whether the grid prints as grouped, the grouping
    feature and the group field. *)
Definition print_grouping (g : grid)
  : result (bool * option feature * jsval) :=
  if st_isGrouped (g_store g) then
    feature <- getFeature g "grouping" ;;
    match feature with
    | Some f => Ok (true, Some f, getGroupField f)
    | None => Ok (false, None, VUndef)
    end
  else Ok (false, None, VUndef).

(* ================================================================= *)
(** ** Pieces shared by the two templates *)

(** [new model(null, id)] and [Ext.create(store.model)]: a record without
    field values. *)
Definition new_model (ident : string) : model :=
  {| internalId := ident; data := [] |}.

(** [v.length > 0]. *)
Definition length_positive (v : jsval) : bool :=
  match v with
  | VStr s => negb (String.eqb s EmptyString)
  | VArr l => match l with [] => false | _ => true end
  | VObj o => match to_number (to_primitive (lookup "length" o)) with
              | Integer n => (0 <? n)%Z
              | Fraction negative | Infinite negative => negb negative
              | NaN => false
              end
  | _ => false
  end.

(** [v || ''], appended to a string. *)
Definition or_empty (v : jsval) : string :=
  if truthy v then to_string v else EmptyString.

(** [xindex % 2 === 0 ? "even" : "odd"]. *)
Definition parity (xindex : Z) : string :=
  if (xindex mod 2 =? 0)%Z then "even" else "odd".

(** A [{name}] substitution of a template: nothing for [null] and
    [undefined]. *)
Definition subst (v : jsval) : string :=
  match v with
  | VUndef | VNull => EmptyString
  | _ => to_string v
  end.

Definition unselectable_on : jsval :=
  VStr ("unselectable=" ++ dq ++ "on" ++ dq).

(** [a[0]] of an array. *)
Definition first_item (a : jsval) : jsval :=
  match a with
  | VArr (x :: _) => x
  | _ => VUndef
  end.

(** The rows of the printed table. *)
Inductive row : Type :=
| HeaderRow (headings : string)
| BodyRow (cls : string) (inner : string)
| DetailRow (cls : string) (colspan : nat) (detail : string)
| GroupHeaderRow (colspan : nat) (header : string)
| SummaryRow (cells : list string).

Definition nat_string (n : nat) : string :=
  NilZero.string_of_uint (Nat.to_uint n).

Definition row_markup (r : row) : string :=
  match r with
  | HeaderRow h => "<tr>" ++ h ++ "</tr>"
  | BodyRow c inner =>
      "<tr class=" ++ dq ++ c ++ dq ++ ">" ++ inner ++ "</tr>"
  | DetailRow c n d =>
      "<tr class=" ++ dq ++ c ++ dq ++ "><td colspan=" ++ dq
      ++ nat_string n ++ dq ++ ">" ++ d ++ "</td></tr>"
  | GroupHeaderRow n h =>
      "<tr class=" ++ dq ++ "group-header" ++ dq ++ "><td colspan=" ++ dq
      ++ nat_string n ++ dq ++ ">" ++ h ++ "</td></tr>"
  | SummaryRow cells => "<tr>" ++ String.concat EmptyString cells ++ "</tr>"
  end.

Definition rows_markup (rows : list row) : string :=
  String.concat EmptyString (map row_markup rows).

(** The members pass [xindex], a 1-based position, along a list. *)
Fixpoint mapi_from {A B : Type} (f : A -> Z -> result B) (xindex : Z)
  (l : list A) : result (list B) :=
  match l with
  | [] => Ok []
  | x :: r =>
      y <- f x xindex ;;
      ys <- mapi_from f (xindex + 1)%Z r ;;
      Ok (y :: ys)
  end.

(** The flat body template returned by [generateBody]. *)
Definition flatBodyTpl : string :=
  "<tpl for=" ++ dq ++ "this.columns" ++ dq ++ ">"
  ++ "{[ this.renderColumn(values, parent.get(values.dataIndex), parent, xindex) ]}"
  ++ "</tpl>".

(* ================================================================= *)
(** ** The template of [getHtmlMarkup] and its member functions *)

Module Markup.

(** The configuration object at the end of the template array. *)
Record config : Type := {
  isGrouped : option feature;
  cfg_grid : grid;
  columns : list column;
  hasSummary : bool;
  summaryFeature : option feature;
  expanderTemplate : option (list (string * jsval) -> string)
}.

Definition getSummary (s : store) (type : summary_type) (field : jsval)
  (group : bool) : jsval :=
  match type with
  | STFunction fn => st_aggregate s fn group [field]
  | STValue t =>
      if truthy t then
        if strict_eq t (VStr "count") then store_count s group
        else if strict_eq t (VStr "min") then st_min s field group
        else if strict_eq t (VStr "max") then st_max s field group
        else if strict_eq t (VStr "sum") then store_sum s field group
        else if strict_eq t (VStr "average") then st_average s field group
        else if group then VObj [] else VStr EmptyString
      else VUndef
  end.

(** The markup [getHtml] has built before it appends the value. *)
Definition cellOpen (m : meta) : string :=
  let html := "<td " in
  let tdClasses := VStr EmptyString in
  let tdClasses := if truthy (m_tdCls m) then m_tdCls m else tdClasses in
  let html :=
    if truthy (m_css m) then
      let tdClasses :=
        if length_positive tdClasses
        then VStr (to_string tdClasses ++ " " ++ to_string (m_css m))
        else m_css m in
      if length_positive tdClasses
      then html ++ "class=" ++ dq ++ to_string tdClasses ++ dq
      else html
    else html in
  let html :=
    if truthy (m_tdAttr m) then html ++ " " ++ to_string (m_tdAttr m)
    else html in
  let html := html ++ "><div " in
  let html :=
    if truthy (m_innerCls m)
    then html ++ "class=" ++ dq ++ to_string (m_innerCls m) ++ dq
    else html in
  let html :=
    html ++ " style=" ++ dq ++ "text-align: " ++ to_string (m_align m)
    ++ ";" in
  let html := html ++ or_empty (m_style m) in
  let html := html ++ dq ++ " " in
  html ++ or_empty (m_unselectableAttr m).

Definition getHtml (value : jsval) (m : meta) : string :=
  let value := if isDefined value then value else VStr "&nbsp;" in
  let html := cellOpen m in
  html ++ ">" ++ to_string value ++ "</div></td>".

(** The [meta] object [renderColumn] builds. *)
Definition cellMeta (me : config) (col : column) (value : jsval)
  (rcd : model) (c : Z) : meta :=
  let store := g_store (cfg_grid me) in
  {| m_align := align col;
     m_cellIndex := VNum c;
     m_classes := VArr [];
     m_column := column_obj col;
     m_css := VStr EmptyString;
     m_innerCls := VStr EmptyString;
     m_record := model_obj (Some rcd);
     m_recordIndex :=
       if st_hasIndexOf store then VNum (indexOf store (Some rcd))
       else VUndef;
     m_style := VStr EmptyString;
     m_tdAttr := VStr EmptyString;
     m_tdCls := VStr EmptyString;
     m_unselectableAttr := unselectable_on;
     m_value := value |}.

(** The value and the metadata [renderColumn] hands to [getHtml]. *)
Definition renderedValue (me : config) (col : column) (value : jsval)
  (rcd : model) (c : Z) : jsval * meta :=
  let m := cellMeta me col value rcd c in
  if loose_eq (xtype col) (VStr "templatecolumn") then
    match tpl col with
    | Some t => (VStr (t (data rcd)), m)
    | None => (value, m)
    end
  else
    match col_renderer col with
    | Some r =>
        r {| r_this := if isTreeColumn col then ScopeColumn else ScopeGrid;
             r_value := value;
             r_meta := m;
             r_record := Some rcd;
             r_rowIndex := (-1)%Z;
             r_colIndex := (c - 1)%Z;
             r_store := g_store (cfg_grid me);
             r_view := g_view (cfg_grid me) |}
    | None => (value, m)
    end.

Definition renderColumn (me : config) (col : column) (value : jsval)
  (rcd : model) (c : Z) : string :=
  let vm := renderedValue me col value rcd c in
  getHtml (fst vm) (snd vm).

Definition applyTpl (me : config) (rcd : model) : result string :=
  match expanderTemplate me with
  | Some t => Ok (t (data rcd))
  | None => Throw (TypeError "apply")
  end.

(** The summary record of a remote summary: the feature's own record or a
    new one, filled from the reader's raw data. *)
Definition remoteSummaryRecord (me : config) (f : feature)
  : result model :=
  let g := cfg_grid me in
  let summaryRecord :=
    match summaryRecord f with
    | Some r => r
    | None => new_model (view_id (g_view g) ++ "-summary-record")
    end in
  let rawData := st_rawData (g_store g) in
  if truthy rawData then
    root <- get_prop rawData (to_string (remoteRoot f)) ;;
    if isArray root then Ok (set_values summaryRecord (first_item root))
    else Ok (set_values summaryRecord root)
  else Ok summaryRecord.

Definition getSummaryRecord42 (me : config) : result model :=
  match summaryFeature me with
  | None => Throw (TypeError "remoteRoot")
  | Some f =>
      if truthy (remoteRoot f) then remoteSummaryRecord me f
      else
        let store := g_store (cfg_grid me) in
        Ok (fold_left
              (fun rcd col =>
                 let valueObject :=
                   getSummary store (summaryType col) (dataIndex col) false in
                 if negb (isDefined valueObject) then rcd
                 else set_field rcd (dataIndex col) valueObject)
              (columns me) (new_model "summary"))
  end.

Definition getSummaryObject42 (value column colIndex rcd : jsval)
  : result meta :=
  a <- get_prop column "align" ;;
  Ok {| m_align := a;
        m_cellIndex := colIndex;
        m_classes := VArr [];
        m_column := column;
        m_css := VStr EmptyString;
        m_innerCls := VStr EmptyString;
        m_record := rcd;
        m_recordIndex := VNum (-1);
        m_style := VStr EmptyString;
        m_tdAttr := VStr EmptyString;
        m_tdCls := VStr EmptyString;
        m_unselectableAttr := unselectable_on;
        m_value := value |}.

(** The value a summary cell starts from: the remote record's field, or
    the aggregate over the store. *)
Definition summaryValue (me : config) (col : column) : result jsval :=
  match summaryFeature me with
  | None => Throw (TypeError "remoteRoot")
  | Some f =>
      if truthy (remoteRoot f) then
        summaryRecord <- remoteSummaryRecord me f ;;
        Ok (get summaryRecord (dataIndex col))
      else
        Ok (getSummary (g_store (cfg_grid me)) (summaryType col)
              (dataIndex col) false)
  end.

Definition renderSummary (me : config) (col : column) (colIndex : Z)
  : result string :=
  value <- summaryValue me col ;;
  match summaryRenderer col with
  | Some r =>
      summaryRcd <- getSummaryRecord42 me ;;
      summaryObject <- getSummaryObject42 value (column_obj col)
                         (VNum colIndex) (model_obj (Some summaryRcd)) ;;
      let vm :=
        r {| r_this := ScopeGrid;
             r_value := value;
             r_meta := summaryObject;
             r_record := Some summaryRcd;
             r_rowIndex := (-1)%Z;
             r_colIndex := colIndex;
             r_store := g_store (cfg_grid me);
             r_view := g_view (cfg_grid me) |} in
      Ok (getHtml (fst vm) (snd vm))
  | None =>
      m <- getSummaryObject42 (column_obj col) (VNum colIndex)
             VUndef VUndef ;;
      if negb (isDefined value) || loose_eq value (VNum 0)
      then Ok (getHtml (VStr "&nbsp;") m)
      else Ok (getHtml value m)
  end.

(** [getSummaryObject(align)]: the object of summary values.  The loop
    skips a column whose aggregate is defined and stores the others. *)
Definition getSummaryObject (me : config) (align : jsval)
  : list (string * jsval) :=
  let summaryValues :=
    fold_left
      (fun summaryValues col =>
         let valueObject :=
           getSummary (g_store (cfg_grid me)) (summaryType col)
             (dataIndex col) false in
         if isDefined valueObject then summaryValues
         else assign (to_string (id col)) valueObject summaryValues)
      (columns me) [] in
  assign "style" (VStr ("text-align:" ++ to_string align ++ ";"))
    summaryValues.

End Markup.

(* ================================================================= *)
(** ** The grouped body template of [generateBody] and its members *)

Module GroupBody.

(** The configuration object of the grouped body template.  [groupName]
    is written by [applyGroupTpl] and read by the summary members; it is
    passed along explicitly. *)
Record config : Type := {
  columns : list column;
  groupColumn : option column;
  colSpan : nat;
  cfg_grid : grid;
  groupTpl : group_values -> string;
  hasSummary : bool;
  summaryFeature : option feature
}.

Definition getSummary (s : store) (type : summary_type) (field : jsval)
  (group : bool) : jsval :=
  match type with
  | STValue t =>
      if negb (truthy t) then VUndef
      else if strict_eq t (VStr "count") then store_count s group
      else if strict_eq t (VStr "min") then st_min s field group
      else if strict_eq t (VStr "max") then st_max s field group
      else if strict_eq t (VStr "sum") then store_sum s field group
      else if strict_eq t (VStr "average") then st_average s field group
      else if group then VObj [] else VStr EmptyString
  | STFunction fn => st_aggregate s fn group [field]
  end.

(** The markup [getHtml] has built before it appends the value. *)
Definition cellOpen (m : meta) : string :=
  let html := "<td " in
  let tdClasses := VStr EmptyString in
  let tdClasses := if truthy (m_tdCls m) then m_tdCls m else tdClasses in
  let tdClasses :=
    if truthy (m_css m) then
      if length_positive tdClasses
      then VStr (to_string tdClasses ++ " " ++ to_string (m_css m))
      else m_css m
    else tdClasses in
  let html :=
    if length_positive tdClasses
    then html ++ "class=" ++ dq ++ to_string tdClasses ++ dq
    else html in
  let html :=
    if truthy (m_tdAttr m) then html ++ " " ++ to_string (m_tdAttr m)
    else html in
  let html := html ++ "><div " in
  let html :=
    if truthy (m_innerCls m)
    then html ++ "class=" ++ dq ++ to_string (m_innerCls m) ++ dq
    else html in
  let html :=
    html ++ " style=" ++ dq ++ "text-align: " ++ to_string (m_align m)
    ++ ";" in
  let html := html ++ or_empty (m_style m) in
  let html := html ++ dq ++ " " in
  html ++ or_empty (m_unselectableAttr m).

Definition getHtml (value : jsval) (m : meta) : string :=
  let value := if isDefined value then value else VStr "&nbsp;" in
  let html := cellOpen m in
  html ++ ">" ++ to_string value ++ "</div></td>".

(** The [meta] object [renderColumn] builds. *)
Definition cellMeta (me : config) (col : column) (value : jsval)
  (rcd : model) (c : Z) : meta :=
  let store := g_store (cfg_grid me) in
  {| m_align := align col;
     m_cellIndex := VNum c;
     m_classes := VArr [];
     m_column := column_obj col;
     m_css := VStr EmptyString;
     m_innerCls := VStr EmptyString;
     m_record := model_obj (Some rcd);
     m_recordIndex := VNum (indexOf store (Some rcd));
     m_style := VStr EmptyString;
     m_tdAttr := VStr EmptyString;
     m_tdCls := VStr EmptyString;
     m_unselectableAttr := unselectable_on;
     m_value := value |}.

(** The value and the metadata [renderColumn] hands to [getHtml]. *)
Definition renderedValue (me : config) (col : column) (value : jsval)
  (rcd : model) (c : Z) : jsval * meta :=
  let m := cellMeta me col value rcd c in
  match col_renderer col with
  | Some r =>
      r {| r_this := ScopeGrid;
           r_value := value;
           r_meta := m;
           r_record := Some rcd;
           r_rowIndex := (-1)%Z;
           r_colIndex := (c - 1)%Z;
           r_store := g_store (cfg_grid me);
           r_view := g_view (cfg_grid me) |}
  | None => (value, m)
  end.

Definition renderColumn (me : config) (col : column) (value : jsval)
  (rcd : model) (c : Z) : string :=
  let vm := renderedValue me col value rcd c in
  getHtml (fst vm) (snd vm).

(** The scan of [getSummaryRcd] over an array payload. *)
Fixpoint scanSummaryRcd (items : list jsval) (fieldName : string)
  (value : jsval) : result jsval :=
  match items with
  | [] => Ok VUndef
  | item :: rest =>
      f <- get_prop item fieldName ;;
      if truthy f && loose_eq f value then Ok item
      else scanSummaryRcd rest fieldName value
  end.

Definition getSummaryRcd (rawDataObject fieldName value : jsval)
  : result jsval :=
  match rawDataObject with
  | VArr items => scanSummaryRcd items (to_string fieldName) value
  | _ =>
      d <- get_prop rawDataObject "data" ;;
      f <- get_prop d (to_string fieldName) ;;
      if truthy f then Ok rawDataObject else Ok VUndef
  end.

(** [Ext.isDefomed(v)]: the framework has no such function, the call
    throws. *)
Definition isDefomed (v : jsval) : result bool :=
  Throw (TypeError "Ext.isDefomed is not a function").

Fixpoint summaryRecordLoop (me : config) (groupName : jsval)
  (cols : list column) (rcd : model) : result model :=
  match cols with
  | [] => Ok rcd
  | col :: rest =>
      let store := g_store (cfg_grid me) in
      let valueObject :=
        getSummary store (summaryType col) (dataIndex col)
          (st_isGrouped store) in
      defined <- isDefomed valueObject ;;
      if negb defined then summaryRecordLoop me groupName rest rcd
      else if isObject valueObject then
        v <- get_prop valueObject (to_string groupName) ;;
        summaryRecordLoop me groupName rest (set_field rcd (dataIndex col) v)
      else
        summaryRecordLoop me groupName rest
          (set_field rcd (dataIndex col) valueObject)
  end.

Definition getSummaryRecord42 (me : config) (groupName : jsval)
  : result model :=
  summaryRecordLoop me groupName (columns me) (new_model "summary").

Definition getSummaryObject42 (me : config) (groupName : jsval)
  (col : column) (colIndex : Z) : result meta :=
  rcd <- getSummaryRecord42 me groupName ;;
  Ok {| m_align := align col;
        m_cellIndex := VNum colIndex;
        m_classes := VArr [];
        m_column := VUndef;
        m_css := VStr EmptyString;
        m_innerCls := VStr EmptyString;
        m_record := model_obj (Some rcd);
        m_recordIndex := VNum (-1);
        m_style := VStr EmptyString;
        m_tdAttr := VStr EmptyString;
        m_tdCls := VStr EmptyString;
        m_unselectableAttr := unselectable_on;
        m_value := VStr "&#160;" |}.

(** The summary record of a remote summary for the group [groupName]:
    the feature's own record or a new one, filled from the reader's raw
    data. *)
Definition remoteSummaryRecord (me : config) (f : feature)
  (groupName : jsval) : result model :=
  let g := cfg_grid me in
  let summaryRecord :=
    match summaryRecord f with
    | Some r => r
    | None => new_model (view_id (g_view g) ++ "-summary-record")
    end in
  let rawData := st_rawData (g_store g) in
  if truthy rawData then
    root <- get_prop rawData (to_string (remoteRoot f)) ;;
    if isArray root then
      found <- getSummaryRcd root (st_groupField (g_store g)) groupName ;;
      Ok (set_values summaryRecord found)
    else Ok (set_values summaryRecord root)
  else Ok summaryRecord.

(** The value a group's summary cell starts from. *)
Definition summaryValue (me : config) (groupName : jsval) (col : column)
  : result jsval :=
  let g := cfg_grid me in
  match summaryFeature me with
  | None => Throw (TypeError "remoteRoot")
  | Some f =>
      value <-
        (if truthy (remoteRoot f) then
           summaryRecord <- remoteSummaryRecord me f groupName ;;
           Ok (get summaryRecord (dataIndex col))
         else
           Ok (getSummary (g_store g) (summaryType col) (dataIndex col)
                 (st_isGrouped (g_store g)))) ;;
      if isObject value then get_prop value (to_string groupName)
      else Ok value
  end.

Definition renderSummary (me : config) (groupName : jsval) (col : column)
  (colIndex : Z) : result string :=
  value <- summaryValue me groupName col ;;
  match summaryRenderer col with
  | Some r =>
      summaryObject <- getSummaryObject42 me groupName col colIndex ;;
      passed <- getSummaryObject42 me groupName col colIndex ;;
      summaryRcd <- getSummaryRecord42 me groupName ;;
      let vm :=
        r {| r_this := ScopeGrid;
             r_value := value;
             r_meta := passed;
             r_record := Some summaryRcd;
             r_rowIndex := (-1)%Z;
             r_colIndex := colIndex;
             r_store := g_store (cfg_grid me);
             r_view := g_view (cfg_grid me) |} in
      Ok (getHtml (fst vm) summaryObject)
  | None =>
      let value :=
        if negb (isDefined value) || loose_eq value (VNum 0)
        then VStr "&nbsp;" else value in
      Ok ("<td><div>" ++ to_string value ++ "</div></td>")
  end.

(** [applyGroupTpl(rcd)] for the group [{name, children}]: the header
    markup; [groupName] becomes [name]. *)
Definition applyGroupTpl (me : config) (name : jsval)
  (children : list model) : string :=
  let store := g_store (cfg_grid me) in
  let first := hd_error children in
  let m :=
    {| m_align := VStr EmptyString;
       m_cellIndex := VNum (-1);
       m_classes := VArr [];
       m_column := match groupColumn me with
                   | Some c => column_obj c
                   | None => VUndef
                   end;
       m_css := VStr EmptyString;
       m_innerCls := VStr EmptyString;
       m_record := model_obj first;
       m_recordIndex := VNum (indexOf store first);
       m_style := VStr EmptyString;
       m_tdAttr := VStr EmptyString;
       m_tdCls := VStr EmptyString;
       m_unselectableAttr := unselectable_on;
       m_value := name |} in
  let columnName :=
    match groupColumn me with
    | Some c => text c
    | None => VUndef
    end in
  let renderedGroupValue :=
    match groupColumn me with
    | Some c =>
        match col_renderer c with
        | Some r =>
            fst (r {| r_this := ScopeGrid;
                      r_value := name;
                      r_meta := m;
                      r_record := first;
                      r_rowIndex := (-1)%Z;
                      r_colIndex := (-1)%Z;
                      r_store := store;
                      r_view := g_view (cfg_grid me) |})
        | None => name
        end
    | None => name
    end in
  groupTpl me {| gv_name := name;
                 gv_children := children;
                 gv_groupField := st_groupField store;
                 gv_columnName := columnName;
                 gv_groupValue := name;
                 gv_renderedGroupValue := renderedGroupValue |}.

(** The rows of one group: its header, its children with a parity taken
    from the position within the group, and its summary row. *)
Definition applyGroup (me : config) (group : jsval * list model)
  : result (list row) :=
  let name := fst group in
  let children := snd group in
  let header := GroupHeaderRow (colSpan me) (applyGroupTpl me name children) in
  let groupName := name in
  body <- mapi_from
            (fun rcd xindex =>
               cells <- mapi_from
                          (fun col c =>
                             Ok (renderColumn me col
                                   (get rcd (dataIndex col)) rcd c))
                          1%Z (columns me) ;;
               Ok (BodyRow (parity xindex) (String.concat EmptyString cells)))
            1%Z children ;;
  summary <-
    (if hasSummary me then
       cells <- mapi_from (renderSummary me groupName) 1%Z (columns me) ;;
       Ok [SummaryRow cells]
     else Ok []) ;;
  Ok (header :: body ++ summary)%list.

(** Applying the grouped body template to the groups. *)
Fixpoint apply (me : config) (groups : list (jsval * list model))
  : result (list row) :=
  match groups with
  | [] => Ok []
  | group :: rest =>
      rows <- applyGroup me group ;;
      more <- apply me rest ;;
      Ok (rows ++ more)%list
  end.

(** [getSummaryObject(align)] of the grouped template: the defined
    aggregates by column id, a grouped aggregate read at [groupName]. *)
Definition getSummaryObject (me : config) (groupName align : jsval)
  : result (list (string * jsval)) :=
  let store := g_store (cfg_grid me) in
  summaryValues <-
    (fix loop (cols : list column) (summaryValues : list (string * jsval))
       : result (list (string * jsval)) :=
       match cols with
       | [] => Ok summaryValues
       | col :: rest =>
           let valueObject :=
             getSummary store (summaryType col) (dataIndex col)
               (st_isGrouped store) in
           if negb (isDefined valueObject) then loop rest summaryValues
           else if isObject valueObject then
             v <- get_prop valueObject (to_string groupName) ;;
             loop rest (assign (to_string (id col)) v summaryValues)
           else
             loop rest (assign (to_string (id col)) valueObject summaryValues)
       end) (columns me) [] ;;
  Ok (assign "style" (VStr ("text-align:" ++ to_string align ++ ";"))
        summaryValues).

(** [childCount(c)]. *)
Definition childCount (c : list model) : Z := Z.of_nat (length c).

End GroupBody.

(* ================================================================= *)
(** ** [generateBody] *)

Definition is_some {A : Type} (o : option A) : bool :=
  match o with Some _ => true | None => false end.

(** [Ext.each(grid.columns, ...)] of [generateBody]: the last column whose
    [dataIndex] is loosely equal to the group field. *)
Definition findGroupColumn (cols : list column) (groupField : jsval)
  : option column :=
  fold_left
    (fun groupColumn col =>
       if loose_eq (dataIndex col) groupField then Some col else groupColumn)
    cols None.

Definition generateBody (g : grid) (columns : list column)
  (groupFeature : option feature) : result jsval :=
  let groups : list (jsval * list model) := [] in
  let fields := st_fields (g_store g) in
  let hideGroupField := true in
  groupingSummaryFeature <- getFeature g "groupingsummary" ;;
  let store := g_store g in
  if negb (st_isGrouped store)
     || negb true (* [!groups]: an array is truthy *)
     || negb (truthy (VNum (Z.of_nat (length groups))))
     || negb (is_some groupFeature)
  then Ok (VStr flatBodyTpl)
  else
    let groups := if g_isGridPanel g then Some (st_groups store) else None in
    match groupFeature with
    | None => Throw (TypeError "hideGroupedHeader")
    | Some gf =>
        let hideGroupField := hideGroupedHeader gf in
        let groupField := getGroupField gf in
        let groupColumn := findGroupColumn (g_columns g) groupField in
        if negb (is_some groupFeature) || negb (is_some fields)
           || negb (truthy groupField)
        then Ok VUndef
        else
          let fields :=
            if hideGroupField then
              option_map
                (filter (fun name => negb (loose_eq (VStr name) groupField)))
                fields
            else fields in
          let html := or_empty (groupHeaderTpl_html gf) in
          match groups with
          | None => Throw (TypeError "groups.getCount is not a function")
          | Some newGroups =>
              let me :=
                {| GroupBody.columns := columns;
                   GroupBody.groupColumn := groupColumn;
                   GroupBody.colSpan := length columns;
                   GroupBody.cfg_grid := g;
                   GroupBody.groupTpl := groupHeaderTpl_apply gf;
                   GroupBody.hasSummary :=
                     match groupingSummaryFeature with
                     | Some f => showSummaryRow f
                     | None => false
                     end;
                   GroupBody.summaryFeature := groupingSummaryFeature |} in
              rows <- GroupBody.apply me newGroups ;;
              Ok (VStr (rows_markup rows))
          end
    end.

(* ================================================================= *)
(** ** [getHtmlMarkup] and the application of its template *)

(** The default [headerTpl] applied to the columns.  The result is
    spliced into the source of the outer template and compiled with it;
    it is copied here, which is what the template does with the aligns
    and labels of a [template_free] grid. *)
Definition headings (columns : list column) : string :=
  String.concat EmptyString
    (map (fun col =>
            "<th style=" ++ dq ++ "text-align: " ++ subst (align col) ++ dq
            ++ ">" ++ subst (text col) ++ "</th>") columns).

(** [Ext.each(grid.plugins, ...)]: the row body template of the last row
    expander. *)
Definition findExpander (plugins : list plugin)
  : option (list (string * jsval) -> string) :=
  fold_left
    (fun found p =>
       if loose_eq (ptype p) (VStr "rowexpander") then rowBodyTpl p else found)
    plugins None.

(** The markup before the table rows.  The title, the labels, the
    stylesheet path and the prefix are spliced into the source of the
    template and compiled with it; they are copied here, which is what
    the template does with [template_free] texts. *)
Definition pageHead (p : printer) (title : string) : string :=
  "<!DOCTYPE html PUBLIC " ++ dq ++ "-//W3C//DTD XHTML 1.0 Transitional//EN"
  ++ dq ++ " " ++ dq
  ++ "http://www.w3.org/TR/xhtml1/DTD/xhtml1-transitional.dtd" ++ dq ++ ">"
  ++ "<html class=" ++ dq ++ baseCSSPrefix p ++ "ux-grid-printer" ++ dq ++ ">"
  ++ "<head>"
  ++ "<meta content=" ++ dq ++ "text/html; charset=UTF-8" ++ dq
  ++ " http-equiv=" ++ dq ++ "Content-Type" ++ dq ++ " />"
  ++ "<link href=" ++ dq ++ stylesheetPath p ++ dq ++ " rel=" ++ dq
  ++ "stylesheet" ++ dq ++ " type=" ++ dq ++ "text/css" ++ dq ++ " />"
  ++ "<title>" ++ title ++ "</title>"
  ++ "</head>"
  ++ "<body class=" ++ dq ++ baseCSSPrefix p ++ "ux-grid-printer-body" ++ dq
  ++ ">"
  ++ "<div class=" ++ dq ++ baseCSSPrefix p ++ "ux-grid-printer-noprint "
  ++ baseCSSPrefix p ++ "ux-grid-printer-links" ++ dq ++ ">"
  ++ "<a class=" ++ dq ++ baseCSSPrefix p ++ "ux-grid-printer-linkprint" ++ dq
  ++ " href=" ++ dq ++ "javascript:void(0);" ++ dq ++ " onclick=" ++ dq
  ++ "window.print();" ++ dq ++ ">" ++ printLinkText p ++ "</a>"
  ++ "<a class=" ++ dq ++ baseCSSPrefix p ++ "ux-grid-printer-linkclose" ++ dq
  ++ " href=" ++ dq ++ "javascript:void(0);" ++ dq ++ " onclick=" ++ dq
  ++ "window.close();" ++ dq ++ ">" ++ closeLinkText p ++ "</a>"
  ++ "</div>"
  ++ "<h1>" ++ mainTitle p ++ "</h1>"
  ++ "<table>".

Definition pageFoot : string := "</table></body></html>".

(** What [getHtmlMarkup] returns: the literal parts of the template, the
    body produced by [generateBody], and the configuration object. *)
Record template : Type := {
  tpl_head : string;
  tpl_headings : string;
  tpl_body : jsval;
  tpl_config : Markup.config
}.

(** [getHtmlMarkup(grid, columns, isGrouped)].  [print] calls it as
    [getHtmlMarkup(grid, columns, feature, isGrouped)], so the third
    parameter receives the grouping feature. *)
Definition getHtmlMarkup (p : printer) (g : grid) (columns : list column)
  (isGrouped : option feature) : result template :=
  groupFeature <-
    (if is_some isGrouped then getFeature g "grouping" else Ok None) ;;
  body <- generateBody g columns groupFeature ;;
  let headings := headings columns in
  let title := if truthy (g_title g) then to_string (g_title g)
               else pageTitle p in
  summaryFeature <- getFeature g "summary" ;;
  let expanderTemplate := findExpander (g_plugins g) in
  Ok {| tpl_head := pageHead p title;
        tpl_headings := headings;
        tpl_body := body;
        tpl_config :=
          {| Markup.isGrouped := isGrouped;
             Markup.cfg_grid := g;
             Markup.columns := columns;
             Markup.hasSummary := is_some summaryFeature;
             Markup.summaryFeature := summaryFeature;
             Markup.expanderTemplate := expanderTemplate |} |}.

(** The body spliced into a row: the flat template renders one cell per
    column; any other body is literal markup. *)
Definition applyBody (me : Markup.config) (body : jsval) (values : model)
  : result string :=
  match body with
  | VStr b =>
      if String.eqb b flatBodyTpl then
        cells <- mapi_from
                   (fun col xindex =>
                      Ok (Markup.renderColumn me col
                            (get values (dataIndex col)) values xindex))
                   1%Z (Markup.columns me) ;;
        Ok (String.concat EmptyString cells)
      else Ok b
  | _ => Ok (subst body)
  end.

(** The loop [<tpl for=".">] over the records, with its [break]. *)
Fixpoint applyRecords (me : Markup.config) (body : jsval) (xindex : Z)
  (records : list model) : result (list row) :=
  match records with
  | [] => Ok []
  | values :: rest =>
      inner <- applyBody me body values ;;
      plugins <-
        (if is_some (Markup.expanderTemplate me) then
           detail <- Markup.applyTpl me values ;;
           Ok [DetailRow (parity xindex) (length (Markup.columns me)) detail]
         else Ok []) ;;
      let rows := (BodyRow (parity xindex) inner :: plugins)%list in
      if is_some (Markup.isGrouped me) && (0 <? xindex)%Z then Ok rows
      else
        more <- applyRecords me body (xindex + 1)%Z rest ;;
        Ok (rows ++ more)%list
  end.

(** The rows of the table the template produces for the records. *)
Definition tableRows (t : template) (records : list model)
  : result (list row) :=
  let me := tpl_config t in
  body <- applyRecords me (tpl_body t) 1%Z records ;;
  summary <-
    (if Markup.hasSummary me then
       cells <- mapi_from (Markup.renderSummary me) 1%Z (Markup.columns me) ;;
       Ok [SummaryRow cells]
     else Ok []) ;;
  Ok (HeaderRow (tpl_headings t) :: body ++ summary)%list.

(** [Ext.create('Ext.XTemplate', htmlMarkup).apply(records)]. *)
Definition applyTemplate (t : template) (records : list model)
  : result string :=
  rows <- tableRows t records ;;
  Ok (tpl_head t ++ rows_markup rows ++ pageFoot).

(* ================================================================= *)
(** ** [print], up to the markup written to the new window *)

Definition printTemplate (p : printer) (g : grid) : result template :=
  grouping <- print_grouping g ;;
  let isGrouped := fst (fst grouping) in
  let feature := snd (fst grouping) in
  let groupField := snd grouping in
  let columns := clearColumns isGrouped groupField (g_columnManager g) in
  getHtmlMarkup p g columns feature.

(** The rows [print] renders for the records of the grid's store
    ([store.getRange()], the case of a store that is neither a tree store
    nor a buffered store). *)
Definition printRows (p : printer) (g : grid) : result (list row) :=
  t <- printTemplate p g ;;
  tableRows t (st_records (g_store g)).

(** The [html] of [_printGrid] for the records of the grid's store. *)
Definition printHtml (p : printer) (g : grid) : result string :=
  t <- printTemplate p g ;;
  applyTemplate t (st_records (g_store g)).

(* ================================================================= *)
(** ** Order preservation, row counting *)

(** [keeps_order cols out]: [out] lists columns of [cols] in their input
    order, each input column at most once; a kept column is the input
    column itself or that column with its label defaulted to "Row". *)
Inductive keeps_order : list (option column) -> list column -> Prop :=
| ko_nil : keeps_order [] []
| ko_skip (x : option column) (cols : list (option column))
    (out : list column) :
    keeps_order cols out -> keeps_order (x :: cols) out
| ko_keep (c c' : column) (cols : list (option column))
    (out : list column) :
    c' = c \/ c' = with_text c (VStr "Row") ->
    keeps_order cols out -> keeps_order (Some c :: cols) (c' :: out).

Definition is_group_header (r : row) : bool :=
  match r with GroupHeaderRow _ _ => true | _ => false end.

Definition is_header (r : row) : bool :=
  match r with HeaderRow _ => true | _ => false end.

(** The parity classes of the body rows, in order. *)
Fixpoint body_classes (rows : list row) : list string :=
  match rows with
  | [] => []
  | BodyRow c _ :: rest => c :: body_classes rest
  | _ :: rest => body_classes rest
  end.

(* ================================================================= *)
(** ** [print]: the stylesheet path *)

(** [s.indexOf(pat)]: the first position of [pat] in [s], or -1. *)
Definition js_indexOf (s pat : string) : Z :=
  match String.index 0 pat s with
  | Some i => Z.of_nat i
  | None => (-1)%Z
  end.

(** [s.substring(a, b)]: both bounds are clamped to the string and
    swapped when out of order. *)
Definition js_substring (s : string) (a b : Z) : string :=
  let len := Z.of_nat (String.length s) in
  let a := Z.max 0 (Z.min a len) in
  let b := Z.max 0 (Z.min b len) in
  let lo := Z.min a b in
  let hi := Z.max a b in
  substring (Z.to_nat lo) (Z.to_nat (hi - lo)) s.

(** The stylesheet path [print] leaves in the configuration: a configured
    path, or the directory of the printer's script (the loader's path for
    the class) followed by the default stylesheet. *)
Definition resolveStylesheetPath (configured : option string)
  (scriptPath : string) : string :=
  match configured with
  | Some path => path
  | None =>
      js_substring scriptPath 0 (js_indexOf scriptPath "Printer.js")
      ++ "gridPrinterCss/print.css"
  end.

(* ================================================================= *)
(** ** Text free of template syntax *)




(* ================================================================= *)
(** ** [print]: opening the window and the events *)

(** What [_printGrid] does to the outside, in order. *)
Inductive action : Type :=
| FireBeforePrint (html : string)
| WindowOpen
| DocumentOpen
| DocumentWrite (html : string)
| DocumentClose
| WindowPrint
| WindowClose
| MainWindowClose
| FirePrint (successful : bool)
| FireAfterPrint.

(** The behaviour of the browser and of the listeners: the outcome of the
    [beforePrint] event, whether [window.open] gives a window, which of
    the window's operations throw, and which events have a listener that
    throws (of the [print] event, by the outcome it is told). *)
Record browser : Type := {
  beforePrint : bool;
  opens : bool;
  documentOpenThrows : bool;
  documentWriteThrows : bool;
  documentCloseThrows : bool;
  printThrows : bool;
  closeThrows : bool;
  isIE : bool;
  beforePrintThrows : bool;
  successListenerThrows : bool;
  failureListenerThrows : bool;
  afterPrintThrows : bool
}.

(** The two switches of the printer's configuration read by
    [_printGrid]. *)
Record automation : Type := {
  printAutomatically : bool;
  closeAutomaticallyAfterPrint : bool
}.

(** The statements of a [try] block, each with whether it throws: the
    actions performed, and whether the block completed. *)
Fixpoint attempt (steps : list (action * bool)) : list action * bool :=
  match steps with
  | [] => ([], true)
  | (a, throws) :: rest =>
      if throws then ([], false)
      else let r := attempt rest in (a :: fst r, snd r)
  end.

(** The operations on the window inside the [try] block, before the
    [print] event. *)
Definition windowSteps (cfg : automation) (b : browser) (html : string)
  : list (action * bool) :=
  ([(DocumentOpen, documentOpenThrows b);
    (DocumentWrite html, documentWriteThrows b);
    (DocumentClose, documentCloseThrows b)]
   ++ (if printAutomatically cfg then [(WindowPrint, printThrows b)]
       else [])
   ++ (if closeAutomaticallyAfterPrint cfg then
         [(if isIE b then MainWindowClose else WindowClose, closeThrows b)]
       else []))%list.

(** [_printGrid] from the [beforePrint] event on, for the markup [html]:
    the actions performed, and whether an exception leaves the function.
    An event is fired before one of its listeners throws.  The
    [print] event that reports success is fired inside the [try] block,
    so an exception of its listener is caught like one of the window:
    the failure is reported and [afterPrint] is not fired.  An exception
    of a listener of another event is not caught. *)
Definition runPrintGrid (cfg : automation) (b : browser) (html : string)
  : list action * bool :=
  if beforePrintThrows b then ([FireBeforePrint html], true)
  else if negb (beforePrint b) then ([FireBeforePrint html], false)
  else if negb (opens b) then
    ([FireBeforePrint html; WindowOpen; FirePrint false],
     failureListenerThrows b)
  else
    let r := attempt (windowSteps cfg b html) in
    if snd r then
      if successListenerThrows b then
        (FireBeforePrint html :: WindowOpen
         :: (fst r ++ [FirePrint true; FirePrint false])%list,
         failureListenerThrows b)
      else
        (FireBeforePrint html :: WindowOpen
         :: (fst r ++ [FirePrint true; FireAfterPrint])%list,
         afterPrintThrows b)
    else
      (FireBeforePrint html :: WindowOpen :: (fst r ++ [FirePrint false])%list,
       failureListenerThrows b).

(** What [_printGrid] does to the outside. *)
Definition printGrid (cfg : automation) (b : browser) (html : string)
  : list action :=
  fst (runPrintGrid cfg b html).

(** Whether [_printGrid] ends by an exception. *)
Definition printGridThrows (cfg : automation) (b : browser) (html : string)
  : bool :=
  snd (runPrintGrid cfg b html).


Definition is_fire_print (a : action) : bool :=
  match a with FirePrint _ => true | _ => false end.

Definition is_body (r : row) : bool :=
  match r with BodyRow _ _ => true | _ => false end.

Definition is_detail (r : row) : bool :=
  match r with DetailRow _ _ _ => true | _ => false end.

Definition is_summary (r : row) : bool :=
  match r with SummaryRow _ => true | _ => false end.

(** A list walked with [xindex], the 1-based position a template loop
    provides. *)
Fixpoint indexed {A B : Type} (f : Z -> A -> B) (xindex : Z) (l : list A)
  : list B :=
  match l with
  | [] => []
  | x :: r => f xindex x :: indexed f (xindex + 1)%Z r
  end.

(** The metadata object with another [tdCls]. *)
Definition with_tdCls (m : meta) (v : jsval) : meta :=
  {| m_align := m_align m; m_cellIndex := m_cellIndex m;
     m_classes := m_classes m; m_column := m_column m; m_css := m_css m;
     m_innerCls := m_innerCls m; m_record := m_record m;
     m_recordIndex := m_recordIndex m; m_style := m_style m;
     m_tdAttr := m_tdAttr m; m_tdCls := v;
     m_unselectableAttr := m_unselectableAttr m; m_value := m_value m |}.

(* ================================================================= *)
(** ** Sample grids *)

Module Sample.

Definition dataColumn (name : string) (hide : bool) (st : summary_type)
  : column :=
  {| id := VStr name; dataIndex := VStr name; text := VStr name;
     align := VStr "left"; xtype := VStr "gridcolumn"; hidden := hide;
     isTreeColumn := false; col_renderer := None; tpl := None;
     summaryType := st; summaryRenderer := None |}.

Definition nameColumn : column := dataColumn "name" false (STValue VUndef).
Definition ageColumn : column := dataColumn "age" false (STValue VUndef).
Definition deptColumn : column := dataColumn "dept" false (STValue VUndef).
Definition hiddenColumn : column := dataColumn "salary" true (STValue VUndef).
Definition bogusColumn : column :=
  dataColumn "age" false (STValue (VStr "bogus")).

Definition person (ident name dept : string) (age : Z) : model :=
  {| internalId := ident;
     data := [("name", VStr name); ("dept", VStr dept); ("age", VNum age)] |}.

Definition alice : model := person "r1" "Alice" "eng" 30.
Definition bob : model := person "r2" "Bob" "eng" 25.
Definition carol : model := person "r3" "Carol" "sales" 41.

Definition people (grouped : bool) (rawData : jsval) : store :=
  {| st_records := [alice; bob; carol];
     st_isGrouped := grouped;
     st_groupField := if grouped then VStr "dept" else VUndef;
     st_groups :=
       if grouped then [(VStr "eng", [alice; bob]); (VStr "sales", [carol])]
       else [];
     st_hasIndexOf := true;
     st_fields := Some ["name"; "dept"; "age"];
     st_rawData := rawData;
     st_min := fun _ _ => VUndef;
     st_max := fun _ _ => VUndef;
     st_average := fun _ _ => VUndef;
     st_aggregate := fun _ _ _ => VUndef |}.

Definition grouping : feature :=
  {| ftype := "grouping"; getGroupField := VStr "dept";
     hideGroupedHeader := false;
     groupHeaderTpl_html := VStr "{columnName}: {name}";
     groupHeaderTpl_apply :=
       fun gv => subst (gv_columnName gv) ++ ": " ++ subst (gv_name gv);
     showSummaryRow := false; remoteRoot := VUndef;
     summaryRecord := None |}.

Definition summary (root : jsval) : feature :=
  {| ftype := "summary"; getGroupField := VUndef;
     hideGroupedHeader := false;
     groupHeaderTpl_html := VUndef;
     groupHeaderTpl_apply := fun _ => EmptyString;
     showSummaryRow := true; remoteRoot := root;
     summaryRecord := None |}.

Definition groupingsummary (root : jsval) : feature :=
  {| ftype := "groupingsummary"; getGroupField := VStr "dept";
     hideGroupedHeader := false;
     groupHeaderTpl_html := VStr "{name}";
     groupHeaderTpl_apply := fun gv => subst (gv_name gv);
     showSummaryRow := true; remoteRoot := root;
     summaryRecord := None |}.

Definition tableView (fs : list feature) : view :=
  {| view_id := "gridview-1"; features := None; featuresMC := Some fs;
     normalView := None |}.

Definition panel (s : store) (fs : list feature) (cols : list column)
  : grid :=
  {| g_store := s; g_view := tableView fs;
     g_columnManager := map Some cols; g_columns := cols;
     g_title := VUndef; g_plugins := []; g_isGridPanel := true |}.

Definition printer : printer :=
  {| stylesheetPath := "ux/grid/gridPrinterCss/print.css";
     pageTitle := "Print View"; mainTitle := EmptyString;
     printLinkText := "Print"; closeLinkText := "Close";
     baseCSSPrefix := "x-" |}.

(** Scenario A: two columns, three flat records. *)
Definition scenarioA : grid :=
  panel (people false VUndef) [] [nameColumn; ageColumn].

(** Scenario B: the same columns and records, grouped by [dept]. *)
Definition scenarioB : grid :=
  panel (people true VUndef) [grouping] [nameColumn; ageColumn].

(** A flat grid with a summary feature and a column whose summary type is
    not one of the built-in names. *)
Definition bogusSummary : grid :=
  panel (people false VUndef) [summary VUndef] [nameColumn; bogusColumn].

(** A record whose [age] is [null]. *)
Definition dave : model :=
  {| internalId := "r4";
     data := [("name", VStr "Dave"); ("dept", VStr "eng"); ("age", VNull)] |}.

(** A column whose renderer wraps the value in bold tags and sets an
    inline style. *)
Definition boldColumn : column :=
  {| id := VStr "name"; dataIndex := VStr "name"; text := VStr "Name";
     align := VStr "left"; xtype := VStr "gridcolumn"; hidden := false;
     isTreeColumn := false;
     col_renderer :=
       Some (fun a =>
               (VStr ("<b>" ++ to_string (r_value a) ++ "</b>"),
                {| m_align := m_align (r_meta a);
                   m_cellIndex := m_cellIndex (r_meta a);
                   m_classes := m_classes (r_meta a);
                   m_column := m_column (r_meta a);
                   m_css := m_css (r_meta a);
                   m_innerCls := m_innerCls (r_meta a);
                   m_record := m_record (r_meta a);
                   m_recordIndex := m_recordIndex (r_meta a);
                   m_style := VStr "color: red;";
                   m_tdAttr := m_tdAttr (r_meta a);
                   m_tdCls := m_tdCls (r_meta a);
                   m_unselectableAttr := m_unselectableAttr (r_meta a);
                   m_value := m_value (r_meta a) |}));
     tpl := None; summaryType := STValue (VStr "count");
     summaryRenderer :=
       Some (fun a => (VStr ("Total: " ++ to_string (r_value a)), r_meta a)) |}.

(** The configuration object of the outer template for a flat grid. *)
Definition flatConfig (g : grid) (cols : list column)
  (sf : option feature) : Markup.config :=
  {| Markup.isGrouped := None; Markup.cfg_grid := g; Markup.columns := cols;
     Markup.hasSummary := is_some sf; Markup.summaryFeature := sf;
     Markup.expanderTemplate := None |}.

(** Scenario D: a grouped grid whose reader carries a remote summary
    payload with one entry, for the group [eng]. *)
Definition remotePayload : jsval :=
  VObj [("summaryData",
         VArr [VObj [("dept", VStr "eng"); ("total", VNum 5)]])].

Definition totalColumn : column := dataColumn "total" false (STValue VUndef).

Definition scenarioD : grid :=
  panel (people true remotePayload) [groupingsummary (VStr "summaryData")]
    [nameColumn; totalColumn].

(** The configuration object of the grouped body template. *)
Definition groupConfig (g : grid) (cols : list column)
  (sf : option feature) : GroupBody.config :=
  {| GroupBody.columns := cols; GroupBody.groupColumn := None;
     GroupBody.colSpan := length cols; GroupBody.cfg_grid := g;
     GroupBody.groupTpl := fun gv => subst (gv_name gv);
     GroupBody.hasSummary := false; GroupBody.summaryFeature := sf |}.

(** Template configurations and payload entries used in the examples. *)
Definition configA : Markup.config :=
  flatConfig scenarioA [nameColumn; ageColumn] None.

Definition configBold : Markup.config :=
  flatConfig scenarioA [boldColumn; ageColumn] None.

Definition configSummary : Markup.config :=
  flatConfig bogusSummary [nameColumn; hiddenColumn] (Some (summary VUndef)).

Definition configB : GroupBody.config :=
  groupConfig scenarioB [nameColumn; ageColumn] None.

Definition configD : GroupBody.config :=
  groupConfig scenarioD [nameColumn; totalColumn]
    (Some (groupingsummary (VStr "summaryData"))).

Definition singlePayload : jsval :=
  VObj [("summaryData", VObj [("total", VNum 9)])].

Definition configSingle : GroupBody.config :=
  groupConfig
    (panel (people true singlePayload)
       [groupingsummary (VStr "summaryData")] [nameColumn; totalColumn])
    [nameColumn; totalColumn]
    (Some (groupingsummary (VStr "summaryData"))).

Definition engEntry : jsval :=
  VObj [("dept", VStr "eng"); ("total", VNum 5)].

Definition emptyKeyEntry : jsval :=
  VObj [("dept", VStr EmptyString); ("total", VNum 5)].

Definition zeroKeyEntry : jsval :=
  VObj [("dept", VNum 0); ("total", VNum 7)].

Definition decimalKeyEntry : jsval :=
  VObj [("dept", VStr "1.0"); ("total", VNum 3)].

(** A grouped grid whose remote summary payload has one entry, for the
    group of the empty key. *)
Definition emptyKeyPayload : jsval :=
  VObj [("summaryData", VArr [emptyKeyEntry])].

Definition configEmptyKey : GroupBody.config :=
  groupConfig
    (panel (people true emptyKeyPayload)
       [groupingsummary (VStr "summaryData")] [nameColumn; totalColumn])
    [nameColumn; totalColumn]
    (Some (groupingsummary (VStr "summaryData"))).

Definition sumGrid : grid :=
  panel (people false VUndef) [summary VUndef]
    [boldColumn; dataColumn "age" false (STValue (VStr "sum")); deptColumn].

(** Further sample data: a hidden row numberer without label, a template
    column with a renderer, a row expander, a remote summary for the
    trailing row, a locked view, a view without features, browsers. *)
Definition rowNumberer : column :=
  {| id := VStr "rn"; dataIndex := VUndef; text := VUndef;
     align := VStr "right"; xtype := VStr "rownumberer"; hidden := true;
     isTreeColumn := false; col_renderer := None; tpl := None;
     summaryType := STValue VUndef; summaryRenderer := None |}.

Definition templateColumn : column :=
  {| id := VStr "card"; dataIndex := VUndef; text := VStr "Card";
     align := VStr "left"; xtype := VStr "templatecolumn"; hidden := false;
     isTreeColumn := false;
     col_renderer := Some (fun a => (VStr "never shown", r_meta a));
     tpl := Some (fun d => subst (lookup "name" d) ++ " ("
                           ++ subst (lookup "dept" d) ++ ")");
     summaryType := STValue VUndef; summaryRenderer := None |}.

Definition expander : plugin :=
  {| ptype := VStr "rowexpander";
     rowBodyTpl := Some (fun d => "Dept: " ++ subst (lookup "dept" d)) |}.

Definition expanderGrid : grid :=
  {| g_store := people false VUndef; g_view := tableView [];
     g_columnManager := [Some nameColumn; None; Some ageColumn];
     g_columns := [nameColumn; ageColumn];
     g_title := VStr "People"; g_plugins := [expander];
     g_isGridPanel := true |}.

Definition remoteFlatPayload : jsval :=
  VObj [("totals", VArr [VObj [("age", VNum 99)]; VObj [("age", VNum 1)]])].

Definition remoteFlatGrid : grid :=
  panel (people false remoteFlatPayload) [summary (VStr "totals")]
    [nameColumn; ageColumn].

Definition configRemoteFlat : Markup.config :=
  flatConfig remoteFlatGrid [nameColumn; ageColumn]
    (Some (summary (VStr "totals"))).

Definition configSum : Markup.config :=
  flatConfig sumGrid
    [nameColumn; dataColumn "age" false (STValue (VStr "sum"))]
    (Some (summary VUndef)).

Definition lockedView : view :=
  {| view_id := "lockingview-1"; features := None; featuresMC := None;
     normalView := Some (Some [groupingsummary VUndef; summary VUndef]) |}.

Definition bareView : view :=
  {| view_id := "view-1"; features := None; featuresMC := None;
     normalView := None |}.

Definition gridWithView (v : view) : grid :=
  {| g_store := people false VUndef; g_view := v;
     g_columnManager := [Some nameColumn]; g_columns := [nameColumn];
     g_title := VUndef; g_plugins := []; g_isGridPanel := true |}.

Definition groupConfigSummary : GroupBody.config :=
  {| GroupBody.columns := [nameColumn; boldColumn];
     GroupBody.groupColumn := None; GroupBody.colSpan := 2%nat;
     GroupBody.cfg_grid := scenarioB;
     GroupBody.groupTpl := fun gv => subst (gv_name gv);
     GroupBody.hasSummary := true;
     GroupBody.summaryFeature := Some (groupingsummary VUndef) |}.

Definition classMeta : meta :=
  with_tdCls (Markup.cellMeta configA nameColumn (VStr "Alice") alice 1)
    (VStr "hot").

Definition automatic : automation :=
  {| printAutomatically := true; closeAutomaticallyAfterPrint := true |}.

Definition goodBrowser : browser :=
  {| beforePrint := true; opens := true; documentOpenThrows := false;
     documentWriteThrows := false; documentCloseThrows := false;
     printThrows := false; closeThrows := false; isIE := false;
     beforePrintThrows := false; successListenerThrows := false;
     failureListenerThrows := false; afterPrintThrows := false |}.

Definition blockedBrowser : browser :=
  {| beforePrint := true; opens := false; documentOpenThrows := false;
     documentWriteThrows := false; documentCloseThrows := false;
     printThrows := false; closeThrows := false; isIE := false;
     beforePrintThrows := false; successListenerThrows := false;
     failureListenerThrows := false; afterPrintThrows := false |}.

(** A browser in which all goes well, and a listener of the [print] event
    that throws when it is told of the success. *)
Definition throwingListener : browser :=
  {| beforePrint := true; opens := true; documentOpenThrows := false;
     documentWriteThrows := false; documentCloseThrows := false;
     printThrows := false; closeThrows := false; isIE := false;
     beforePrintThrows := false; successListenerThrows := true;
     failureListenerThrows := false; afterPrintThrows := false |}.

End Sample.

(* ================================================================= *)
(** * Properties *)

(** ** Column clean-up *)

Lemma cleanColumn_origin (isGrouped : bool) (groupField : jsval)
  (c c' : column) :
  cleanColumn isGrouped groupField c = Some c' ->
  c' = c \/ (c' = with_text c (VStr "Row")
             /\ strict_eq (xtype c) (VStr "rownumberer") = true).
Proof.
  unfold cleanColumn. intros H.
  destruct (negb (isEmpty (dataIndex c)) && negb (hidden c) && negb isGrouped).
  - left. congruence.
  - destruct (strict_eq (xtype c) (VStr "rownumberer")) eqn:E.
    + destruct (truthy (text c)); inversion H; auto.
    + destruct (strict_eq (xtype c) (VStr "templatecolumn")).
      * left. congruence.
      * destruct (isGrouped && negb (strict_eq (dataIndex c) groupField)
                  && negb (strict_eq (xtype c) (VStr "actioncolumn")));
          [left; congruence | discriminate].
Qed.

Lemma clearColumns_in (isGrouped : bool) (groupField : jsval)
  (cols : list (option column)) (c' : column) :
  In c' (clearColumns isGrouped groupField cols) <->
  exists c, In (Some c) cols /\ cleanColumn isGrouped groupField c = Some c'.
Proof.
  induction cols as [|[c|] rest IH]; simpl.
  - split; [tauto | intros (c & [] & _)].
  - destruct (cleanColumn isGrouped groupField c) as [k|] eqn:E; simpl.
    + rewrite IH. split.
      * intros [<- | (x & Hx & Hc)]; [exists c; auto | exists x; auto].
      * intros (x & [Hx | Hx] & Hc).
        -- inversion Hx; subst. left. congruence.
        -- right. exists x; auto.
    + rewrite IH. split.
      * intros (x & Hx & Hc). exists x; auto.
      * intros (x & [Hx | Hx] & Hc).
        -- inversion Hx; subst. congruence.
        -- exists x; auto.
  - rewrite IH. split.
    + intros (x & Hx & Hc). exists x; auto.
    + intros (x & [Hx | Hx] & Hc); [discriminate | exists x; auto].
Qed.

Lemma clearColumns_keeps_order (isGrouped : bool) (groupField : jsval)
  (cols : list (option column)) :
  keeps_order cols (clearColumns isGrouped groupField cols).
Proof.
  induction cols as [|[c|] rest IH]; simpl.
  - constructor.
  - destruct (cleanColumn isGrouped groupField c) as [k|] eqn:E.
    + apply ko_keep; [|exact IH].
      destruct (cleanColumn_origin _ _ _ _ E) as [H | [H _]]; auto.
    + apply ko_skip, IH.
  - apply ko_skip, IH.
Qed.

(** A column that is neither a row numberer nor a template column passes
    the clean-up exactly by the first or by the last test. *)
Lemma cleanColumn_plain (isGrouped : bool) (groupField : jsval)
  (c c' : column) :
  strict_eq (xtype c') (VStr "rownumberer") = false ->
  strict_eq (xtype c') (VStr "templatecolumn") = false ->
  (cleanColumn isGrouped groupField c = Some c' <->
   c' = c /\
   if isGrouped
   then strict_eq (dataIndex c) groupField = false
        /\ strict_eq (xtype c) (VStr "actioncolumn") = false
   else isEmpty (dataIndex c) = false /\ hidden c = false).
Proof.
  intros Hrn Htpl. split.
  - intros H.
    assert (c' = c) as ->.
    { destruct (cleanColumn_origin _ _ _ _ H) as [E | [E R]]; [exact E|].
      subst c'. simpl in Hrn. congruence. }
    split; [reflexivity|].
    unfold cleanColumn in H. rewrite Hrn, Htpl in H.
    destruct isGrouped; simpl in *.
    + rewrite andb_false_r in H. simpl in H.
      destruct (strict_eq (dataIndex c) groupField);
        destruct (strict_eq (xtype c) (VStr "actioncolumn"));
        simpl in H; try discriminate; auto.
    + rewrite andb_true_r in H.
      destruct (isEmpty (dataIndex c)); destruct (hidden c);
        simpl in H; try discriminate; auto.
  - intros [-> H]. unfold cleanColumn. rewrite Hrn, Htpl.
    destruct isGrouped; simpl.
    + destruct H as [-> ->]. rewrite andb_false_r. reflexivity.
    + destruct H as [-> ->]. reflexivity.
Qed.

(** C1 (as stated, refuted): with grouping active and group field [dept],
    the [name] column is neither a row numberer nor a template column, its
    [dataIndex] differs from the group field and it is not an action
    column, yet the clean-up keeps it; the group field's own column is
    dropped. *)
Lemma C1_counterexample :
  In Sample.nameColumn
    (clearColumns true (VStr "dept")
       [Some Sample.nameColumn; Some Sample.deptColumn])
  /\ strict_eq (xtype Sample.nameColumn) (VStr "rownumberer") = false
  /\ strict_eq (xtype Sample.nameColumn) (VStr "templatecolumn") = false
  /\ strict_eq (dataIndex Sample.nameColumn) (VStr "dept") = false
  /\ strict_eq (xtype Sample.nameColumn) (VStr "actioncolumn") = false
  /\ clearColumns true (VStr "dept")
       [Some Sample.nameColumn; Some Sample.deptColumn]
     = [Sample.nameColumn].
Proof.
  split; [left; reflexivity | repeat split].
Qed.

(** C1 (amended): with grouping active, a column that is neither a row
    numberer nor a template column is in the cleaned column list only if
    its [dataIndex] is not the group field and it is not an action
    column. *)
Theorem C1_grouped_columns (cols : list (option column))
  (groupField : jsval) (c : column) :
  strict_eq (xtype c) (VStr "rownumberer") = false ->
  strict_eq (xtype c) (VStr "templatecolumn") = false ->
  In c (clearColumns true groupField cols) ->
  strict_eq (dataIndex c) groupField = false
  /\ strict_eq (xtype c) (VStr "actioncolumn") = false.
Proof.
  intros Hrn Htpl Hin. apply clearColumns_in in Hin.
  destruct Hin as (x & Hin & Hc).
  apply (cleanColumn_plain true groupField x c Hrn Htpl) in Hc.
  destruct Hc as [-> H]. exact H.
Qed.

Lemma C1_grouped_columns_witness :
  strict_eq (xtype Sample.ageColumn) (VStr "rownumberer") = false
  /\ strict_eq (xtype Sample.ageColumn) (VStr "templatecolumn") = false
  /\ In Sample.ageColumn
       (clearColumns true (VStr "dept")
          [Some Sample.deptColumn; None; Some Sample.ageColumn])
  /\ strict_eq (dataIndex Sample.ageColumn) (VStr "dept") = false
  /\ strict_eq (xtype Sample.ageColumn) (VStr "actioncolumn") = false.
Proof.
  assert (Hin : In Sample.ageColumn
                  (clearColumns true (VStr "dept")
                     [Some Sample.deptColumn; None; Some Sample.ageColumn]))
    by (simpl; left; reflexivity).
  split; [reflexivity | split; [reflexivity | split; [exact Hin|]]].
  exact (C1_grouped_columns
           [Some Sample.deptColumn; None; Some Sample.ageColumn]
           (VStr "dept") Sample.ageColumn eq_refl eq_refl Hin).
Defined.

(** C3 (the code departs from the claim): a hidden data column is left
    out of the cleaned column list without grouping, by the test on
    [hidden] of the first branch of the loop; with grouping active and a
    group field other than its [dataIndex], the last branch of the loop
    keeps it, and the hidden column is printed. *)
Theorem C3_hidden_column_grouped :
  hidden Sample.hiddenColumn = true
  /\ isEmpty (dataIndex Sample.hiddenColumn) = false
  /\ clearColumns false VUndef
       [Some Sample.nameColumn; Some Sample.hiddenColumn]
     = [Sample.nameColumn]
  /\ clearColumns true (VStr "dept")
       [Some Sample.nameColumn; Some Sample.hiddenColumn]
     = [Sample.nameColumn; Sample.hiddenColumn].
Proof.
  repeat split.
Qed.

(** X22: the cleaned column list keeps the input order, with at most one
    output column per input column; without grouping, a kept column that
    is neither a row numberer nor a template column has a non-empty
    [dataIndex] and is not hidden; with grouping, such a column has a
    [dataIndex] other than the group field and is not an action
    column. *)
Theorem clean_columns_order (cols : list (option column)) (isGrouped : bool)
  (groupField : jsval) :
  keeps_order cols (clearColumns isGrouped groupField cols)
  /\ forall c : column,
       In c (clearColumns isGrouped groupField cols) ->
       strict_eq (xtype c) (VStr "rownumberer") = false ->
       strict_eq (xtype c) (VStr "templatecolumn") = false ->
       In (Some c) cols
       /\ if isGrouped
          then strict_eq (dataIndex c) groupField = false
               /\ strict_eq (xtype c) (VStr "actioncolumn") = false
          else isEmpty (dataIndex c) = false /\ hidden c = false.
Proof.
  split; [apply clearColumns_keeps_order|].
  intros c Hin Hrn Htpl.
  apply clearColumns_in in Hin. destruct Hin as (x & Hin & Hc).
  apply (cleanColumn_plain isGrouped groupField x c Hrn Htpl) in Hc.
  destruct Hc as [-> H]. auto.
Qed.

Lemma clean_columns_order_witness :
  In Sample.nameColumn
    (clearColumns false VUndef
       [Some Sample.hiddenColumn; Some Sample.nameColumn])
  /\ strict_eq (xtype Sample.nameColumn) (VStr "rownumberer") = false
  /\ strict_eq (xtype Sample.nameColumn) (VStr "templatecolumn") = false
  /\ keeps_order [Some Sample.hiddenColumn; Some Sample.nameColumn]
       (clearColumns false VUndef
          [Some Sample.hiddenColumn; Some Sample.nameColumn])
  /\ In (Some Sample.nameColumn)
       [Some Sample.hiddenColumn; Some Sample.nameColumn]
  /\ isEmpty (dataIndex Sample.nameColumn) = false
  /\ hidden Sample.nameColumn = false.
Proof.
  pose proof (clean_columns_order
                [Some Sample.hiddenColumn; Some Sample.nameColumn]
                false VUndef) as [Hord H].
  assert (Hin : In Sample.nameColumn
                  (clearColumns false VUndef
                     [Some Sample.hiddenColumn; Some Sample.nameColumn]))
    by (simpl; left; reflexivity).
  destruct (H Sample.nameColumn Hin eq_refl eq_refl) as (Hi & He & Hh).
  repeat split; assumption.
Defined.

(** ** Aggregates *)

Lemma getSummary_same (s : store) (type : summary_type) (field : jsval)
  (group : bool) :
  GroupBody.getSummary s type field group
  = Markup.getSummary s type field group.
Proof.
  destruct type as [t|fn]; [|reflexivity].
  unfold GroupBody.getSummary, Markup.getSummary.
  destruct (truthy t); reflexivity.
Qed.

(** C4: [getSummary] with type 'count' in flat mode is the length of the
    collection and with 'sum' the arithmetic sum of the field; the five
    built-in names dispatch to the matching store built-in with the
    grouped flag; any other truthy type gives an empty mapping when
    grouped and the empty string otherwise; a falsy type gives
    [undefined].  Both copies of [getSummary] agree. *)
Theorem C4_getSummary (s : store) (field : jsval) (group : bool) :
  Markup.getSummary s (STValue (VStr "count")) field false
  = VNum (Z.of_nat (length (st_records s)))
  /\ Markup.getSummary s (STValue (VStr "sum")) field false
     = VNum (sum_field field (st_records s))
  /\ Markup.getSummary s (STValue (VStr "count")) field group
     = store_count s group
  /\ Markup.getSummary s (STValue (VStr "min")) field group
     = st_min s field group
  /\ Markup.getSummary s (STValue (VStr "max")) field group
     = st_max s field group
  /\ Markup.getSummary s (STValue (VStr "sum")) field group
     = store_sum s field group
  /\ Markup.getSummary s (STValue (VStr "average")) field group
     = st_average s field group
  /\ (forall t : jsval,
        truthy t = true ->
        strict_eq t (VStr "count") = false ->
        strict_eq t (VStr "min") = false ->
        strict_eq t (VStr "max") = false ->
        strict_eq t (VStr "sum") = false ->
        strict_eq t (VStr "average") = false ->
        Markup.getSummary s (STValue t) field group
        = if group then VObj [] else VStr EmptyString)
  /\ (forall t : jsval,
        truthy t = false ->
        Markup.getSummary s (STValue t) field group = VUndef)
  /\ (forall type : summary_type,
        GroupBody.getSummary s type field group
        = Markup.getSummary s type field group).
Proof.
  repeat split; try reflexivity.
  - intros t Ht H1 H2 H3 H4 H5. unfold Markup.getSummary.
    rewrite Ht, H1, H2, H3, H4, H5. reflexivity.
  - intros t Ht. unfold Markup.getSummary. rewrite Ht. reflexivity.
  - intros type. apply getSummary_same.
Qed.

Lemma C4_getSummary_witness :
  Markup.getSummary (Sample.people false VUndef) (STValue (VStr "count"))
    (VStr "age") false = VNum 3
  /\ Markup.getSummary (Sample.people false VUndef) (STValue (VStr "sum"))
       (VStr "age") false = VNum 96
  /\ truthy (VStr "bogus") = true
  /\ Markup.getSummary (Sample.people false VUndef) (STValue (VStr "bogus"))
       (VStr "age") false = VStr EmptyString
  /\ truthy (VStr EmptyString) = false
  /\ Markup.getSummary (Sample.people false VUndef)
       (STValue (VStr EmptyString)) (VStr "age") false = VUndef.
Proof.
  destruct (C4_getSummary (Sample.people false VUndef) (VStr "age") false)
    as (Hc & Hs & _ & _ & _ & _ & _ & Hu & Hf & _).
  split; [exact Hc|]. split; [exact Hs|]. split; [reflexivity|].
  split; [apply Hu; reflexivity|]. split; [reflexivity|].
  apply Hf; reflexivity.
Defined.

(** ** Cells *)

(** C5 (as stated, refuted): a cell whose value is [null] shows the text
    [null], not the placeholder. *)
Lemma C5_counterexample :
  get Sample.dave (VStr "age") = VNull
  /\ fst (Markup.renderedValue Sample.configA Sample.ageColumn VNull
            Sample.dave 2) = VNull
  /\ Markup.renderColumn Sample.configA Sample.ageColumn
       (get Sample.dave (VStr "age")) Sample.dave 2
     = "<td ><div  style=" ++ dq ++ "text-align: left;" ++ dq
       ++ " unselectable=" ++ dq ++ "on" ++ dq ++ ">null</div></td>"
  /\ GroupBody.renderColumn Sample.configB Sample.ageColumn
       (get Sample.dave (VStr "age")) Sample.dave 2
     = "<td ><div  style=" ++ dq ++ "text-align: left;" ++ dq
       ++ " unselectable=" ++ dq ++ "on" ++ dq ++ ">null</div></td>".
Proof.
  repeat split.
Qed.

(** C5 (amended): a cell whose final value, after any renderer or template
    was applied, is [undefined] shows the non-breaking-space placeholder;
    this holds in both copies of [getHtml] and [renderColumn]. *)
Theorem C5_undefined_placeholder :
  (forall m : meta,
     Markup.getHtml VUndef m
     = Markup.cellOpen m ++ ">" ++ "&nbsp;" ++ "</div></td>")
  /\ (forall m : meta,
        GroupBody.getHtml VUndef m
        = GroupBody.cellOpen m ++ ">" ++ "&nbsp;" ++ "</div></td>")
  /\ (forall (me : Markup.config) (col : column) (value : jsval)
         (rcd : model) (c : Z),
        fst (Markup.renderedValue me col value rcd c) = VUndef ->
        Markup.renderColumn me col value rcd c
        = Markup.cellOpen (snd (Markup.renderedValue me col value rcd c))
          ++ ">" ++ "&nbsp;" ++ "</div></td>")
  /\ (forall (me : GroupBody.config) (col : column) (value : jsval)
         (rcd : model) (c : Z),
        fst (GroupBody.renderedValue me col value rcd c) = VUndef ->
        GroupBody.renderColumn me col value rcd c
        = GroupBody.cellOpen
            (snd (GroupBody.renderedValue me col value rcd c))
          ++ ">" ++ "&nbsp;" ++ "</div></td>").
Proof.
  repeat split; try reflexivity.
  - intros me col value rcd c H. unfold Markup.renderColumn.
    cbv zeta. rewrite H. reflexivity.
  - intros me col value rcd c H. unfold GroupBody.renderColumn.
    cbv zeta. rewrite H. reflexivity.
Qed.

Lemma C5_undefined_placeholder_witness :
  fst (Markup.renderedValue Sample.configA Sample.ageColumn
         (get Sample.dave (VStr "salary")) Sample.dave 2) = VUndef
  /\ Markup.renderColumn Sample.configA Sample.ageColumn
       (get Sample.dave (VStr "salary")) Sample.dave 2
     = "<td ><div  style=" ++ dq ++ "text-align: left;" ++ dq
       ++ " unselectable=" ++ dq ++ "on" ++ dq ++ ">&nbsp;</div></td>"
  /\ fst (GroupBody.renderedValue Sample.configB Sample.ageColumn
            (get Sample.dave (VStr "salary")) Sample.dave 2) = VUndef
  /\ GroupBody.renderColumn Sample.configB Sample.ageColumn
       (get Sample.dave (VStr "salary")) Sample.dave 2
     = "<td ><div  style=" ++ dq ++ "text-align: left;" ++ dq
       ++ " unselectable=" ++ dq ++ "on" ++ dq ++ ">&nbsp;</div></td>".
Proof.
  destruct C5_undefined_placeholder as (_ & _ & H & HG).
  split; [reflexivity|]. split.
  - rewrite (H Sample.configA Sample.ageColumn
               (get Sample.dave (VStr "salary")) Sample.dave 2%Z eq_refl).
    reflexivity.
  - split; [reflexivity|].
    rewrite (HG Sample.configB Sample.ageColumn
                (get Sample.dave (VStr "salary")) Sample.dave 2%Z eq_refl).
    reflexivity.
Defined.

(** C6: for a column that is not a template column, [renderColumn] calls a
    configured renderer with the raw value, the metadata object, the
    record, -1, the column ordinal minus one, the store and the view, and
    the value it returns (with the metadata it wrote) goes to the cell in
    place of the raw value; without a renderer the raw value goes to the
    cell unchanged. *)
Theorem C6_renderer_call (me : Markup.config) (col : column)
  (value : jsval) (rcd : model) (c : Z) :
  loose_eq (xtype col) (VStr "templatecolumn") = false ->
  (forall r : renderer,
     col_renderer col = Some r ->
     let args :=
       {| r_this := if isTreeColumn col then ScopeColumn else ScopeGrid;
          r_value := value;
          r_meta := Markup.cellMeta me col value rcd c;
          r_record := Some rcd;
          r_rowIndex := (-1)%Z;
          r_colIndex := (c - 1)%Z;
          r_store := g_store (Markup.cfg_grid me);
          r_view := g_view (Markup.cfg_grid me) |} in
     Markup.renderedValue me col value rcd c = r args
     /\ Markup.renderColumn me col value rcd c
        = Markup.getHtml (fst (r args)) (snd (r args)))
  /\ (col_renderer col = None ->
      Markup.renderedValue me col value rcd c
      = (value, Markup.cellMeta me col value rcd c)
      /\ Markup.renderColumn me col value rcd c
         = Markup.getHtml value (Markup.cellMeta me col value rcd c)).
Proof.
  intros Hx. split.
  - intros r Hr args.
    assert (E : Markup.renderedValue me col value rcd c = r args).
    { unfold Markup.renderedValue. cbv zeta. rewrite Hx, Hr. reflexivity. }
    split; [exact E|]. unfold Markup.renderColumn. cbv zeta.
    rewrite E. reflexivity.
  - intros Hr.
    assert (E : Markup.renderedValue me col value rcd c
                = (value, Markup.cellMeta me col value rcd c)).
    { unfold Markup.renderedValue. cbv zeta. rewrite Hx, Hr. reflexivity. }
    split; [exact E|]. unfold Markup.renderColumn. cbv zeta.
    rewrite E. reflexivity.
Qed.

Lemma C6_renderer_call_witness :
  loose_eq (xtype Sample.boldColumn) (VStr "templatecolumn") = false
  /\ Markup.renderColumn Sample.configBold Sample.boldColumn (VStr "Alice")
       Sample.alice 1
     = "<td ><div  style=" ++ dq ++ "text-align: left;color: red;" ++ dq
       ++ " unselectable=" ++ dq ++ "on" ++ dq ++ "><b>Alice</b></div></td>"
  /\ col_renderer Sample.ageColumn = None
  /\ Markup.renderColumn Sample.configBold Sample.ageColumn (VNum 30)
       Sample.alice 2
     = "<td ><div  style=" ++ dq ++ "text-align: left;" ++ dq
       ++ " unselectable=" ++ dq ++ "on" ++ dq ++ ">30</div></td>".
Proof.
  split; [reflexivity|]. split.
  - destruct (C6_renderer_call Sample.configBold Sample.boldColumn
                (VStr "Alice") Sample.alice 1%Z eq_refl) as [H _].
    destruct (col_renderer Sample.boldColumn) as [r|] eqn:E;
      [|discriminate].
    destruct (H r eq_refl) as [_ ->].
    injection E as <-. reflexivity.
  - split; [reflexivity|].
    destruct (C6_renderer_call Sample.configBold Sample.ageColumn
                (VNum 30) Sample.alice 2%Z eq_refl) as [_ H].
    destruct (H eq_refl) as [_ ->]. reflexivity.
Defined.

(** ** The trailing summary row *)

Lemma get_prop_truthy (v : jsval) (k : string) :
  truthy v = true -> exists x, get_prop v k = Ok x.
Proof.
  destruct v; simpl; intros H; try discriminate; eauto.
  - destruct (String.eqb k "length"); [eauto|].
    destruct (array_index k) as [i|]; [|eauto].
    destruct (String.get i s); eauto.
  - destruct (String.eqb k "length"); [eauto|].
    destruct (array_index k); eauto.
Qed.

Lemma mapi_from_length {A B : Type} (f : A -> Z -> result B)
  (l : list A) :
  forall (i : Z) (ys : list B),
    mapi_from f i l = Ok ys -> length ys = length l.
Proof.
  induction l as [|x r IH]; simpl; intros i ys H.
  - inversion H. reflexivity.
  - destruct (f x i) as [y|e]; simpl in H; [|discriminate].
    destruct (mapi_from f (i + 1)%Z r) as [zs|e] eqn:E; simpl in H;
      [|discriminate].
    inversion H; subst. simpl. f_equal. eapply IH, E.
Qed.

(** A list of calls that all return is a list that returns. *)
Lemma mapi_from_ok {A B : Type} (f : A -> Z -> result B) (l : list A) :
  (forall (x : A) (i : Z), exists y, f x i = Ok y) ->
  forall i : Z, exists ys, mapi_from f i l = Ok ys.
Proof.
  intros Hf. induction l as [|x r IH]; simpl; intros i.
  - eauto.
  - destruct (Hf x i) as [y ->]. destruct (IH (i + 1)%Z) as [ys ->].
    simpl. eauto.
Qed.

Lemma remoteSummaryRecord_ok (me : Markup.config) (f : feature) :
  exists rcd, Markup.remoteSummaryRecord me f = Ok rcd.
Proof.
  unfold Markup.remoteSummaryRecord. cbv zeta.
  destruct (truthy (st_rawData (g_store (Markup.cfg_grid me)))) eqn:E;
    [|eauto].
  destruct (get_prop_truthy _ (to_string (remoteRoot f)) E) as [root ->].
  simpl. destruct (isArray root); eauto.
Qed.

Lemma summaryValue_ok (me : Markup.config) (f : feature) (col : column) :
  Markup.summaryFeature me = Some f ->
  exists value, Markup.summaryValue me col = Ok value.
Proof.
  intros Hf. unfold Markup.summaryValue. rewrite Hf.
  destruct (truthy (remoteRoot f)); [|eauto].
  destruct (remoteSummaryRecord_ok me f) as [rcd ->]. simpl. eauto.
Qed.

Lemma getSummaryRecord42_ok (me : Markup.config) (f : feature) :
  Markup.summaryFeature me = Some f ->
  exists rcd, Markup.getSummaryRecord42 me = Ok rcd.
Proof.
  intros Hf. unfold Markup.getSummaryRecord42. rewrite Hf.
  destruct (truthy (remoteRoot f)); [apply remoteSummaryRecord_ok | eauto].
Qed.

Lemma renderSummary_ok (me : Markup.config) (f : feature) (col : column)
  (colIndex : Z) :
  Markup.summaryFeature me = Some f ->
  exists html, Markup.renderSummary me col colIndex = Ok html.
Proof.
  intros Hf. unfold Markup.renderSummary.
  destruct (summaryValue_ok me f col Hf) as [value ->]. simpl.
  destruct (summaryRenderer col) as [r|].
  - destruct (getSummaryRecord42_ok me f Hf) as [rcd ->]. simpl. eauto.
  - simpl.
    destruct (negb (isDefined value) || loose_eq value (VNum 0)); eauto.
Qed.

(** C7 (as stated, refuted): a column whose summary type is not a built-in
    name has the empty string as its computed value, which is defined and
    is not the number zero; its summary cell shows the placeholder, not
    the value. *)
Lemma C7_counterexample :
  exists t : template,
    printTemplate Sample.printer Sample.bogusSummary = Ok t
    /\ Markup.summaryValue (tpl_config t) Sample.bogusColumn
       = Ok (VStr EmptyString)
    /\ isDefined (VStr EmptyString) = true
    /\ strict_eq (VStr EmptyString) (VNum 0) = false
    /\ Markup.renderSummary (tpl_config t) Sample.bogusColumn 2
       = Ok ("<td ><div  style=" ++ dq ++ "text-align: undefined;" ++ dq
             ++ " unselectable=" ++ dq ++ "on" ++ dq
             ++ ">&nbsp;</div></td>").
Proof.
  eexists. split; [reflexivity|]. repeat split.
Qed.

(** C7 (amended): with a summary feature configured, every summary cell is
    rendered; without a summary renderer the cell shows the placeholder
    when the computed value is [undefined] or loosely equal to 0 (which
    includes the empty string of an unknown summary type) and the value
    itself otherwise; a summary renderer takes precedence and its return
    value is shown; the summary row comes last and has one cell per
    column. *)
Theorem C7_summary_row :
  (forall (me : Markup.config) (f : feature) (col : column) (colIndex : Z),
     Markup.summaryFeature me = Some f ->
     exists value : jsval,
       Markup.summaryValue me col = Ok value
       /\ (summaryRenderer col = None ->
           exists m : meta,
             Markup.getSummaryObject42 (column_obj col) (VNum colIndex)
               VUndef VUndef = Ok m
             /\ Markup.renderSummary me col colIndex
                = Ok (Markup.getHtml
                        (if negb (isDefined value) || loose_eq value (VNum 0)
                         then VStr "&nbsp;" else value) m))
       /\ (forall r : renderer,
             summaryRenderer col = Some r ->
             exists (rcd : model) (m : meta),
               Markup.getSummaryRecord42 me = Ok rcd
               /\ Markup.getSummaryObject42 value (column_obj col)
                    (VNum colIndex) (model_obj (Some rcd)) = Ok m
               /\ let args :=
                    {| r_this := ScopeGrid;
                       r_value := value;
                       r_meta := m;
                       r_record := Some rcd;
                       r_rowIndex := (-1)%Z;
                       r_colIndex := colIndex;
                       r_store := g_store (Markup.cfg_grid me);
                       r_view := g_view (Markup.cfg_grid me) |} in
                  Markup.renderSummary me col colIndex
                  = Ok (Markup.getHtml (fst (r args)) (snd (r args)))))
  /\ (forall (t : template) (records : list model) (rows : list row),
        Markup.hasSummary (tpl_config t) = true ->
        tableRows t records = Ok rows ->
        exists (body : list row) (cells : list string),
          rows = (HeaderRow (tpl_headings t) :: body
                  ++ [SummaryRow cells])%list
          /\ mapi_from (Markup.renderSummary (tpl_config t)) 1%Z
               (Markup.columns (tpl_config t)) = Ok cells
          /\ length cells = length (Markup.columns (tpl_config t))).
Proof.
  split.
  - intros me f col colIndex Hf.
    destruct (summaryValue_ok me f col Hf) as [value Hv].
    exists value. split; [exact Hv|]. split.
    + intros Hr. eexists. split; [reflexivity|].
      unfold Markup.renderSummary. rewrite Hv, Hr. simpl.
      destruct (negb (isDefined value) || loose_eq value (VNum 0));
        reflexivity.
    + intros r Hr.
      destruct (getSummaryRecord42_ok me f Hf) as [rcd Hrcd].
      exists rcd. eexists. split; [exact Hrcd|]. split; [reflexivity|].
      cbv zeta. unfold Markup.renderSummary. rewrite Hv, Hr. simpl.
      rewrite Hrcd. reflexivity.
  - intros t records rows Hs H. unfold tableRows in H. cbv zeta in H.
    destruct (applyRecords (tpl_config t) (tpl_body t) 1 records)
      as [body|e]; simpl in H; [|discriminate].
    rewrite Hs in H.
    destruct (mapi_from (Markup.renderSummary (tpl_config t)) 1
                (Markup.columns (tpl_config t))) as [cells|e] eqn:E;
      simpl in H; [|discriminate].
    inversion H; subst. exists body, cells.
    split; [reflexivity|]. split; [reflexivity|].
    eapply mapi_from_length, E.
Qed.

Lemma C7_summary_row_witness :
  exists t : template,
    printTemplate Sample.printer Sample.sumGrid = Ok t
    /\ Markup.summaryFeature (tpl_config t) = Some (Sample.summary VUndef)
    /\ Markup.hasSummary (tpl_config t) = true
    /\ Markup.renderSummary (tpl_config t) Sample.boldColumn 1
       = Ok ("<td ><div  style=" ++ dq ++ "text-align: left;" ++ dq
             ++ " unselectable=" ++ dq ++ "on" ++ dq
             ++ ">Total: 3</div></td>")
    /\ Markup.renderSummary (tpl_config t) Sample.deptColumn 3
       = Ok ("<td ><div  style=" ++ dq ++ "text-align: undefined;" ++ dq
             ++ " unselectable=" ++ dq ++ "on" ++ dq
             ++ ">&nbsp;</div></td>")
    /\ exists body : list row,
         tableRows t [Sample.alice; Sample.bob; Sample.carol]
         = Ok (HeaderRow (tpl_headings t) :: body
               ++ [SummaryRow
                     [("<td ><div  style=" ++ dq ++ "text-align: left;" ++ dq
                       ++ " unselectable=" ++ dq ++ "on" ++ dq
                       ++ ">Total: 3</div></td>")%string;
                      ("<td ><div  style=" ++ dq ++ "text-align: undefined;"
                       ++ dq ++ " unselectable=" ++ dq ++ "on" ++ dq
                       ++ ">96</div></td>")%string;
                      ("<td ><div  style=" ++ dq ++ "text-align: undefined;"
                       ++ dq ++ " unselectable=" ++ dq ++ "on" ++ dq
                       ++ ">&nbsp;</div></td>")%string]])%list.
Proof.
  eexists. split; [reflexivity|]. split; [reflexivity|].
  split; [reflexivity|].
  destruct C7_summary_row as [HA HB].
  split; [|split].
  - match goal with
    | |- Markup.renderSummary ?me ?col ?i = _ =>
        destruct (HA me (Sample.summary VUndef) col i eq_refl)
          as (value & Hv & _ & Hsome);
        destruct (Hsome _ eq_refl) as (rcd & m & Hrcd & Hm & ->)
    end.
    vm_compute in Hv. injection Hv as <-.
    vm_compute in Hrcd. injection Hrcd as <-.
    vm_compute in Hm. injection Hm as <-.
    reflexivity.
  - match goal with
    | |- Markup.renderSummary ?me ?col ?i = _ =>
        destruct (HA me (Sample.summary VUndef) col i eq_refl)
          as (value & Hv & Hnone & _);
        destruct (Hnone eq_refl) as (m & Hm & ->)
    end.
    vm_compute in Hv. injection Hv as <-.
    vm_compute in Hm. injection Hm as <-.
    reflexivity.
  - match goal with
    | |- exists body, tableRows ?t ?recs = _ =>
        destruct (tableRows t recs) as [rows|e] eqn:E;
          [destruct (HB t recs rows eq_refl E)
             as (body & cells & -> & Hc & _)
          | vm_compute in E; discriminate]
    end.
    exists body. vm_compute in Hc. injection Hc as <-. reflexivity.
Defined.

(** ** Remote summaries *)

Lemma scanSummaryRcd_none (items : list jsval) (fieldName : string)
  (value : jsval) :
  (forall x, In x items ->
     exists fx, get_prop x fieldName = Ok fx
                /\ truthy fx && loose_eq fx value = false) ->
  GroupBody.scanSummaryRcd items fieldName value = Ok VUndef.
Proof.
  induction items as [|x r IH]; intros H; [reflexivity|].
  destruct (H x (or_introl eq_refl)) as (fx & Hg & Hc).
  cbn [GroupBody.scanSummaryRcd]. rewrite Hg. cbn [bind]. rewrite Hc.
  apply IH. intros y Hy. apply H. right. exact Hy.
Qed.

Lemma scanSummaryRcd_first (pre post : list jsval) (item : jsval)
  (fieldName : string) (value f : jsval) :
  (forall x, In x pre ->
     exists fx, get_prop x fieldName = Ok fx
                /\ truthy fx && loose_eq fx value = false) ->
  get_prop item fieldName = Ok f ->
  truthy f = true ->
  loose_eq f value = true ->
  GroupBody.scanSummaryRcd (pre ++ item :: post)%list fieldName value
  = Ok item.
Proof.
  intros Hpre Hf Ht Hl. induction pre as [|x r IH].
  - cbn [app GroupBody.scanSummaryRcd]. rewrite Hf. cbn [bind].
    rewrite Ht, Hl. reflexivity.
  - destruct (Hpre x (or_introl eq_refl)) as (fx & Hg & Hc).
    cbn [app GroupBody.scanSummaryRcd]. rewrite Hg. cbn [bind]. rewrite Hc.
    apply IH. intros y Hy. apply Hpre. right. exact Hy.
Qed.

(** C8 (the code departs from the claim): the only entry of the payload
    has the empty string as its group field and the current group key is
    the empty string; the entry's group field equals the key, and the
    lookup returns [undefined], so that the summary cell of the group
    shows the placeholder and not the entry's total.  Likewise for the
    number 0.  An entry of group field [eng] is returned for the key
    [eng], and its total is shown. *)
Theorem C8_falsy_key_skipped :
  get_prop Sample.emptyKeyEntry "dept" = Ok (VStr EmptyString)
  /\ loose_eq (VStr EmptyString) (VStr EmptyString) = true
  /\ GroupBody.getSummaryRcd (VArr [Sample.emptyKeyEntry]) (VStr "dept")
       (VStr EmptyString) = Ok VUndef
  /\ GroupBody.renderSummary Sample.configEmptyKey (VStr EmptyString)
       Sample.totalColumn 2
     = Ok "<td><div>&nbsp;</div></td>"
  /\ get_prop Sample.zeroKeyEntry "dept" = Ok (VNum 0)
  /\ loose_eq (VNum 0) (VNum 0) = true
  /\ GroupBody.getSummaryRcd (VArr [Sample.zeroKeyEntry]) (VStr "dept")
       (VNum 0) = Ok VUndef
  /\ GroupBody.getSummaryRcd (VArr [Sample.engEntry]) (VStr "dept")
       (VStr "eng") = Ok Sample.engEntry
  /\ GroupBody.renderSummary Sample.configD (VStr "eng")
       Sample.totalColumn 2
     = Ok "<td><div>5</div></td>".
Proof.
  repeat split.
Qed.

(** X23: over a sequence payload the lookup returns the first entry whose
    group field is truthy and loosely equal to the current group key;
    when no entry is such, it returns [undefined], and a cell without
    summary renderer, read from a new summary record, shows the
    placeholder; a payload that is not a sequence is written into the
    summary record directly. *)
Theorem remote_summary_lookup :
  (forall (pre post : list jsval) (item fieldName value f : jsval),
     (forall x, In x pre ->
        exists fx, get_prop x (to_string fieldName) = Ok fx
                   /\ truthy fx && loose_eq fx value = false) ->
     get_prop item (to_string fieldName) = Ok f ->
     truthy f = true ->
     loose_eq f value = true ->
     GroupBody.getSummaryRcd (VArr (pre ++ item :: post)) fieldName value
     = Ok item)
  /\ (forall (items : list jsval) (fieldName value : jsval),
        (forall x, In x items ->
           exists fx, get_prop x (to_string fieldName) = Ok fx
                      /\ truthy fx && loose_eq fx value = false) ->
        GroupBody.getSummaryRcd (VArr items) fieldName value = Ok VUndef)
  /\ (forall (me : GroupBody.config) (f : feature) (groupName : jsval)
         (col : column) (colIndex : Z) (items : list jsval),
        GroupBody.summaryFeature me = Some f ->
        truthy (remoteRoot f) = true ->
        summaryRecord f = None ->
        get_prop (st_rawData (g_store (GroupBody.cfg_grid me)))
          (to_string (remoteRoot f)) = Ok (VArr items) ->
        GroupBody.getSummaryRcd (VArr items)
          (st_groupField (g_store (GroupBody.cfg_grid me))) groupName
        = Ok VUndef ->
        summaryRenderer col = None ->
        GroupBody.renderSummary me groupName col colIndex
        = Ok "<td><div>&nbsp;</div></td>")
  /\ (forall (me : GroupBody.config) (f : feature) (groupName root : jsval),
        truthy (st_rawData (g_store (GroupBody.cfg_grid me))) = true ->
        get_prop (st_rawData (g_store (GroupBody.cfg_grid me)))
          (to_string (remoteRoot f)) = Ok root ->
        isArray root = false ->
        GroupBody.remoteSummaryRecord me f groupName
        = Ok (set_values
                match summaryRecord f with
                | Some r => r
                | None =>
                    new_model
                      (view_id (g_view (GroupBody.cfg_grid me))
                       ++ "-summary-record")
                end root)).
Proof.
  repeat split.
  - intros pre post item fieldName value f Hpre Hf Ht Hl. simpl.
    eapply scanSummaryRcd_first; eauto.
  - intros items fieldName value H. simpl.
    apply scanSummaryRcd_none, H.
  - intros me f groupName col colIndex items Hf Hroot Hrec Hraw Hnone Hr.
    assert (Ht : truthy (st_rawData (g_store (GroupBody.cfg_grid me)))
                 = true).
    { destruct (st_rawData (g_store (GroupBody.cfg_grid me))) as
        [| | b | n | s | l | o]; simpl in Hraw; try discriminate;
        try reflexivity.
      destruct s as [|c s]; [|reflexivity]. exfalso.
      destruct (String.eqb (to_string (remoteRoot f)) "length");
        [discriminate|].
      destruct (array_index (to_string (remoteRoot f))) as [i|];
        [destruct i|]; discriminate. }
    unfold GroupBody.renderSummary, GroupBody.summaryValue. cbv zeta.
    rewrite Hf, Hroot. unfold GroupBody.remoteSummaryRecord. cbv zeta.
    rewrite Hrec, Ht, Hraw. simpl isArray. cbv iota.
    unfold bind at 4. rewrite Hnone. simpl. rewrite Hr. reflexivity.
  - intros me f groupName root Ht Hraw Harr.
    unfold GroupBody.remoteSummaryRecord. cbv zeta.
    rewrite Ht, Hraw. simpl. rewrite Harr. reflexivity.
Qed.

Lemma remote_summary_lookup_witness :
  GroupBody.getSummaryRcd (VArr [Sample.engEntry]) (VStr "dept") (VStr "eng")
  = Ok Sample.engEntry
  /\ GroupBody.renderSummary Sample.configD (VStr "eng")
       Sample.totalColumn 2
     = Ok "<td><div>5</div></td>"
  /\ GroupBody.getSummaryRcd (VArr [Sample.engEntry]) (VStr "dept")
       (VStr "sales") = Ok VUndef
  /\ GroupBody.renderSummary Sample.configD (VStr "sales")
       Sample.totalColumn 2
     = Ok "<td><div>&nbsp;</div></td>"
  /\ GroupBody.remoteSummaryRecord Sample.configSingle
       (Sample.groupingsummary (VStr "summaryData")) (VStr "eng")
     = Ok {| internalId := "gridview-1-summary-record";
             data := [("total", VNum 9)] |}.
Proof.
  destruct remote_summary_lookup as (Hfirst & Hnone & Hcell & Hsingle).
  assert (Hmiss :
    GroupBody.getSummaryRcd (VArr [Sample.engEntry]) (VStr "dept")
      (VStr "sales") = Ok VUndef).
  { apply Hnone. intros x [<- | []]. exists (VStr "eng").
    split; reflexivity. }
  split.
  - apply (Hfirst [] [] Sample.engEntry (VStr "dept") (VStr "eng")
             (VStr "eng")).
    + intros x [].
    + reflexivity.
    + reflexivity.
    + reflexivity.
  - split; [reflexivity|]. split; [exact Hmiss|]. split.
    + apply (Hcell Sample.configD
               (Sample.groupingsummary (VStr "summaryData")) (VStr "sales")
               Sample.totalColumn 2%Z [Sample.engEntry]);
        reflexivity.
    + rewrite (Hsingle Sample.configSingle
                 (Sample.groupingsummary (VStr "summaryData")) (VStr "eng")
                 (VObj [("total", VNum 9)]) eq_refl eq_refl eq_refl).
      reflexivity.
Defined.

(** ** [generateBody] *)

Lemma generateBody_flat (g : grid) (columns : list column)
  (groupFeature : option feature) :
  generateBody g columns groupFeature
  = (f <- getFeature g "groupingsummary" ;; Ok (VStr flatBodyTpl)).
Proof.
  unfold generateBody. cbv zeta.
  destruct (getFeature g "groupingsummary") as [f|e]; [|reflexivity].
  cbn [bind length Z.of_nat truthy Z.eqb negb].
  rewrite orb_false_r, orb_true_r. reflexivity.
Qed.

Lemma getFeature_ok (g : grid) (featureFType : string)
  (fs : option (list feature)) :
  view_features (g_view g) = Ok fs ->
  exists f, getFeature g featureFType = Ok f.
Proof.
  intros H. unfold getFeature. rewrite H. simpl. eauto.
Qed.

(** C10: for every grid, column list and grouping feature, [generateBody]
    looks the grouping-summary feature up and returns the flat body
    template; the grouped branch is never taken, because [groups] is still
    the empty array when the guard tests its length. *)
Theorem C10_generateBody_flat (g : grid) (columns : list column)
  (groupFeature : option feature) :
  generateBody g columns groupFeature
  = (f <- getFeature g "groupingsummary" ;; Ok (VStr flatBodyTpl))
  /\ (forall fs : option (list feature),
        view_features (g_view g) = Ok fs ->
        generateBody g columns groupFeature = Ok (VStr flatBodyTpl))
  /\ (forall body : jsval,
        generateBody g columns groupFeature = Ok body ->
        body = VStr flatBodyTpl).
Proof.
  split; [apply generateBody_flat|]. split.
  - intros fs H. rewrite generateBody_flat.
    destruct (getFeature_ok g "groupingsummary" fs H) as [f ->].
    reflexivity.
  - intros body. rewrite generateBody_flat.
    destruct (getFeature g "groupingsummary"); simpl; congruence.
Qed.

Lemma C10_generateBody_flat_witness :
  view_features (g_view Sample.scenarioB) = Ok (Some [Sample.grouping])
  /\ st_isGrouped (g_store Sample.scenarioB) = true
  /\ generateBody Sample.scenarioB [Sample.nameColumn; Sample.ageColumn]
       (Some Sample.grouping) = Ok (VStr flatBodyTpl)
  /\ VStr flatBodyTpl = VStr flatBodyTpl.
Proof.
  destruct (C10_generateBody_flat Sample.scenarioB
              [Sample.nameColumn; Sample.ageColumn] (Some Sample.grouping))
    as (_ & H & Hbody).
  pose proof (H (Some [Sample.grouping]) eq_refl) as E.
  split; [reflexivity|]. split; [reflexivity|]. split; [exact E|].
  exact (Hbody (VStr flatBodyTpl) E).
Defined.

(** ** The rendered document *)

(** C2 (the code at the scenario): for the grid of scenario B, two columns
    and three records grouped by [dept] into groups of two and one,
    [print] renders one header row, no group-header row and a single body
    row of class odd; the grouped body template, applied to the same
    groups, gives two group-header rows and body rows of classes odd,
    even, odd. *)
Theorem C2_scenarioB_rows :
  exists rows : list row,
    printRows Sample.printer Sample.scenarioB = Ok rows
    /\ length (filter is_header rows) = 1%nat
    /\ length (filter is_group_header rows) = 0%nat
    /\ body_classes rows = ["odd"]
    /\ exists grouped : list row,
         GroupBody.apply Sample.configB
           (st_groups (g_store Sample.scenarioB)) = Ok grouped
         /\ length (filter is_group_header grouped) = 2%nat
         /\ body_classes grouped = ["odd"; "even"; "odd"].
Proof.
  eexists. split; [vm_compute; reflexivity|].
  repeat split. eexists. split; [vm_compute; reflexivity|].
  split; reflexivity.
Qed.

Lemma applyBody_flat_ok (me : Markup.config) (values : model) :
  exists inner, applyBody me (VStr flatBodyTpl) values = Ok inner.
Proof.
  unfold applyBody. rewrite String.eqb_refl.
  destruct (mapi_from_ok
              (fun col xindex =>
                 Ok (Markup.renderColumn me col
                       (get values (dataIndex col)) values xindex))
              (Markup.columns me)
              (fun col xindex => ex_intro _ _ eq_refl) 1%Z) as [cells ->].
  simpl. eauto.
Qed.

Lemma applyRecords_flat_ok (me : Markup.config) (records : list model) :
  forall xindex : Z,
  exists rows, applyRecords me (VStr flatBodyTpl) xindex records = Ok rows.
Proof.
  induction records as [|values rest IH]; intros xindex.
  - simpl. eauto.
  - cbn [applyRecords].
    destruct (applyBody_flat_ok me values) as [inner ->]. cbn [bind].
    unfold Markup.applyTpl.
    destruct (Markup.expanderTemplate me) as [t|]; cbn [is_some bind].
    + destruct (is_some (Markup.isGrouped me) && (0 <? xindex)%Z);
        [eauto|].
      destruct (IH (xindex + 1)%Z) as [more ->]. cbn [bind]. eauto.
    + destruct (is_some (Markup.isGrouped me) && (0 <? xindex)%Z);
        [eauto|].
      destruct (IH (xindex + 1)%Z) as [more ->]. cbn [bind]. eauto.
Qed.

Lemma tableRows_ok (t : template) (records : list model) :
  tpl_body t = VStr flatBodyTpl ->
  Markup.hasSummary (tpl_config t)
  = is_some (Markup.summaryFeature (tpl_config t)) ->
  exists rows, tableRows t records = Ok rows.
Proof.
  intros Hb Hs. unfold tableRows. cbv zeta. rewrite Hb.
  destruct (applyRecords_flat_ok (tpl_config t) records 1%Z) as [body ->].
  cbn [bind]. rewrite Hs.
  destruct (Markup.summaryFeature (tpl_config t)) as [f|] eqn:Hf;
    cbn [is_some bind]; [|eauto].
  destruct (mapi_from_ok (Markup.renderSummary (tpl_config t))
              (Markup.columns (tpl_config t))
              (fun col i => renderSummary_ok (tpl_config t) f col i Hf) 1%Z)
    as [cells ->].
  cbn [bind]. eauto.
Qed.

Lemma printTemplate_ok (p : printer) (g : grid)
  (fs : option (list feature)) :
  view_features (g_view g) = Ok fs ->
  exists t,
    printTemplate p g = Ok t
    /\ tpl_body t = VStr flatBodyTpl
    /\ Markup.hasSummary (tpl_config t)
       = is_some (Markup.summaryFeature (tpl_config t))
    /\ tpl_head t
       = pageHead p (if truthy (g_title g) then to_string (g_title g)
                     else pageTitle p).
Proof.
  intros Hv.
  assert (Hgr : exists x, print_grouping g = Ok x).
  { unfold print_grouping. destruct (st_isGrouped (g_store g)); [|eauto].
    destruct (getFeature_ok g "grouping" fs Hv) as [[f|] ->]; simpl; eauto. }
  destruct Hgr as [[[isGrouped feature] groupField] Hgr].
  unfold printTemplate. rewrite Hgr. cbn [bind fst snd].
  unfold getHtmlMarkup.
  assert (Hgf : exists x,
             (if is_some feature then getFeature g "grouping" else Ok None)
             = Ok x).
  { destruct (is_some feature); [|eauto].
    apply (getFeature_ok g "grouping" fs Hv). }
  destruct Hgf as [groupFeature ->]. cbn [bind].
  rewrite generateBody_flat.
  destruct (getFeature_ok g "groupingsummary" fs Hv) as [gs ->].
  destruct (getFeature_ok g "summary" fs Hv) as [sf ->].
  cbn [bind]. eexists. split; [reflexivity|]. repeat split.
Qed.


(** For every printer configuration and every grid whose view exposes a
    feature list, whatever its columns, records, features and plug-ins,
    [print] renders a complete document: the page head, the table rows and
    the closing tags; a missing record field and a missing aggregate show
    the placeholder. *)
Theorem render_complete (p : printer) (g : grid)
  (fs : option (list feature)) :
  view_features (g_view g) = Ok fs ->
  (exists rows : list row,
     printRows p g = Ok rows
     /\ printHtml p g
        = Ok (pageHead p (if truthy (g_title g) then to_string (g_title g)
                          else pageTitle p)
              ++ rows_markup rows ++ pageFoot))
  /\ (forall (me : Markup.config) (col : column) (rcd : model) (c : Z),
        get rcd (dataIndex col) = VUndef ->
        col_renderer col = None ->
        loose_eq (xtype col) (VStr "templatecolumn") = false ->
        Markup.renderColumn me col (get rcd (dataIndex col)) rcd c
        = Markup.cellOpen (Markup.cellMeta me col VUndef rcd c)
          ++ ">" ++ "&nbsp;" ++ "</div></td>")
  /\ (forall (me : Markup.config) (f : feature) (col : column) (c : Z),
        Markup.summaryFeature me = Some f ->
        truthy (remoteRoot f) = false ->
        summaryType col = STValue VUndef ->
        summaryRenderer col = None ->
        exists m : meta,
          Markup.renderSummary me col c
          = Ok (Markup.cellOpen m ++ ">" ++ "&nbsp;" ++ "</div></td>")).
Proof.
  intros Hv. split; [|split].
  - destruct (printTemplate_ok p g fs Hv) as (t & Ht & Hb & Hs & Hh).
    destruct (tableRows_ok t (st_records (g_store g)) Hb Hs) as [rows Hr].
    exists rows. unfold printRows, printHtml, applyTemplate.
    rewrite Ht. cbn [bind]. rewrite Hr. cbn [bind]. rewrite Hh.
    split; reflexivity.
  - intros me col rcd c Hg Hr Hx. rewrite Hg.
    unfold Markup.renderColumn, Markup.renderedValue. cbv zeta.
    rewrite Hx, Hr. reflexivity.
  - intros me f col c Hf Hroot Ht Hr.
    unfold Markup.renderSummary, Markup.summaryValue.
    rewrite Hf, Hroot, Ht, Hr. simpl. eexists. reflexivity.
Qed.

Lemma render_complete_witness :
  view_features (g_view Sample.scenarioB) = Ok (Some [Sample.grouping])
  /\ (exists rows : list row,
        printRows Sample.printer Sample.scenarioB = Ok rows
        /\ printHtml Sample.printer Sample.scenarioB
           = Ok (pageHead Sample.printer "Print View"
                 ++ rows_markup rows ++ pageFoot))
  /\ get Sample.alice (dataIndex Sample.hiddenColumn) = VUndef
  /\ Markup.renderColumn Sample.configSummary Sample.hiddenColumn
       (get Sample.alice (dataIndex Sample.hiddenColumn)) Sample.alice 2
     = "<td ><div  style=" ++ dq ++ "text-align: left;" ++ dq
       ++ " unselectable=" ++ dq ++ "on" ++ dq ++ ">&nbsp;</div></td>"
  /\ summaryType Sample.nameColumn = STValue VUndef
  /\ exists m : meta,
       Markup.renderSummary Sample.configSummary Sample.nameColumn 1
       = Ok (Markup.cellOpen m ++ ">" ++ "&nbsp;" ++ "</div></td>").
Proof.
  destruct (render_complete Sample.printer Sample.scenarioB
              (Some [Sample.grouping]) eq_refl) as (H & Hcell & Hsum).
  split; [reflexivity|]. split; [exact H|]. split; [reflexivity|].
  split.
  - rewrite (Hcell Sample.configSummary Sample.hiddenColumn Sample.alice
               2%Z eq_refl eq_refl eq_refl).
    reflexivity.
  - split; [reflexivity|].
    exact (Hsum Sample.configSummary (Sample.summary VUndef)
             Sample.nameColumn 1%Z eq_refl eq_refl eq_refl eq_refl).
Defined.

(** ** Further checks of the embedding *)

(** Scenario A: three flat records give one header row and three body
    rows of classes odd, even, odd. *)
Example scenarioA_rows :
  exists rows : list row,
    printRows Sample.printer Sample.scenarioA = Ok rows
    /\ length (filter is_header rows) = 1%nat
    /\ body_classes rows = ["odd"; "even"; "odd"].
Proof.
  eexists. split; [vm_compute; reflexivity|]. split; reflexivity.
Qed.

(** Strings and numbers: [==] compares a string with a number by the
    double its literal denotes (a decimal literal with fraction and
    exponent, a literal in radix 16, 8 or 2, white space around it), and
    a number is printed with the shortest digits that denote it, in
    exponent form from 10^21 on. *)
Example numeric_strings :
  loose_eq (VStr "0.0") (VNum 0) = true
  /\ loose_eq (VStr "1.0") (VNum 1) = true
  /\ loose_eq (VStr "1e3") (VNum 1000) = true
  /\ loose_eq (VStr " 12 ") (VNum 12) = true
  /\ loose_eq (VStr "0x10") (VNum 16) = true
  /\ loose_eq (VStr ".5e1") (VNum 5) = true
  /\ loose_eq (VStr "-0") (VNum 0) = true
  /\ loose_eq (VStr EmptyString) (VNum 0) = true
  /\ loose_eq (VBool false) (VStr "0.0") = true
  /\ loose_eq (VArr [VStr "1.0"]) (VNum 1) = true
  /\ loose_eq (VStr "9007199254740993") (VNum 9007199254740992) = true
  /\ loose_eq (VStr "1.5") (VNum 1) = false
  /\ loose_eq (VStr "12px") (VNum 12) = false
  /\ loose_eq (VStr "Infinity") (VNum 0) = false
  /\ loose_eq (VStr ".") (VNum 0) = false
  /\ loose_eq VNull (VNum 0) = false
  /\ string_to_number "1e400" = Infinite false
  /\ string_to_number "-1.5" = Fraction true
  /\ string_to_number "abc" = NaN
  /\ to_string (VNum (-42)) = "-42"
  /\ to_string (VNum (2 ^ 53)) = "9007199254740992"
  /\ to_string (VNum (2 ^ 68)) = "295147905179352830000"
  /\ to_string (VNum (10 ^ 21)) = "1e+21"
  /\ to_string (VNum (2 ^ 70)) = "1.1805916207174113e+21"
  /\ GroupBody.getSummaryRcd (VArr [Sample.engEntry; Sample.decimalKeyEntry])
       (VStr "dept") (VNum 1) = Ok Sample.decimalKeyEntry.
Proof.
  vm_compute. repeat split.
Qed.

(** The grouped template's [getSummaryRecord42] calls [Ext.isDefomed] for
    its first column and throws; [generateBody] never builds that
    template. *)
Lemma grouped_getSummaryRecord42_throws (me : GroupBody.config)
  (groupName : jsval) :
  GroupBody.columns me <> [] ->
  exists e, GroupBody.getSummaryRecord42 me groupName = Throw e.
Proof.
  unfold GroupBody.getSummaryRecord42.
  destruct (GroupBody.columns me) as [|col rest]; [congruence|].
  intros _. simpl. eauto.
Qed.

Lemma body_classes_app (a b : list row) :
  body_classes (a ++ b) = (body_classes a ++ body_classes b)%list.
Proof.
  induction a as [|r a IH]; simpl; [reflexivity|].
  destruct r; simpl; rewrite IH; reflexivity.
Qed.

(** With [isGrouped] set, the record loop of the outer template stops
    after its first pass: at most one body row, and no group header. *)
Lemma applyRecords_grouped (me : Markup.config) (body : jsval)
  (xindex : Z) (records : list model) (rows : list row) :
  is_some (Markup.isGrouped me) = true ->
  (0 < xindex)%Z ->
  applyRecords me body xindex records = Ok rows ->
  filter is_group_header rows = []
  /\ (length (body_classes rows) <= 1)%nat.
Proof.
  intros Hg Hx H. destruct records as [|values rest]; simpl in H.
  - inversion H. simpl. auto.
  - destruct (applyBody me body values) as [inner|e]; simpl in H;
      [|discriminate].
    rewrite Hg in H. apply Z.ltb_lt in Hx. rewrite Hx in H. simpl in H.
    destruct (is_some (Markup.expanderTemplate me)); simpl in H.
    + destruct (Markup.applyTpl me values) as [d|e]; simpl in H;
        [|discriminate].
      inversion H. simpl. auto.
    + inversion H. simpl. auto.
Qed.

(** X10: whenever the store is grouped and the grid has a grouping
    feature, [print] renders no group-header row and at most one body
    row. *)
Lemma grouped_print_rows (p : printer) (g : grid) (f : feature)
  (rows : list row) :
  st_isGrouped (g_store g) = true ->
  getFeature g "grouping" = Ok (Some f) ->
  printRows p g = Ok rows ->
  filter is_group_header rows = []
  /\ (length (body_classes rows) <= 1)%nat.
Proof.
  intros Hs Hf H. unfold printRows, printTemplate, print_grouping in H.
  rewrite Hs, Hf in H. cbn [bind fst snd] in H.
  unfold getHtmlMarkup in H. cbn [is_some] in H. rewrite Hf in H.
  cbn [bind] in H. rewrite generateBody_flat in H.
  destruct (getFeature g "groupingsummary") as [gs|e]; cbn [bind] in H;
    [|discriminate].
  destruct (getFeature g "summary") as [sf|e]; cbn [bind] in H;
    [|discriminate].
  unfold tableRows in H. cbv zeta in H.
  cbn [tpl_config tpl_body tpl_headings] in H.
  match type of H with
  | context [applyRecords ?me ?b 1%Z ?recs] =>
      destruct (applyRecords me b 1%Z recs) as [body|e] eqn:E;
        cbn [bind] in H; [|discriminate];
        destruct (applyRecords_grouped me b 1%Z recs body eq_refl
                    ltac:(lia) E) as [Hgh Hbc]
  end.
  match type of H with
  | context [if ?c then _ else _] => destruct c
  end.
  - match type of H with
    | context [mapi_from ?fn ?i ?l] =>
        destruct (mapi_from fn i l) as [cells|e]; cbn [bind] in H;
          [|discriminate]
    end.
    inversion H. simpl. rewrite filter_app, body_classes_app, Hgh.
    simpl. rewrite app_nil_r. auto.
  - cbn [bind] in H. inversion H. simpl.
    rewrite filter_app, body_classes_app, Hgh. simpl.
    rewrite app_nil_r. auto.
Qed.

(* ================================================================= *)
(** * Further properties of the source *)

(** ** More on the column clean-up *)

Lemma cleanColumn_again (isGrouped : bool) (groupField : jsval)
  (c c' : column) :
  cleanColumn isGrouped groupField c = Some c' ->
  cleanColumn isGrouped groupField c' = Some c'.
Proof.
  intros H. destruct (cleanColumn_origin _ _ _ _ H) as [-> | [-> Hrn]];
    [exact H|].
  unfold cleanColumn in *. simpl.
  destruct (negb (isEmpty (dataIndex c)) && negb (hidden c) && negb isGrouped).
  - inversion H as [E]. rewrite <- E at 1. reflexivity.
  - rewrite Hrn. reflexivity.
Qed.

(** X1: cleaning the columns a second time changes nothing. *)
Theorem clearColumns_idempotent (isGrouped : bool) (groupField : jsval)
  (cols : list (option column)) :
  clearColumns isGrouped groupField
    (map Some (clearColumns isGrouped groupField cols))
  = clearColumns isGrouped groupField cols.
Proof.
  induction cols as [|[c|] rest IH]; simpl; auto.
  destruct (cleanColumn isGrouped groupField c) as [c'|] eqn:E; auto.
  simpl. rewrite (cleanColumn_again _ _ _ _ E), IH. reflexivity.
Qed.

(** X2: a row-numbering or template column of the input is always kept,
    hidden or not, grouped or not; a row-numbering column whose label is
    falsy and which is hidden, without [dataIndex], or printed grouped,
    is kept with the label "Row". *)
Theorem rownumberer_template_kept (isGrouped : bool) (groupField : jsval)
  (cols : list (option column)) (c : column) :
  In (Some c) cols ->
  (strict_eq (xtype c) (VStr "rownumberer") = true
   \/ strict_eq (xtype c) (VStr "templatecolumn") = true ->
   In c (clearColumns isGrouped groupField cols)
   \/ In (with_text c (VStr "Row")) (clearColumns isGrouped groupField cols))
  /\ (strict_eq (xtype c) (VStr "rownumberer") = true ->
      truthy (text c) = false ->
      hidden c = true \/ isEmpty (dataIndex c) = true \/ isGrouped = true ->
      In (with_text c (VStr "Row"))
        (clearColumns isGrouped groupField cols)).
Proof.
  intros Hin. split.
  - intros Hx.
    assert (exists c', cleanColumn isGrouped groupField c = Some c') as [c' E].
    { unfold cleanColumn.
      destruct (negb (isEmpty (dataIndex c)) && negb (hidden c)
                && negb isGrouped); [eauto|].
      destruct (strict_eq (xtype c) (VStr "rownumberer")); [eauto|].
      destruct Hx as [Hx | Hx]; [discriminate|]. rewrite Hx. eauto. }
    destruct (cleanColumn_origin _ _ _ _ E) as [-> | [-> _]];
      [left | right]; apply clearColumns_in; eauto.
  - intros Hrn Ht Hside. apply clearColumns_in. exists c.
    split; [exact Hin|]. unfold cleanColumn.
    replace (negb (isEmpty (dataIndex c)) && negb (hidden c)
             && negb isGrouped) with false.
    + rewrite Hrn, Ht. reflexivity.
    + destruct Hside as [-> | [-> | ->]]; simpl;
        rewrite ?andb_false_r; reflexivity.
Qed.

(** ** [getFeature] *)

Lemma find_first {A : Type} (f : A -> bool) (l : list A) (x : A) :
  find f l = Some x ->
  exists pre post,
    l = (pre ++ x :: post)%list
    /\ f x = true
    /\ forall y, In y pre -> f y = false.
Proof.
  induction l as [|a l IH]; simpl; [discriminate|].
  destruct (f a) eqn:Fa.
  - intros [= <-]. exists [], l. simpl. repeat split; auto.
    intros y [].
  - intros H. destruct (IH H) as (pre & post & -> & Hx & Hpre).
    exists (a :: pre), post. simpl. repeat split; auto.
    intros y [<- | Hy]; auto.
Qed.

(** X3: when the view has a feature list, [getFeature] returns its first
    feature of the requested kind, and [undefined] exactly when the list
    has none. *)
Theorem getFeature_first (g : grid) (featureFType : string)
  (l : list feature) :
  view_features (g_view g) = Ok (Some l) ->
  (forall f : feature,
     getFeature g featureFType = Ok (Some f) ->
     exists pre post,
       l = (pre ++ f :: post)%list
       /\ feature_matches featureFType f = true
       /\ forall x, In x pre -> feature_matches featureFType x = false)
  /\ (getFeature g featureFType = Ok None <->
      forall x, In x l -> feature_matches featureFType x = false).
Proof.
  intros Hv. unfold getFeature. rewrite Hv. simpl. split.
  - intros f [= H]. apply find_first, H.
  - split.
    + intros [= H] x Hx. eapply find_none; eauto.
    + intros H. destruct (find (feature_matches featureFType) l) as [f|] eqn:E;
        [|reflexivity].
      apply find_some in E. destruct E as [Hin Hm].
      rewrite (H f Hin) in Hm. discriminate.
Qed.

Lemma feature_matches_kinds (featureFType : string) (f : feature) :
  feature_matches featureFType f = true ->
  (featureFType = "grouping"
   /\ (ftype f = "grouping" \/ ftype f = "groupingsummary"))
  \/ (featureFType = "groupingsummary" /\ ftype f = "groupingsummary")
  \/ (featureFType = "summary" /\ ftype f = "summary").
Proof.
  unfold feature_matches. intros H.
  apply orb_true_iff in H. destruct H as [H | H].
  - apply orb_true_iff in H. destruct H as [H | H].
    + apply andb_true_iff in H. destruct H as [H1 H2].
      apply String.eqb_eq in H1. apply orb_true_iff in H2.
      left. split; [exact H1|].
      destruct H2 as [H2 | H2]; apply String.eqb_eq in H2; auto.
    + apply andb_true_iff in H. destruct H as [H1 H2].
      apply String.eqb_eq in H1, H2. right. left. auto.
  - apply andb_true_iff in H. destruct H as [H1 H2].
    apply String.eqb_eq in H1, H2. right. right. auto.
Qed.

(** X4: a feature found for 'grouping' is a grouping or a grouping-summary
    feature, one found for 'groupingsummary' or 'summary' has exactly that
    type; whenever 'groupingsummary' finds a feature, 'grouping' finds one
    too; any other requested kind finds nothing. *)
Theorem getFeature_kinds (g : grid) :
  (forall (featureFType : string) (f : feature),
     getFeature g featureFType = Ok (Some f) ->
     (featureFType = "grouping"
      /\ (ftype f = "grouping" \/ ftype f = "groupingsummary"))
     \/ (featureFType = "groupingsummary" /\ ftype f = "groupingsummary")
     \/ (featureFType = "summary" /\ ftype f = "summary"))
  /\ (forall f : feature,
        getFeature g "groupingsummary" = Ok (Some f) ->
        exists f', getFeature g "grouping" = Ok (Some f'))
  /\ (forall (featureFType : string) (fs : option (list feature)),
        view_features (g_view g) = Ok fs ->
        featureFType <> "grouping" ->
        featureFType <> "groupingsummary" ->
        featureFType <> "summary" ->
        getFeature g featureFType = Ok None).
Proof.
  split; [|split].
  - intros t f H. unfold getFeature in H.
    destruct (view_features (g_view g)) as [[l|]|e]; simpl in H;
      try discriminate.
    injection H as H. apply find_some in H.
    apply feature_matches_kinds, H.
  - intros f H. unfold getFeature in *.
    destruct (view_features (g_view g)) as [[l|]|e]; simpl in *;
      try discriminate.
    injection H as H. apply find_some in H. destruct H as [Hin Hm].
    destruct (find (feature_matches "grouping") l) as [f'|] eqn:E;
      [eauto|].
    pose proof (find_none _ _ E f Hin) as Hn.
    destruct (feature_matches_kinds _ _ Hm) as [[H _] | [[_ H] | [H _]]];
      try discriminate.
    unfold feature_matches in Hn. rewrite H in Hn. simpl in Hn.
    discriminate.
  - intros t fs Hv H1 H2 H3. unfold getFeature. rewrite Hv. simpl.
    destruct fs as [l|]; [|reflexivity].
    destruct (find (feature_matches t) l) as [f|] eqn:E; [|reflexivity].
    apply find_some in E. destruct E as [_ Hm].
    destruct (feature_matches_kinds _ _ Hm) as [[H _] | [[H _] | [H _]]];
      congruence.
Qed.

(** X5: the feature list is taken from [view.features], else from
    [view.featuresMC], else from [view.normalView]; [getFeature] throws,
    whatever the requested kind, exactly when the view has none of the
    three. *)
Theorem getFeature_throws (g : grid) (featureFType : string) :
  ((exists e, getFeature g featureFType = Throw e) <->
   features (g_view g) = None
   /\ featuresMC (g_view g) = None
   /\ normalView (g_view g) = None)
  /\ (forall l, features (g_view g) = Some l ->
        getFeature g featureFType
        = Ok (find (feature_matches featureFType) l))
  /\ (forall l, features (g_view g) = None ->
        featuresMC (g_view g) = Some l ->
        getFeature g featureFType
        = Ok (find (feature_matches featureFType) l)).
Proof.
  unfold getFeature, view_features. split; [|split].
  - destruct (features (g_view g)); simpl.
    + split; [intros [e H]; discriminate | intros [H _]; discriminate].
    + destruct (featuresMC (g_view g)); simpl.
      * split; [intros [e H]; discriminate | intros (_ & H & _); discriminate].
      * destruct (normalView (g_view g)); simpl.
        -- split; [intros [e H]; discriminate
                  | intros (_ & _ & H); discriminate].
        -- split; eauto.
  - intros l ->. reflexivity.
  - intros l -> ->. reflexivity.
Qed.

(** ** The stylesheet path *)

Lemma substring_at_split (p : string) :
  forall (m : nat) (s : string),
    substring m (String.length p) s = p ->
    exists post, s = substring 0 m s ++ p ++ post.
Proof.
  assert (P : forall (p s : string),
             substring 0 (String.length p) s = p ->
             exists post, s = p ++ post).
  { clear p. induction p as [|a p IH]; intros s H.
    - exists s. reflexivity.
    - destruct s as [|b s]; simpl in H; [discriminate|].
      injection H as -> H. destruct (IH s H) as [post ->].
      exists post. reflexivity. }
  induction m as [|m IH]; intros s H.
  - destruct (P p s H) as [post ->]. exists post.
    destruct (p ++ post); reflexivity.
  - destruct s as [|c s].
    + simpl in H. subst p. exists EmptyString. reflexivity.
    + simpl in H. destruct (IH s H) as [post E]. exists post.
      simpl. rewrite <- E. reflexivity.
Qed.

Lemma substring_0_min (s : string) :
  forall n : nat,
    substring 0 (Nat.min n (String.length s)) s = substring 0 n s.
Proof.
  induction s as [|c s IH]; intros [|n]; simpl; try reflexivity.
  rewrite IH. reflexivity.
Qed.

Lemma substring_0_app (pre rest : string) :
  substring 0 (String.length pre) (pre ++ rest) = pre.
Proof.
  induction pre as [|c pre IH]; simpl.
  - destruct rest; reflexivity.
  - rewrite IH. reflexivity.
Qed.

Lemma substring_app_at (pre p post : string) :
  substring (String.length pre) (String.length p) (pre ++ p ++ post) = p.
Proof.
  induction pre as [|c pre IH]; simpl; [|exact IH].
  apply substring_0_app.
Qed.

Lemma js_substring_prefix (s : string) (i : nat) :
  js_substring s 0 (Z.of_nat i) = substring 0 i s.
Proof.
  unfold js_substring. cbv zeta.
  rewrite <- (substring_0_min s i).
  replace (Z.to_nat
             (Z.min (Z.max 0 (Z.min 0 (Z.of_nat (String.length s))))
                (Z.max 0 (Z.min (Z.of_nat i) (Z.of_nat (String.length s))))))
    with 0%nat by lia.
  f_equal. lia.
Qed.

(** X6: a configured stylesheet path is kept; otherwise the path is the
    script path up to the first occurrence of "Printer.js" followed by
    "gridPrinterCss/print.css", and just that relative name when the
    script path does not contain "Printer.js". *)
Theorem resolveStylesheetPath_cases (scriptPath : string) :
  (forall path : string,
     resolveStylesheetPath (Some path) scriptPath = path)
  /\ ((forall m : nat, substring m 10 scriptPath <> "Printer.js") ->
      resolveStylesheetPath None scriptPath = "gridPrinterCss/print.css")
  /\ (forall pre post : string,
        scriptPath = pre ++ "Printer.js" ++ post ->
        (forall m : nat,
           (m < String.length pre)%nat ->
           substring m 10 scriptPath <> "Printer.js") ->
        resolveStylesheetPath None scriptPath
        = pre ++ "gridPrinterCss/print.css").
Proof.
  split; [reflexivity|]. split.
  - intros Hno. unfold resolveStylesheetPath, js_indexOf.
    destruct (String.index 0 "Printer.js" scriptPath) as [i|] eqn:E.
    + apply index_correct1 in E. elim (Hno i). exact E.
    + unfold js_substring. cbv zeta.
      replace (Z.to_nat _) with 0%nat by lia.
      replace (Z.to_nat _) with 0%nat by lia.
      destruct scriptPath; reflexivity.
  - intros pre post Hs Hfirst. unfold resolveStylesheetPath, js_indexOf.
    assert (Hat : substring (String.length pre) 10 scriptPath = "Printer.js").
    { rewrite Hs. apply (substring_app_at pre "Printer.js" post). }
    destruct (String.index 0 "Printer.js" scriptPath) as [i|] eqn:E.
    + assert (i = String.length pre) as ->.
      { destruct (Nat.lt_trichotomy i (String.length pre)) as [H | [H | H]].
        - apply index_correct1 in E. elim (Hfirst i H). exact E.
        - exact H.
        - elim (index_correct2 _ _ _ _ E (String.length pre));
            [lia | exact H | exact Hat]. }
      rewrite js_substring_prefix, Hs, substring_0_app. reflexivity.
    + elim (index_correct3 0 (String.length pre) _ _ E);
        [discriminate | lia | exact Hat].
Qed.

(** ** The rows of a printed grid *)

Lemma parity_position (k : nat) :
  parity (1 + Z.of_nat k) = if Nat.even k then "odd" else "even".
Proof.
  unfold parity. destruct (Nat.even k) eqn:E.
  - apply Nat.even_spec in E. destruct E as [j ->].
    replace (1 + Z.of_nat (2 * j))%Z with (1 + Z.of_nat j * 2)%Z by lia.
    rewrite Z.mod_add by lia. reflexivity.
  - assert (O : Nat.odd k = true)
      by (rewrite <- Nat.negb_even, E; reflexivity).
    apply Nat.odd_spec in O. destruct O as [j ->].
    replace (1 + Z.of_nat (2 * j + 1))%Z with (0 + (Z.of_nat j + 1) * 2)%Z
      by lia.
    rewrite Z.mod_add by lia. reflexivity.
Qed.

Lemma indexed_length {A B : Type} (f : Z -> A -> B) (l : list A) :
  forall x : Z, length (indexed f x l) = length l.
Proof.
  induction l as [|a l IH]; intros x; simpl; [reflexivity|].
  rewrite IH. reflexivity.
Qed.

Lemma indexed_nth {A B : Type} (f : Z -> A -> B) (dB : B) (dA : A)
  (l : list A) :
  forall (x : Z) (k : nat),
    (k < length l)%nat ->
    nth k (indexed f x l) dB = f (x + Z.of_nat k)%Z (nth k l dA).
Proof.
  induction l as [|a l IH]; intros x k Hk; simpl in Hk; [lia|].
  destruct k as [|k]; simpl.
  - f_equal. lia.
  - rewrite IH by lia. f_equal. lia.
Qed.


(** Without grouping the record loop runs to the end: one body row per
    record, and one detail row per record when a row expander is set. *)
Lemma applyRecords_flat_shape (me : Markup.config) (body : jsval)
  (records : list model) :
  Markup.isGrouped me = None ->
  forall (xindex : Z) (rows : list row),
    applyRecords me body xindex records = Ok rows ->
    body_classes rows = indexed (fun x _ => parity x) xindex records
    /\ filter is_detail rows
       = match Markup.expanderTemplate me with
         | Some t =>
             indexed (fun x rcd =>
                        DetailRow (parity x) (length (Markup.columns me))
                          (t (data rcd))) xindex records
         | None => []
         end.
Proof.
  intros Hg. induction records as [|values rest IH]; intros xindex rows H;
    simpl in H.
  - inversion H. simpl. destruct (Markup.expanderTemplate me); auto.
  - destruct (applyBody me body values) as [inner|e]; simpl in H;
      [|discriminate].
    rewrite Hg in H. simpl in H. unfold Markup.applyTpl in H.
    destruct (Markup.expanderTemplate me) as [t|] eqn:Et; simpl in H.
    + destruct (applyRecords me body (xindex + 1) rest) as [more|e] eqn:E;
        simpl in H; [|discriminate].
      inversion H. simpl. destruct (IH _ _ E) as [-> ->]. auto.
    + destruct (applyRecords me body (xindex + 1) rest) as [more|e] eqn:E;
        simpl in H; [|discriminate].
      inversion H. simpl. destruct (IH _ _ E) as [-> ->]. auto.
Qed.

Lemma print_grouping_flat (g : grid) :
  st_isGrouped (g_store g) = false \/ getFeature g "grouping" = Ok None ->
  print_grouping g = Ok (false, None, VUndef).
Proof.
  unfold print_grouping. intros [H | H].
  - rewrite H. reflexivity.
  - rewrite H. destruct (st_isGrouped (g_store g)); reflexivity.
Qed.

(** What [print] puts into the template. *)
Lemma printTemplate_config (p : printer) (g : grid) (t : template)
  (isGrouped : bool) (feature : option feature) (groupField : jsval) :
  print_grouping g = Ok (isGrouped, feature, groupField) ->
  printTemplate p g = Ok t ->
  Markup.isGrouped (tpl_config t) = feature
  /\ Markup.columns (tpl_config t)
     = clearColumns isGrouped groupField (g_columnManager g)
  /\ Markup.expanderTemplate (tpl_config t) = findExpander (g_plugins g)
  /\ tpl_headings t
     = headings (clearColumns isGrouped groupField (g_columnManager g))
  /\ getFeature g "summary" = Ok (Markup.summaryFeature (tpl_config t))
  /\ Markup.hasSummary (tpl_config t)
     = is_some (Markup.summaryFeature (tpl_config t)).
Proof.
  intros Hg H. unfold printTemplate in H. rewrite Hg in H.
  cbn [bind fst snd] in H. unfold getHtmlMarkup in H.
  destruct (if is_some feature then getFeature g "grouping" else Ok None)
    as [gf|e]; cbn [bind] in H; [|discriminate].
  destruct (generateBody g _ gf) as [body|e]; cbn [bind] in H;
    [|discriminate].
  destruct (getFeature g "summary") as [sf|e]; cbn [bind] in H;
    [|discriminate].
  inversion H. simpl. repeat split.
Qed.

Lemma tableRows_parts (t : template) (records : list model)
  (rows : list row) :
  tableRows t records = Ok rows ->
  exists body summary,
    applyRecords (tpl_config t) (tpl_body t) 1%Z records = Ok body
    /\ rows = (HeaderRow (tpl_headings t) :: body ++ summary)%list
    /\ (summary = []
        \/ exists cells,
             summary = [SummaryRow cells]
             /\ Markup.hasSummary (tpl_config t) = true).
Proof.
  intros H. unfold tableRows in H. cbv zeta in H.
  destruct (applyRecords (tpl_config t) (tpl_body t) 1 records)
    as [body|e]; cbn [bind] in H; [|discriminate].
  destruct (Markup.hasSummary (tpl_config t)).
  - destruct (mapi_from _ _ _) as [cells|e]; cbn [bind] in H;
      [|discriminate].
    inversion H. exists body, [SummaryRow cells].
    split; [reflexivity|]. split; [reflexivity|]. right. eauto.
  - cbn [bind] in H. inversion H. exists body, []. auto.
Qed.

Lemma printRows_parts (p : printer) (g : grid) (rows : list row) :
  printRows p g = Ok rows ->
  exists t, printTemplate p g = Ok t
            /\ tableRows t (st_records (g_store g)) = Ok rows.
Proof.
  unfold printRows. destruct (printTemplate p g) as [t|e]; simpl;
    [eauto | discriminate].
Qed.

(** X7: when the store is not grouped, or the grid has no grouping
    feature, [print] renders one body row per record, and the classes of
    the body rows alternate, starting with odd. *)
Theorem flat_rows_alternate (p : printer) (g : grid) (rows : list row) :
  st_isGrouped (g_store g) = false \/ getFeature g "grouping" = Ok None ->
  printRows p g = Ok rows ->
  length (body_classes rows) = length (st_records (g_store g))
  /\ forall k : nat,
       (k < length (st_records (g_store g)))%nat ->
       nth k (body_classes rows) EmptyString
       = if Nat.even k then "odd" else "even".
Proof.
  intros Hflat H. apply print_grouping_flat in Hflat.
  destruct (printRows_parts p g rows H) as (t & Ht & Hr).
  destruct (printTemplate_config p g t _ _ _ Hflat Ht) as (Hg & _).
  destruct (tableRows_parts t _ rows Hr) as (body & summary & Hb & -> & Hs).
  destruct (applyRecords_flat_shape _ _ _ Hg _ _ Hb) as [Hc _].
  assert (E : body_classes (HeaderRow (tpl_headings t) :: body ++ summary)
              = indexed (fun x _ => parity x) 1%Z (st_records (g_store g))).
  { simpl. rewrite body_classes_app, Hc.
    destruct Hs as [-> | (cells & -> & _)]; simpl; apply app_nil_r. }
  rewrite E. split; [apply indexed_length|].
  intros k Hk.
  rewrite (indexed_nth _ EmptyString (new_model EmptyString) _ _ _ Hk).
  apply parity_position.
Qed.

(** X8: when the store is not grouped, or the grid has no grouping
    feature, the detail rows are, in order, one per record, with the
    class of the record's row, spanning the cleaned columns and holding
    the row body template applied to the record's data; a grid without
    row expander has no detail row. *)
Theorem flat_detail_rows (p : printer) (g : grid) (rows : list row) :
  st_isGrouped (g_store g) = false \/ getFeature g "grouping" = Ok None ->
  printRows p g = Ok rows ->
  filter is_detail rows
  = match findExpander (g_plugins g) with
    | Some t =>
        indexed (fun x rcd =>
                   DetailRow (parity x)
                     (length (clearColumns false VUndef (g_columnManager g)))
                     (t (data rcd))) 1%Z (st_records (g_store g))
    | None => []
    end.
Proof.
  intros Hflat H. apply print_grouping_flat in Hflat.
  destruct (printRows_parts p g rows H) as (t & Ht & Hr).
  destruct (printTemplate_config p g t _ _ _ Hflat Ht)
    as (Hg & Hcols & Hex & _).
  destruct (tableRows_parts t _ rows Hr) as (body & summary & Hb & -> & Hs).
  destruct (applyRecords_flat_shape _ _ _ Hg _ _ Hb) as [_ Hd].
  simpl. rewrite filter_app, Hd, Hex, Hcols.
  destruct Hs as [-> | (cells & -> & _)]; simpl; apply app_nil_r.
Qed.


(** ** The two copies of [getHtml], template columns *)

Lemma string_app_assoc (a b c : string) : (a ++ b) ++ c = a ++ (b ++ c).
Proof.
  induction a as [|x a IH]; simpl; [reflexivity|]. rewrite IH. reflexivity.
Qed.

(** X11: the two copies of [getHtml] agree whenever [meta.css] is set;
    when it is not, the copy of the outer template ignores [meta.tdCls],
    while the copy of the grouped template writes it as the cell's class
    attribute. *)
Theorem getHtml_class_attribute (value : jsval) (m : meta) :
  (truthy (m_css m) = true ->
   Markup.getHtml value m = GroupBody.getHtml value m)
  /\ (truthy (m_css m) = false ->
      Markup.getHtml value m
      = Markup.getHtml value (with_tdCls m (VStr EmptyString)))
  /\ (truthy (m_css m) = false ->
      truthy (m_tdCls m) = true ->
      length_positive (m_tdCls m) = true ->
      exists rest : string,
        Markup.getHtml value m = "<td " ++ rest
        /\ GroupBody.getHtml value m
           = "<td " ++ "class=" ++ dq ++ to_string (m_tdCls m) ++ dq
             ++ rest).
Proof.
  split; [|split].
  - intros Hc. unfold Markup.getHtml, GroupBody.getHtml,
      Markup.cellOpen, GroupBody.cellOpen. cbv zeta. rewrite Hc.
    reflexivity.
  - intros Hc. unfold Markup.getHtml, Markup.cellOpen. cbv zeta.
    simpl. rewrite Hc. reflexivity.
  - intros Hc Ht Hl. unfold Markup.getHtml, GroupBody.getHtml,
      Markup.cellOpen, GroupBody.cellOpen. cbv zeta.
    rewrite Hc, Ht, Hl.
    destruct (truthy (m_tdAttr m)); destruct (truthy (m_innerCls m));
      rewrite !string_app_assoc; eexists; split; reflexivity.
Qed.

(** X12: for a template column the outer template's [renderColumn] shows
    the column's template applied to the record's data; the raw value
    does not matter and the column's renderer is not called.  A template
    column without template shows the raw value. *)
Theorem template_column_cell (me : Markup.config) (col : column)
  (rcd : model) (c : Z) :
  loose_eq (xtype col) (VStr "templatecolumn") = true ->
  (forall (t : list (string * jsval) -> string) (value other : jsval),
     tpl col = Some t ->
     Markup.renderedValue me col value rcd c
     = (VStr (t (data rcd)), Markup.cellMeta me col value rcd c)
     /\ Markup.renderColumn me col value rcd c
        = Markup.cellOpen (Markup.cellMeta me col VUndef rcd c)
          ++ ">" ++ t (data rcd) ++ "</div></td>"
     /\ Markup.renderColumn me col value rcd c
        = Markup.renderColumn me col other rcd c)
  /\ (forall value : jsval,
        tpl col = None ->
        Markup.renderedValue me col value rcd c
        = (value, Markup.cellMeta me col value rcd c)).
Proof.
  intros Hx. split.
  - intros t value other Ht.
    assert (E : forall v, Markup.renderedValue me col v rcd c
                = (VStr (t (data rcd)), Markup.cellMeta me col v rcd c)).
    { intros v. unfold Markup.renderedValue. cbv zeta.
      rewrite Hx, Ht. reflexivity. }
    split; [apply E|].
    unfold Markup.renderColumn. cbv zeta. rewrite !E.
    split; reflexivity.
  - intros value Ht. unfold Markup.renderedValue. cbv zeta.
    rewrite Hx, Ht. reflexivity.
Qed.

(** ** Summary records and summary objects *)

Lemma lookup_assign_same (k : string) (v : jsval)
  (o : list (string * jsval)) :
  lookup k (assign k v o) = v.
Proof.
  induction o as [|[k' v'] o IH]; simpl.
  - rewrite String.eqb_refl. reflexivity.
  - destruct (String.eqb k k') eqn:E; simpl; rewrite ?E, ?String.eqb_refl;
      auto.
Qed.

Lemma lookup_assign_other (k k' : string) (v : jsval)
  (o : list (string * jsval)) :
  k <> k' -> lookup k (assign k' v o) = lookup k o.
Proof.
  intros Hk. apply String.eqb_neq in Hk.
  induction o as [|[k2 v2] o IH]; simpl.
  - rewrite Hk. reflexivity.
  - destruct (String.eqb k' k2) eqn:E; simpl.
    + apply String.eqb_eq in E. subst k2. rewrite Hk. reflexivity.
    + rewrite IH. reflexivity.
Qed.

Lemma lookup_absent (k : string) (o : list (string * jsval)) :
  ~ In k (map fst o) -> lookup k o = VUndef.
Proof.
  induction o as [|[k' v'] o IH]; simpl; intros H; [reflexivity|].
  destruct (String.eqb k k') eqn:E.
  - apply String.eqb_eq in E. elim H. auto.
  - apply IH. tauto.
Qed.

(** The local summary record, built over any starting record. *)
Lemma summary_fold (s : store) (cols : list column) :
  NoDup (map (fun col => to_string (dataIndex col)) cols) ->
  forall rcd0 : model,
    (forall col, In col cols -> get rcd0 (dataIndex col) = VUndef) ->
    let rcd :=
      fold_left
        (fun rcd col =>
           let valueObject :=
             Markup.getSummary s (summaryType col) (dataIndex col) false in
           if negb (isDefined valueObject) then rcd
           else set_field rcd (dataIndex col) valueObject)
        cols rcd0 in
    (forall col, In col cols ->
       get rcd (dataIndex col)
       = Markup.getSummary s (summaryType col) (dataIndex col) false)
    /\ (forall k : string,
          ~ In k (map (fun col => to_string (dataIndex col)) cols) ->
          lookup k (data rcd) = lookup k (data rcd0)).
Proof.
  induction cols as [|c rest IH]; intros Hnd rcd0 H0 rcd.
  - subst rcd. simpl. split; [intros col []|auto].
  - inversion Hnd as [|x l Hnotin Hnd']; subst x l.
    pose (v := Markup.getSummary s (summaryType c) (dataIndex c) false).
    pose (rcd1 := if negb (isDefined v) then rcd0
                  else set_field rcd0 (dataIndex c) v).
    assert (H1 : forall col, In col rest ->
                   get rcd1 (dataIndex col) = VUndef).
    { intros col Hin. unfold rcd1.
      destruct (negb (isDefined v)); [apply H0; right; exact Hin|].
      unfold get, set_field. simpl.
      rewrite lookup_assign_other; [apply (H0 col); right; exact Hin|].
      intros E. apply Hnotin. rewrite <- E.
      apply (in_map (fun col => to_string (dataIndex col))). exact Hin. }
    pose proof (IH Hnd' rcd1 H1) as IH1. cbv zeta in IH1.
    assert (Er : rcd
                 = fold_left
                     (fun rcd col =>
                        let valueObject :=
                          Markup.getSummary s (summaryType col)
                            (dataIndex col) false in
                        if negb (isDefined valueObject) then rcd
                        else set_field rcd (dataIndex col) valueObject)
                     rest rcd1) by reflexivity.
    clearbody rcd. subst rcd. destruct IH1 as [Hin Hout]. split.
    + intros col [<- | Hc]; [|apply Hin, Hc].
      unfold get. rewrite (Hout _ Hnotin). unfold rcd1. fold v.
      destruct (isDefined v) eqn:D; simpl.
      * apply lookup_assign_same.
      * pose proof (H0 c (or_introl eq_refl)) as Hc0. unfold get in Hc0.
        rewrite Hc0.
        destruct v; simpl in D; try discriminate; reflexivity.
    + intros k Hk.
      rewrite Hout by (intros X; apply Hk; simpl; right; exact X).
      unfold rcd1. destruct (negb (isDefined v)); [reflexivity|].
      simpl. apply lookup_assign_other.
      intros X. apply Hk. simpl. left. symmetry. exact X.
Qed.

(** X13: for local summaries over columns with distinct [dataIndex], the
    record of [getSummaryRecord42] holds, for every column, exactly the
    column's aggregate (nothing for a column without aggregate), and
    nothing under any other field. *)
Theorem getSummaryRecord42_local (me : Markup.config) (f : feature) :
  Markup.summaryFeature me = Some f ->
  truthy (remoteRoot f) = false ->
  NoDup (map (fun col => to_string (dataIndex col)) (Markup.columns me)) ->
  exists rcd : model,
    Markup.getSummaryRecord42 me = Ok rcd
    /\ (forall col, In col (Markup.columns me) ->
          get rcd (dataIndex col)
          = Markup.getSummary (g_store (Markup.cfg_grid me))
              (summaryType col) (dataIndex col) false)
    /\ (forall k : string,
          ~ In k (map (fun col => to_string (dataIndex col))
                    (Markup.columns me)) ->
          lookup k (data rcd) = VUndef).
Proof.
  intros Hf Hr Hnd. unfold Markup.getSummaryRecord42. rewrite Hf, Hr.
  eexists. split; [reflexivity|].
  destruct (summary_fold (g_store (Markup.cfg_grid me)) (Markup.columns me)
              Hnd (new_model "summary") (fun col _ => eq_refl))
    as [Hin Hout].
  split; [exact Hin|]. intros k Hk. exact (Hout k Hk).
Qed.

Lemma set_values_data (fs : list (string * jsval)) :
  forall rcd : model,
    data (set_values rcd (VObj fs))
    = fold_left (fun o kv => assign (fst kv) (snd kv) o) fs (data rcd).
Proof.
  unfold set_values.
  induction fs as [|[k v] fs IH]; intros rcd; simpl; [reflexivity|].
  rewrite IH. reflexivity.
Qed.

Lemma fold_assign_lookup (fs : list (string * jsval)) :
  NoDup (map fst fs) ->
  forall (o : list (string * jsval)) (k : string),
    lookup k (fold_left (fun o kv => assign (fst kv) (snd kv) o) fs o)
    = if in_dec string_dec k (map fst fs) then lookup k fs else lookup k o.
Proof.
  induction fs as [|[k1 v1] fs IH]; intros Hnd o k; [reflexivity|].
  inversion Hnd as [|x l Hnotin Hnd']; subst. simpl fold_left.
  rewrite (IH Hnd'). simpl map. simpl lookup.
  destruct (String.eqb k k1) eqn:E.
  - apply String.eqb_eq in E. subst k1.
    destruct (in_dec string_dec k (map fst fs)) as [Hi|Hi]; [tauto|].
    destruct (in_dec string_dec k (k :: map fst fs)) as [_|Hn];
      [apply lookup_assign_same | elim Hn; left; reflexivity].
  - apply String.eqb_neq in E.
    destruct (in_dec string_dec k (map fst fs)) as [Hi|Hi];
      destruct (in_dec string_dec k (k1 :: map fst fs)) as [Hj|Hj];
      try reflexivity.
    + elim Hj. right. exact Hi.
    + destruct Hj as [Hj|Hj]; [congruence | tauto].
    + apply lookup_assign_other, E.
Qed.

(** Writing an object into a new record and reading a field gives the
    object's value for the field. *)
Lemma set_values_get (ident : string) (fs : list (string * jsval))
  (field : jsval) :
  NoDup (map fst fs) ->
  get (set_values (new_model ident) (VObj fs)) field
  = lookup (to_string field) fs.
Proof.
  intros Hnd. unfold get. rewrite set_values_data, (fold_assign_lookup fs Hnd).
  destruct (in_dec string_dec (to_string field) (map fst fs)) as [Hi|Hi];
    [reflexivity|].
  simpl. symmetry. apply lookup_absent, Hi.
Qed.

(** X14: a remote summary of the trailing row read into a new summary
    record: when the payload under [remoteRoot] is an array, the cell's
    value is the field of the array's first entry, whatever the other
    entries are, and [undefined] for an empty array; when it is a single
    object, it is that object's field. *)
Theorem remote_summary_first_entry (me : Markup.config) (f : feature)
  (col : column) (fs : list (string * jsval)) (others : list jsval) :
  Markup.summaryFeature me = Some f ->
  truthy (remoteRoot f) = true ->
  summaryRecord f = None ->
  NoDup (map fst fs) ->
  (get_prop (st_rawData (g_store (Markup.cfg_grid me)))
     (to_string (remoteRoot f)) = Ok (VArr (VObj fs :: others)) ->
   Markup.summaryValue me col = Ok (lookup (to_string (dataIndex col)) fs))
  /\ (get_prop (st_rawData (g_store (Markup.cfg_grid me)))
        (to_string (remoteRoot f)) = Ok (VArr []) ->
      Markup.summaryValue me col = Ok VUndef)
  /\ (get_prop (st_rawData (g_store (Markup.cfg_grid me)))
        (to_string (remoteRoot f)) = Ok (VObj fs) ->
      Markup.summaryValue me col = Ok (lookup (to_string (dataIndex col)) fs)).
Proof.
  intros Hf Hr Hrec Hnd.
  assert (T : forall root,
            get_prop (st_rawData (g_store (Markup.cfg_grid me)))
              (to_string (remoteRoot f)) = Ok root ->
            isArray root = true \/ isObject root = true ->
            truthy (st_rawData (g_store (Markup.cfg_grid me))) = true).
  { intros root H Hk.
    destruct (st_rawData (g_store (Markup.cfg_grid me))) as
      [| | b | n | s | l | o]; simpl in H; try discriminate;
      try reflexivity.
    - injection H as <-. destruct Hk; discriminate.
    - injection H as <-. destruct Hk; discriminate.
    - destruct s as [|c s]; [|reflexivity]. exfalso.
      destruct (String.eqb (to_string (remoteRoot f)) "length").
      + injection H as <-. destruct Hk; discriminate.
      + destruct (array_index (to_string (remoteRoot f))) as [i|];
          [destruct i|]; simpl in H; injection H as <-;
          destruct Hk; discriminate. }
  unfold Markup.summaryValue, Markup.remoteSummaryRecord.
  rewrite Hf, Hr, Hrec. cbv zeta. repeat split; intros H.
  - rewrite (T _ H (or_introl eq_refl)), H. cbn [bind isArray first_item].
    rewrite set_values_get by exact Hnd. reflexivity.
  - rewrite (T _ H (or_introl eq_refl)), H. reflexivity.
  - rewrite (T _ H (or_intror eq_refl)), H. cbn [bind isArray].
    rewrite set_values_get by exact Hnd. reflexivity.
Qed.

(** X15: in the grouped template, [getSummaryRecord42] returns an empty
    record when there is no column and throws as soon as there is one, so
    [getSummaryObject42] throws and a summary cell of a column with a
    summary renderer is never rendered; for local summaries without
    summary renderer the cell is rendered, as a bare [<td><div>]. *)
Theorem grouped_summary_renderer_throws (me : GroupBody.config)
  (groupName : jsval) :
  (GroupBody.columns me = [] ->
   GroupBody.getSummaryRecord42 me groupName = Ok (new_model "summary"))
  /\ (GroupBody.columns me <> [] ->
      (exists e, GroupBody.getSummaryRecord42 me groupName = Throw e)
      /\ forall (col : column) (colIndex : Z),
           (exists e,
              GroupBody.getSummaryObject42 me groupName col colIndex
              = Throw e)
           /\ forall r : renderer,
                summaryRenderer col = Some r ->
                exists e,
                  GroupBody.renderSummary me groupName col colIndex
                  = Throw e)
  /\ (forall (f : feature) (col : column) (colIndex : Z),
        GroupBody.summaryFeature me = Some f ->
        truthy (remoteRoot f) = false ->
        summaryRenderer col = None ->
        exists shown : string,
          GroupBody.renderSummary me groupName col colIndex
          = Ok ("<td><div>" ++ shown ++ "</div></td>")).
Proof.
  split; [|split].
  - intros H. unfold GroupBody.getSummaryRecord42. rewrite H. reflexivity.
  - intros H.
    destruct (grouped_getSummaryRecord42_throws me groupName H) as [e He].
    split; [eauto|]. intros col colIndex.
    assert (Ho : GroupBody.getSummaryObject42 me groupName col colIndex
                 = Throw e).
    { unfold GroupBody.getSummaryObject42. rewrite He. reflexivity. }
    split; [eauto|]. intros r Hr. unfold GroupBody.renderSummary.
    destruct (GroupBody.summaryValue me groupName col) as [v|e'];
      [|simpl; eauto].
    cbn [bind]. rewrite Hr, Ho. simpl. eauto.
  - intros f col colIndex Hf Hroot Hr.
    unfold GroupBody.renderSummary, GroupBody.summaryValue. cbv zeta.
    rewrite Hf, Hroot. cbn [bind].
    destruct (GroupBody.getSummary _ _ _ _) as [| | b | n | s | l | o];
      cbn [isObject get_prop bind]; rewrite Hr; eauto.
Qed.

Lemma summaryObject_fold (s : store) (cols : list column) :
  forall o : list (string * jsval),
    (forall k, lookup k o = VUndef) ->
    forall k,
      lookup k
        (fold_left
           (fun summaryValues col =>
              let valueObject :=
                Markup.getSummary s (summaryType col) (dataIndex col) false in
              if isDefined valueObject then summaryValues
              else assign (to_string (id col)) valueObject summaryValues)
           cols o) = VUndef.
Proof.
  induction cols as [|c rest IH]; intros o Ho k; simpl; [apply Ho|].
  apply IH. intros k'.
  destruct (Markup.getSummary s (summaryType c) (dataIndex c) false)
    eqn:E; simpl; try apply Ho.
  destruct (string_dec k' (to_string (id c))) as [-> | Hn].
  - apply lookup_assign_same.
  - rewrite lookup_assign_other by exact Hn. apply Ho.
Qed.

(** X16: the object built by [getSummaryObject] of the outer template
    holds the alignment style under "style" and no summary value: every
    other property reads [undefined]. *)
Theorem getSummaryObject_holds_no_value (me : Markup.config)
  (align : jsval) :
  lookup "style" (Markup.getSummaryObject me align)
  = VStr ("text-align:" ++ to_string align ++ ";")
  /\ forall k : string,
       k <> "style" ->
       lookup k (Markup.getSummaryObject me align) = VUndef.
Proof.
  unfold Markup.getSummaryObject. cbv zeta. split.
  - apply lookup_assign_same.
  - intros k Hk. rewrite lookup_assign_other by exact Hk.
    apply summaryObject_fold. reflexivity.
Qed.

(** ** [getSummaryRcd] *)

Lemma scanSummaryRcd_result (items : list jsval) (key : string)
  (value r : jsval) :
  GroupBody.scanSummaryRcd items key value = Ok r ->
  r = VUndef
  \/ (In r items
      /\ exists f, get_prop r key = Ok f
                   /\ truthy f = true /\ loose_eq f value = true).
Proof.
  induction items as [|x rest IH]; cbn [GroupBody.scanSummaryRcd]; intros H.
  - left. congruence.
  - destruct (get_prop x key) as [f|e] eqn:E; cbn [bind] in H;
      [|discriminate].
    destruct (truthy f && loose_eq f value) eqn:C.
    + injection H as <-. right. apply andb_true_iff in C.
      split; [left; reflexivity | exists f; tauto].
    + destruct (IH H) as [-> | [Hin Hf]]; [left; reflexivity|].
      right. split; [right; exact Hin | exact Hf].
Qed.

(** X17: over an array, [getSummaryRcd] returns [undefined] or an entry
    of the array whose field is truthy and loosely equal to the key, and
    it throws at an [undefined] or [null] entry met before a match; given
    anything else it ignores the key: it throws when the object has no
    [data], and returns the object itself when [data] has a truthy field,
    [undefined] otherwise. *)
Theorem getSummaryRcd_result :
  (forall (items : list jsval) (fieldName value r : jsval),
     GroupBody.getSummaryRcd (VArr items) fieldName value = Ok r ->
     r = VUndef
     \/ (In r items
         /\ exists f, get_prop r (to_string fieldName) = Ok f
                      /\ truthy f = true /\ loose_eq f value = true))
  /\ (forall (pre post : list jsval) (item fieldName value : jsval),
        item = VUndef \/ item = VNull ->
        (forall x, In x pre ->
           exists fx, get_prop x (to_string fieldName) = Ok fx
                      /\ truthy fx && loose_eq fx value = false) ->
        exists e,
          GroupBody.getSummaryRcd (VArr (pre ++ item :: post)) fieldName
            value = Throw e)
  /\ (forall (raw d fieldName value : jsval),
        isArray raw = false ->
        get_prop raw "data" = Ok d ->
        (d = VUndef \/ d = VNull ->
         exists e, GroupBody.getSummaryRcd raw fieldName value = Throw e)
        /\ (forall f : jsval,
              get_prop d (to_string fieldName) = Ok f ->
              GroupBody.getSummaryRcd raw fieldName value
              = Ok (if truthy f then raw else VUndef))).
Proof.
  split; [|split].
  - intros items fieldName value r H. apply scanSummaryRcd_result, H.
  - intros pre post item fieldName value Hitem Hpre.
    cbn [GroupBody.getSummaryRcd].
    induction pre as [|x pre IH]; cbn [app GroupBody.scanSummaryRcd].
    + destruct Hitem as [-> | ->]; simpl; eauto.
    + destruct (Hpre x (or_introl eq_refl)) as (fx & Hg & Hc).
      rewrite Hg. cbn [bind]. rewrite Hc. apply IH.
      intros y Hy. apply Hpre. right. exact Hy.
  - intros raw d fieldName value Harr Hd.
    assert (E : GroupBody.getSummaryRcd raw fieldName value
                = (f <- get_prop d (to_string fieldName) ;;
                   if truthy f then Ok raw else Ok VUndef)).
    { destruct raw; try discriminate; cbn [GroupBody.getSummaryRcd];
        rewrite Hd; reflexivity. }
    rewrite E. split.
    + intros [-> | ->]; simpl; eauto.
    + intros f Hf. rewrite Hf. simpl. destruct (truthy f); reflexivity.
Qed.

(** ** The grouped body template *)

Lemma mapi_from_pure {A B : Type} (F : A -> Z -> result B)
  (f : Z -> A -> B) (l : list A) :
  (forall a x, F a x = Ok (f x a)) ->
  forall x : Z, mapi_from F x l = Ok (indexed f x l).
Proof.
  intros HF. induction l as [|a l IH]; intros x; simpl; [reflexivity|].
  rewrite HF, IH. reflexivity.
Qed.

Lemma indexed_body_rows {A : Type} (inner : Z -> A -> string)
  (l : list A) :
  forall x : Z,
    body_classes (indexed (fun x a => BodyRow (parity x) (inner x a)) x l)
    = indexed (fun x _ => parity x) x l
    /\ filter is_group_header
         (indexed (fun x a => BodyRow (parity x) (inner x a)) x l) = [].
Proof.
  induction l as [|a l IH]; intros x; simpl; [auto|].
  destruct (IH (x + 1)%Z) as [-> ->]. auto.
Qed.

Lemma applyGroup_shape (me : GroupBody.config)
  (group : jsval * list model) (rows : list row) :
  GroupBody.applyGroup me group = Ok rows ->
  filter is_group_header rows
  = [GroupHeaderRow (GroupBody.colSpan me)
       (GroupBody.applyGroupTpl me (fst group) (snd group))]
  /\ body_classes rows = indexed (fun x _ => parity x) 1%Z (snd group).
Proof.
  unfold GroupBody.applyGroup. cbv zeta.
  rewrite (mapi_from_pure _
             (fun x rcd =>
                BodyRow (parity x)
                  (String.concat EmptyString
                     (indexed
                        (fun c col =>
                           GroupBody.renderColumn me col
                             (get rcd (dataIndex col)) rcd c)
                        1%Z (GroupBody.columns me))))).
  - cbn [bind]. intros H.
    destruct (indexed_body_rows
                (fun (_ : Z) rcd =>
                   String.concat EmptyString
                     (indexed
                        (fun c col =>
                           GroupBody.renderColumn me col
                             (get rcd (dataIndex col)) rcd c)
                        1%Z (GroupBody.columns me)))
                (snd group) 1%Z) as [Hc Hg].
    destruct (GroupBody.hasSummary me).
    + destruct (mapi_from _ _ _) as [cells|e]; cbn [bind] in H;
        [|discriminate].
      injection H as <-. simpl. rewrite filter_app, body_classes_app, Hc, Hg.
      simpl. rewrite app_nil_r. auto.
    + cbn [bind] in H. injection H as <-. simpl.
      rewrite filter_app, body_classes_app, Hc, Hg.
      simpl. rewrite app_nil_r. auto.
  - intros rcd x.
    rewrite (mapi_from_pure _
               (fun c col =>
                  GroupBody.renderColumn me col (get rcd (dataIndex col))
                    rcd c)); reflexivity.
Qed.

Lemma applyGroup_ok (me : GroupBody.config) (group : jsval * list model) :
  GroupBody.hasSummary me = false ->
  exists rows, GroupBody.applyGroup me group = Ok rows.
Proof.
  intros Hs. unfold GroupBody.applyGroup. cbv zeta.
  rewrite (mapi_from_pure _
             (fun x rcd =>
                BodyRow (parity x)
                  (String.concat EmptyString
                     (indexed
                        (fun c col =>
                           GroupBody.renderColumn me col
                             (get rcd (dataIndex col)) rcd c)
                        1%Z (GroupBody.columns me))))).
  - rewrite Hs. cbn [bind]. eauto.
  - intros rcd x.
    rewrite (mapi_from_pure _
               (fun c col =>
                  GroupBody.renderColumn me col (get rcd (dataIndex col))
                    rcd c)); reflexivity.
Qed.

(** X18: the grouped body template, applied to groups, gives one
    group-header row per group, in order, each holding the group header
    template's text and spanning [colSpan] columns; the body rows are the
    groups' children in order and their classes start again at odd in
    every group.  Without summary rows the template always renders. *)
Theorem grouped_template_rows (me : GroupBody.config)
  (groups : list (jsval * list model)) :
  (forall rows : list row,
     GroupBody.apply me groups = Ok rows ->
     filter is_group_header rows
     = map (fun group =>
              GroupHeaderRow (GroupBody.colSpan me)
                (GroupBody.applyGroupTpl me (fst group) (snd group)))
         groups
     /\ body_classes rows
        = flat_map (fun group =>
                      indexed (fun x _ => parity x) 1%Z (snd group))
            groups)
  /\ (GroupBody.hasSummary me = false ->
      exists rows, GroupBody.apply me groups = Ok rows).
Proof.
  split.
  - induction groups as [|group rest IH]; intros rows H; simpl in H.
    + injection H as <-. auto.
    + destruct (GroupBody.applyGroup me group) as [r1|e] eqn:E1;
        cbn [bind] in H; [|discriminate].
      destruct (GroupBody.apply me rest) as [r2|e] eqn:E2;
        cbn [bind] in H; [|discriminate].
      injection H as <-.
      destruct (applyGroup_shape me group r1 E1) as [Hh Hc].
      destruct (IH r2 eq_refl) as [Hh2 Hc2].
      rewrite filter_app, body_classes_app, Hh, Hc, Hh2, Hc2. auto.
  - intros Hs. induction groups as [|group rest IH]; simpl; [eauto|].
    destruct (applyGroup_ok me group Hs) as [r1 ->].
    destruct IH as [r2 ->]. cbn [bind]. eauto.
Qed.

(** ** Opening the window and the events *)


(** A fact about the events of one run, the browser being given. *)
Ltac event_fact :=
  match goal with
  | |- exists _, _ => eexists; reflexivity
  | |- (_ <= _)%nat => simpl; lia
  | |- forall h, In (DocumentWrite h) _ -> _ =>
      let H := fresh in
      intros ? H; simpl in H;
      repeat (destruct H as [H|H]; try discriminate H);
      try contradiction; congruence
  | |- _ => simpl; intuition (try discriminate; try congruence; try lia)
  end.

Ltac events :=
  repeat match goal with |- _ /\ _ => split end; event_fact.

(** X19: [_printGrid] always fires [beforePrint] first, with the markup;
    when a listener vetoes or throws, nothing else happens.  Otherwise
    [print] is fired once or twice: it reports success exactly when the
    window opened and no operation on it threw; after that report
    [afterPrint] follows exactly when no listener of the report threw,
    and when one did the failure is reported too (the two [print] events
    of the run) and [afterPrint] is not fired.  [afterPrint] and a
    reported failure exclude each other; only the rendered markup is
    written; the window is printed only if [printAutomatically] is set;
    and an exception that leaves the function comes from a listener,
    never from the window. *)
Theorem printGrid_events (cfg : automation) (b : browser) (html : string) :
  (exists rest, printGrid cfg b html = FireBeforePrint html :: rest)
  /\ (beforePrint b = false \/ beforePrintThrows b = true ->
      printGrid cfg b html = [FireBeforePrint html])
  /\ (In (FirePrint true) (printGrid cfg b html) <->
      beforePrintThrows b = false /\ beforePrint b = true
      /\ opens b = true
      /\ documentOpenThrows b = false
      /\ documentWriteThrows b = false
      /\ documentCloseThrows b = false
      /\ (printAutomatically cfg = true -> printThrows b = false)
      /\ (closeAutomaticallyAfterPrint cfg = true -> closeThrows b = false))
  /\ (In FireAfterPrint (printGrid cfg b html) <->
      In (FirePrint true) (printGrid cfg b html)
      /\ successListenerThrows b = false)
  /\ (In (FirePrint false) (printGrid cfg b html) <->
      beforePrintThrows b = false /\ beforePrint b = true
      /\ ~ In FireAfterPrint (printGrid cfg b html))
  /\ (length (filter is_fire_print (printGrid cfg b html)) = 2%nat <->
      In (FirePrint true) (printGrid cfg b html)
      /\ successListenerThrows b = true)
  /\ (length (filter is_fire_print (printGrid cfg b html)) = 0%nat <->
      beforePrint b = false \/ beforePrintThrows b = true)
  /\ (length (filter is_fire_print (printGrid cfg b html)) <= 2)%nat
  /\ (forall h, In (DocumentWrite h) (printGrid cfg b html) -> h = html)
  /\ (In WindowPrint (printGrid cfg b html) ->
      printAutomatically cfg = true)
  /\ (printGridThrows cfg b html = true ->
      beforePrintThrows b = true \/ failureListenerThrows b = true
      \/ afterPrintThrows b = true).
Proof.
  destruct cfg as [pa ca].
  destruct b as [bp op t1 t2 t3 t4 t5 ie bt st ft att].
  unfold printGrid, printGridThrows, runPrintGrid, windowSteps.
  cbn [beforePrint opens documentOpenThrows documentWriteThrows
       documentCloseThrows printThrows closeThrows isIE beforePrintThrows
       successListenerThrows failureListenerThrows afterPrintThrows
       printAutomatically closeAutomaticallyAfterPrint].
  destruct bt; [events|].
  destruct bp; [|events].
  destruct op; [|events].
  destruct t1; [events|].
  destruct t2; [events|].
  destruct t3; [events|].
  destruct pa, ca, t4, t5, ie, st; events.
Qed.



(** X21: the rows [print] renders hold a summary row exactly when the
    grid has a 'summary' feature. *)
Theorem summary_row_iff_feature (p : printer) (g : grid)
  (rows : list row) :
  printRows p g = Ok rows ->
  (filter is_summary rows = [] <-> getFeature g "summary" = Ok None).
Proof.
  intros H.
  destruct (printRows_parts p g rows H) as (t & Ht & Hr).
  assert (Hg : exists x, print_grouping g = Ok x).
  { unfold printTemplate in Ht.
    destruct (print_grouping g) as [x|e]; [eauto | discriminate]. }
  destruct Hg as [[[ig feat] gf] Hg].
  destruct (printTemplate_config p g t _ _ _ Hg Ht)
    as (_ & _ & _ & _ & Hsf & Hhs).
  unfold tableRows in Hr. cbv zeta in Hr.
  destruct (applyRecords (tpl_config t) (tpl_body t) 1
              (st_records (g_store g))) as [body|e] eqn:Hb;
    cbn [bind] in Hr; [|discriminate].
  assert (Hbody : filter is_summary body = []).
  { clear - Hb. revert Hb. generalize 1%Z. revert body.
    induction (st_records (g_store g)) as [|values rest IH];
      intros body x Hb; simpl in Hb.
    - injection Hb as <-. reflexivity.
    - destruct (applyBody _ _ values) as [inner|e]; simpl in Hb;
        [|discriminate].
      destruct (is_some (Markup.expanderTemplate (tpl_config t)));
        simpl in Hb.
      + destruct (Markup.applyTpl _ values) as [d|e]; simpl in Hb;
          [|discriminate].
        destruct (is_some (Markup.isGrouped (tpl_config t)) && (0 <? x)%Z).
        * injection Hb as <-. reflexivity.
        * destruct (applyRecords _ _ (x + 1) rest) as [more|e] eqn:E;
            simpl in Hb; [|discriminate].
          injection Hb as <-. simpl. apply (IH _ _ E).
      + destruct (is_some (Markup.isGrouped (tpl_config t)) && (0 <? x)%Z).
        * injection Hb as <-. reflexivity.
        * destruct (applyRecords _ _ (x + 1) rest) as [more|e] eqn:E;
            simpl in Hb; [|discriminate].
          injection Hb as <-. simpl. apply (IH _ _ E). }
  rewrite Hsf. rewrite Hhs in Hr.
  destruct (Markup.summaryFeature (tpl_config t)) as [f|]; cbn [is_some] in Hr.
  - destruct (mapi_from _ _ _) as [cells|e]; cbn [bind] in Hr;
      [|discriminate].
    injection Hr as <-. simpl. rewrite filter_app, Hbody. simpl.
    split; discriminate.
  - cbn [bind] in Hr. injection Hr as <-. simpl.
    rewrite filter_app, Hbody. simpl. split; reflexivity.
Qed.

(** ** The further properties at sample inputs *)

Lemma rownumberer_template_kept_witness :
  In (Some Sample.rowNumberer)
    [Some Sample.rowNumberer; Some Sample.nameColumn]
  /\ strict_eq (xtype Sample.rowNumberer) (VStr "rownumberer") = true
  /\ truthy (text Sample.rowNumberer) = false
  /\ hidden Sample.rowNumberer = true
  /\ (In Sample.rowNumberer
        (clearColumns false VUndef
           [Some Sample.rowNumberer; Some Sample.nameColumn])
      \/ In (with_text Sample.rowNumberer (VStr "Row"))
           (clearColumns false VUndef
              [Some Sample.rowNumberer; Some Sample.nameColumn]))
  /\ In (with_text Sample.rowNumberer (VStr "Row"))
       (clearColumns false VUndef
          [Some Sample.rowNumberer; Some Sample.nameColumn]).
Proof.
  assert (Hin : In (Some Sample.rowNumberer)
                  [Some Sample.rowNumberer; Some Sample.nameColumn])
    by (left; reflexivity).
  destruct (rownumberer_template_kept false VUndef _ _ Hin) as [H1 H2].
  split; [exact Hin|]. split; [reflexivity|]. split; [reflexivity|].
  split; [reflexivity|]. split.
  - apply H1. left. reflexivity.
  - apply H2; [reflexivity | reflexivity | left; reflexivity].
Defined.

Lemma getFeature_first_witness :
  view_features (g_view (Sample.gridWithView Sample.lockedView))
  = Ok (Some [Sample.groupingsummary VUndef; Sample.summary VUndef])
  /\ getFeature (Sample.gridWithView Sample.lockedView) "summary"
     = Ok (Some (Sample.summary VUndef))
  /\ (exists pre post,
        [Sample.groupingsummary VUndef; Sample.summary VUndef]
        = (pre ++ Sample.summary VUndef :: post)%list
        /\ feature_matches "summary" (Sample.summary VUndef) = true
        /\ forall x, In x pre -> feature_matches "summary" x = false)
  /\ (getFeature (Sample.gridWithView Sample.lockedView) "rowbody" = Ok None
      <-> forall x,
            In x [Sample.groupingsummary VUndef; Sample.summary VUndef] ->
            feature_matches "rowbody" x = false).
Proof.
  split; [reflexivity|]. split; [reflexivity|].
  destruct (getFeature_first (Sample.gridWithView Sample.lockedView)
              "summary" _ eq_refl) as [H1 _].
  destruct (getFeature_first (Sample.gridWithView Sample.lockedView)
              "rowbody" _ eq_refl) as [_ H2].
  split; [exact (H1 _ eq_refl) | exact H2].
Defined.

Lemma getFeature_kinds_witness :
  getFeature (Sample.gridWithView Sample.lockedView) "grouping"
  = Ok (Some (Sample.groupingsummary VUndef))
  /\ ftype (Sample.groupingsummary VUndef) = "groupingsummary"
  /\ (exists f',
        getFeature (Sample.gridWithView Sample.lockedView) "grouping"
        = Ok (Some f'))
  /\ "rowbody" <> "grouping"
  /\ getFeature (Sample.gridWithView Sample.lockedView) "rowbody" = Ok None.
Proof.
  destruct (getFeature_kinds (Sample.gridWithView Sample.lockedView))
    as (H1 & H2 & H3).
  split; [reflexivity|]. split.
  - destruct (H1 "grouping" (Sample.groupingsummary VUndef) eq_refl)
      as [[_ [H | H]] | [[H _] | [H _]]]; try discriminate; exact H.
  - split; [exact (H2 (Sample.groupingsummary VUndef) eq_refl)|].
    split; [discriminate|].
    apply (H3 "rowbody" _ eq_refl); discriminate.
Defined.

Lemma getFeature_throws_witness :
  (exists e,
     getFeature (Sample.gridWithView Sample.bareView) "summary" = Throw e)
  /\ features (g_view (Sample.gridWithView Sample.bareView)) = None
  /\ featuresMC (g_view Sample.scenarioB) = Some [Sample.grouping]
  /\ getFeature Sample.scenarioB "grouping"
     = Ok (find (feature_matches "grouping") [Sample.grouping]).
Proof.
  destruct (getFeature_throws (Sample.gridWithView Sample.bareView)
              "summary") as [[_ H] _].
  destruct (getFeature_throws Sample.scenarioB "grouping") as (_ & _ & H3).
  split; [apply H; repeat split|]. split; [reflexivity|].
  split; [reflexivity|]. apply H3; reflexivity.
Defined.

Lemma resolveStylesheetPath_cases_witness :
  resolveStylesheetPath (Some "css/mine.css") "ux/grid/Printer.js"
  = "css/mine.css"
  /\ resolveStylesheetPath None "build/app.js" = "gridPrinterCss/print.css"
  /\ "ux/grid/Printer.js?v=2" = "ux/grid/" ++ "Printer.js" ++ "?v=2"
  /\ resolveStylesheetPath None "ux/grid/Printer.js?v=2"
     = "ux/grid/" ++ "gridPrinterCss/print.css".
Proof.
  destruct (resolveStylesheetPath_cases "ux/grid/Printer.js") as [H1 _].
  destruct (resolveStylesheetPath_cases "build/app.js") as (_ & H2 & _).
  destruct (resolveStylesheetPath_cases "ux/grid/Printer.js?v=2")
    as (_ & _ & H3).
  split; [apply H1|]. split.
  - apply H2. intros m H.
    do 13 (destruct m as [|m]; [simpl in H; discriminate H|]).
    simpl in H. discriminate H.
  - split; [reflexivity|].
    apply (H3 "ux/grid/" "?v=2"); [reflexivity|].
    intros m Hm H. simpl in Hm.
    do 8 (destruct m as [|m]; [simpl in H; discriminate H|]). lia.
Defined.

Lemma flat_rows_alternate_witness :
  st_isGrouped (g_store Sample.expanderGrid) = false
  /\ exists rows : list row,
       printRows Sample.printer Sample.expanderGrid = Ok rows
       /\ length (body_classes rows) = 3%nat
       /\ nth 1 (body_classes rows) EmptyString = "even".
Proof.
  split; [reflexivity|].
  destruct (printRows Sample.printer Sample.expanderGrid) as [rows|e] eqn:E;
    [|vm_compute in E; discriminate E].
  exists rows. split; [reflexivity|].
  destruct (flat_rows_alternate Sample.printer Sample.expanderGrid rows
              (or_introl eq_refl) E) as [Hl Hn].
  split; [exact Hl|]. apply (Hn 1%nat). simpl. lia.
Defined.

Lemma flat_detail_rows_witness :
  st_isGrouped (g_store Sample.expanderGrid) = false
  /\ exists rows : list row,
       printRows Sample.printer Sample.expanderGrid = Ok rows
       /\ filter is_detail rows
          = [DetailRow "odd" 2 "Dept: eng"; DetailRow "even" 2 "Dept: eng";
             DetailRow "odd" 2 "Dept: sales"].
Proof.
  split; [reflexivity|].
  destruct (printRows Sample.printer Sample.expanderGrid) as [rows|e] eqn:E;
    [|vm_compute in E; discriminate E].
  exists rows. split; [reflexivity|].
  rewrite (flat_detail_rows Sample.printer Sample.expanderGrid rows
             (or_introl eq_refl) E).
  reflexivity.
Defined.


Lemma grouped_print_rows_witness :
  st_isGrouped (g_store Sample.scenarioB) = true
  /\ getFeature Sample.scenarioB "grouping" = Ok (Some Sample.grouping)
  /\ exists rows : list row,
       printRows Sample.printer Sample.scenarioB = Ok rows
       /\ filter is_group_header rows = []
       /\ (length (body_classes rows) <= 1)%nat.
Proof.
  split; [reflexivity|]. split; [reflexivity|].
  destruct (printRows Sample.printer Sample.scenarioB) as [rows|e] eqn:E;
    [|vm_compute in E; discriminate E].
  exists rows. split; [reflexivity|].
  exact (grouped_print_rows Sample.printer Sample.scenarioB Sample.grouping
           rows eq_refl eq_refl E).
Defined.

Lemma getHtml_class_attribute_witness :
  truthy (m_css Sample.classMeta) = false
  /\ truthy (m_tdCls Sample.classMeta) = true
  /\ length_positive (m_tdCls Sample.classMeta) = true
  /\ Markup.getHtml (VStr "Alice") Sample.classMeta
     = Markup.getHtml (VStr "Alice")
         (with_tdCls Sample.classMeta (VStr EmptyString))
  /\ exists rest : string,
       Markup.getHtml (VStr "Alice") Sample.classMeta = "<td " ++ rest
       /\ GroupBody.getHtml (VStr "Alice") Sample.classMeta
          = "<td " ++ "class=" ++ dq ++ "hot" ++ dq ++ rest.
Proof.
  destruct (getHtml_class_attribute (VStr "Alice") Sample.classMeta)
    as (_ & H2 & H3).
  split; [reflexivity|]. split; [reflexivity|]. split; [reflexivity|].
  split; [exact (H2 eq_refl) | exact (H3 eq_refl eq_refl eq_refl)].
Defined.

Lemma template_column_cell_witness :
  loose_eq (xtype Sample.templateColumn) (VStr "templatecolumn") = true
  /\ Markup.renderColumn Sample.configA Sample.templateColumn VUndef
       Sample.alice 1
     = "<td ><div  style=" ++ dq ++ "text-align: left;" ++ dq
       ++ " unselectable=" ++ dq ++ "on" ++ dq
       ++ ">Alice (eng)</div></td>"
  /\ Markup.renderColumn Sample.configA Sample.templateColumn VUndef
       Sample.alice 1
     = Markup.renderColumn Sample.configA Sample.templateColumn
         (VStr "other") Sample.alice 1.
Proof.
  destruct (template_column_cell Sample.configA Sample.templateColumn
              Sample.alice 1%Z eq_refl) as [H _].
  destruct (tpl Sample.templateColumn) as [t|] eqn:E; [|discriminate E].
  destruct (H t VUndef (VStr "other") eq_refl) as (_ & H2 & H3).
  split; [reflexivity|]. split; [|exact H3].
  rewrite H2. injection E as <-. reflexivity.
Defined.

Lemma getSummaryRecord42_local_witness :
  Markup.summaryFeature Sample.configSum = Some (Sample.summary VUndef)
  /\ truthy (remoteRoot (Sample.summary VUndef)) = false
  /\ exists rcd : model,
       Markup.getSummaryRecord42 Sample.configSum = Ok rcd
       /\ get rcd (VStr "age") = VNum 96
       /\ get rcd (VStr "name") = VUndef
       /\ lookup "dept" (data rcd) = VUndef.
Proof.
  split; [reflexivity|]. split; [reflexivity|].
  assert (Hnd : NoDup (map (fun col => to_string (dataIndex col))
                         (Markup.columns Sample.configSum))).
  { simpl. repeat constructor; simpl; intuition discriminate. }
  destruct (getSummaryRecord42_local Sample.configSum (Sample.summary VUndef)
              eq_refl eq_refl Hnd) as (rcd & Hr & Hin & Hout).
  exists rcd. split; [exact Hr|]. split; [|split].
  - apply (Hin (Sample.dataColumn "age" false (STValue (VStr "sum")))).
    right. left. reflexivity.
  - apply (Hin Sample.nameColumn). left. reflexivity.
  - apply Hout. simpl. intuition discriminate.
Defined.

Lemma remote_summary_first_entry_witness :
  Markup.summaryFeature Sample.configRemoteFlat
  = Some (Sample.summary (VStr "totals"))
  /\ get_prop (st_rawData (g_store (Markup.cfg_grid Sample.configRemoteFlat)))
       "totals"
     = Ok (VArr [VObj [("age", VNum 99)]; VObj [("age", VNum 1)]])
  /\ Markup.summaryValue Sample.configRemoteFlat Sample.ageColumn
     = Ok (VNum 99).
Proof.
  split; [reflexivity|]. split; [reflexivity|].
  assert (Hnd : NoDup (map fst [("age", VNum 99)])).
  { simpl. repeat constructor. simpl. tauto. }
  destruct (remote_summary_first_entry Sample.configRemoteFlat
              (Sample.summary (VStr "totals")) Sample.ageColumn
              [("age", VNum 99)] [VObj [("age", VNum 1)]]
              eq_refl eq_refl eq_refl Hnd) as [H _].
  exact (H eq_refl).
Defined.

Lemma grouped_summary_renderer_throws_witness :
  GroupBody.columns Sample.groupConfigSummary <> []
  /\ summaryRenderer Sample.boldColumn <> None
  /\ (exists e,
        GroupBody.renderSummary Sample.groupConfigSummary (VStr "eng")
          Sample.boldColumn 2 = Throw e)
  /\ summaryRenderer Sample.nameColumn = None
  /\ exists shown : string,
       GroupBody.renderSummary Sample.groupConfigSummary (VStr "eng")
         Sample.nameColumn 1
       = Ok ("<td><div>" ++ shown ++ "</div></td>").
Proof.
  destruct (grouped_summary_renderer_throws Sample.groupConfigSummary
              (VStr "eng")) as (_ & H2 & H3).
  assert (Hne : GroupBody.columns Sample.groupConfigSummary <> [])
    by discriminate.
  destruct (H2 Hne) as [_ H].
  destruct (H Sample.boldColumn 2%Z) as [_ Hr].
  split; [exact Hne|]. split; [discriminate|]. split.
  - destruct (summaryRenderer Sample.boldColumn) as [r|] eqn:E;
      [|discriminate E].
    exact (Hr r eq_refl).
  - split; [reflexivity|].
    exact (H3 (Sample.groupingsummary VUndef) Sample.nameColumn 1%Z
             eq_refl eq_refl eq_refl).
Defined.

Lemma getSummaryObject_holds_no_value_witness :
  Markup.getSummary (g_store (Markup.cfg_grid Sample.configSum))
    (STValue (VStr "sum")) (VStr "age") false = VNum 96
  /\ "age" <> "style"
  /\ lookup "age" (Markup.getSummaryObject Sample.configSum (VStr "right"))
     = VUndef
  /\ lookup "style" (Markup.getSummaryObject Sample.configSum (VStr "right"))
     = VStr "text-align:right;".
Proof.
  destruct (getSummaryObject_holds_no_value Sample.configSum (VStr "right"))
    as [Hs Hk].
  split; [reflexivity|]. split; [discriminate|].
  split; [apply Hk; discriminate | exact Hs].
Defined.

Lemma getSummaryRcd_result_witness :
  GroupBody.getSummaryRcd (VArr [Sample.zeroKeyEntry; Sample.engEntry])
    (VStr "dept") (VStr "eng") = Ok Sample.engEntry
  /\ In Sample.engEntry [Sample.zeroKeyEntry; Sample.engEntry]
  /\ (exists e,
        GroupBody.getSummaryRcd (VArr [Sample.zeroKeyEntry; VNull])
          (VStr "dept") (VStr "eng") = Throw e)
  /\ isArray Sample.engEntry = false
  /\ get_prop Sample.engEntry "data" = Ok VUndef
  /\ (exists e,
        GroupBody.getSummaryRcd Sample.engEntry (VStr "dept") (VStr "eng")
        = Throw e)
  /\ GroupBody.getSummaryRcd (VObj [("data", Sample.engEntry)])
       (VStr "dept") (VStr "sales")
     = Ok (VObj [("data", Sample.engEntry)]).
Proof.
  destruct getSummaryRcd_result as (H1 & H2 & H3).
  split; [reflexivity|]. split.
  - destruct (H1 [Sample.zeroKeyEntry; Sample.engEntry] (VStr "dept")
                (VStr "eng") Sample.engEntry eq_refl) as [H | [H _]];
      [discriminate H | exact H].
  - split.
    + apply (H2 [Sample.zeroKeyEntry] [] VNull (VStr "dept") (VStr "eng"));
        [right; reflexivity|].
      intros x [<- | []]. exists (VNum 0). split; reflexivity.
    + split; [reflexivity|]. split; [reflexivity|]. split.
      * destruct (H3 Sample.engEntry VUndef (VStr "dept") (VStr "eng")
                    eq_refl eq_refl) as [H _].
        apply H. left. reflexivity.
      * destruct (H3 (VObj [("data", Sample.engEntry)]) Sample.engEntry
                    (VStr "dept") (VStr "sales") eq_refl eq_refl) as [_ H].
        exact (H (VStr "eng") eq_refl).
Defined.

Lemma grouped_template_rows_witness :
  GroupBody.hasSummary Sample.configB = false
  /\ exists rows : list row,
       GroupBody.apply Sample.configB (st_groups (g_store Sample.scenarioB))
       = Ok rows
       /\ filter is_group_header rows
          = [GroupHeaderRow 2 "eng"; GroupHeaderRow 2 "sales"]
       /\ body_classes rows = ["odd"; "even"; "odd"].
Proof.
  split; [reflexivity|].
  destruct (grouped_template_rows Sample.configB
              (st_groups (g_store Sample.scenarioB))) as [H1 H2].
  destruct (H2 eq_refl) as [rows Hr].
  exists rows. split; [exact Hr|]. exact (H1 rows Hr).
Defined.

Lemma printGrid_events_witness :
  In FireAfterPrint (printGrid Sample.automatic Sample.goodBrowser "<html>")
  /\ ~ In (FirePrint false)
         (printGrid Sample.automatic Sample.goodBrowser "<html>")
  /\ printGrid Sample.automatic Sample.goodBrowser "<html>"
     = [FireBeforePrint "<html>"; WindowOpen; DocumentOpen;
        DocumentWrite "<html>"; DocumentClose; WindowPrint; WindowClose;
        FirePrint true; FireAfterPrint]
  /\ successListenerThrows Sample.throwingListener = true
  /\ length (filter is_fire_print
               (printGrid Sample.automatic Sample.throwingListener "<html>"))
     = 2%nat
  /\ ~ In FireAfterPrint
         (printGrid Sample.automatic Sample.throwingListener "<html>")
  /\ printGrid Sample.automatic Sample.throwingListener "<html>"
     = [FireBeforePrint "<html>"; WindowOpen; DocumentOpen;
        DocumentWrite "<html>"; DocumentClose; WindowPrint; WindowClose;
        FirePrint true; FirePrint false]
  /\ opens Sample.blockedBrowser = false
  /\ In (FirePrint false)
       (printGrid Sample.automatic Sample.blockedBrowser "<html>").
Proof.
  destruct (printGrid_events Sample.automatic Sample.goodBrowser "<html>")
    as (_ & _ & Hok & Hafter & Hfail & _).
  destruct (printGrid_events Sample.automatic Sample.throwingListener
              "<html>")
    as (_ & _ & Hok' & Hafter' & _ & Htwo & _).
  destruct (printGrid_events Sample.automatic Sample.blockedBrowser "<html>")
    as (_ & _ & _ & Hafter'' & Hfail'' & _).
  assert (Hin : In (FirePrint true)
                  (printGrid Sample.automatic Sample.goodBrowser "<html>")).
  { apply Hok. repeat split. }
  assert (Hin' : In (FirePrint true)
                   (printGrid Sample.automatic Sample.throwingListener
                      "<html>")).
  { apply Hok'. repeat split. }
  split; [apply Hafter; split; [exact Hin | reflexivity]|].
  split.
  { intros K. apply Hfail in K. destruct K as (_ & _ & K). apply K.
    apply Hafter. split; [exact Hin | reflexivity]. }
  split; [reflexivity|]. split; [reflexivity|].
  split; [apply Htwo; split; [exact Hin' | reflexivity]|].
  split.
  { intros K. apply Hafter' in K. destruct K as [_ K]. discriminate K. }
  split; [reflexivity|]. split; [reflexivity|].
  apply Hfail''. split; [reflexivity|]. split; [reflexivity|].
  intros K. apply Hafter'' in K. destruct K as [K _].
  simpl in K. repeat (destruct K as [K|K]; try discriminate K).
  contradiction.
Defined.


Lemma summary_row_iff_feature_witness :
  exists rows : list row,
    printRows Sample.printer Sample.sumGrid = Ok rows
    /\ getFeature Sample.sumGrid "summary" <> Ok None
    /\ filter is_summary rows <> [].
Proof.
  destruct (printRows Sample.printer Sample.sumGrid) as [rows|e] eqn:E;
    [|vm_compute in E; discriminate E].
  exists rows. split; [reflexivity|]. split; [discriminate|].
  intros H.
  apply (summary_row_iff_feature Sample.printer Sample.sumGrid rows E) in H.
  discriminate H.
Defined.
